(** * Saknli API: a shallow embedding of [main.py] and [schemas.py]

    The development follows the layout of the service: the Python
    built-ins the handlers rely on ([str.lower], [str.split],
    [str.encode], [hashlib.sha256]), the identifier type of the document
    store, the document store itself, the Pydantic models of
    [schemas.py] and of the request bodies, and finally the route
    handlers of [main.py], written in a state-and-exception monad over
    the database. The properties of the handlers follow the
    definitions. *)

From Stdlib Require Import ZArith String Ascii List Bool.
From Stdlib Require QArith.
From stdpp Require Import gmap strings list.

Local Open Scope Z_scope.

(* ===================================================================== *)
(** * Python strings *)
(* ===================================================================== *)

Module py.

(** A header, token, e-mail or role is a [string]: one [ascii] per
    character. Header values reach the handlers decoded as Latin-1, so
    every character of a header is one of the 256 values of [ascii]. *)

Definition code (c : ascii) : Z := Z.of_N (N_of_ascii c).
Definition chr (z : Z) : ascii := ascii_of_N (Z.to_N z).

(** [str.lower] on a Latin-1 character: A-Z, and the accented capitals
    U+00C0..U+00DE except the multiplication sign U+00D7. *)
Definition lower_char (c : ascii) : ascii :=
  let n := code c in
  if ((65 <=? n) && (n <=? 90))
     || ((192 <=? n) && (n <=? 222) && negb (n =? 215))
  then chr (n + 32) else c.

Fixpoint lower (s : string) : string :=
  match s with
  | EmptyString => EmptyString
  | String c s' => String (lower_char c) (lower s')
  end.

(** [str.isspace] on a Latin-1 character, the separators of
    [str.split()] without argument. *)
Definition isspace (c : ascii) : bool :=
  let n := code c in
  ((9 <=? n) && (n <=? 13)) || ((28 <=? n) && (n <=? 32))
  || (n =? 133) || (n =? 160).

(** [s.startswith(p)] *)
Definition startswith (s p : string) : bool := String.prefix p s.

(** [s.split()]: the maximal runs of non-space characters. [cur] is the
    run being read. *)
Fixpoint split_from (cur : string) (s : string) : list string :=
  match s with
  | EmptyString => if String.eqb cur "" then [] else [cur]
  | String c s' =>
      if isspace c
      then (if String.eqb cur "" then split_from "" s'
            else cur :: split_from "" s')
      else split_from (cur +:+ String c "") s'
  end.

Definition split (s : string) : list string := split_from "" s.

(** Truthiness of an optional string: [None] and [""] are falsy. *)
Definition truthy_str (o : option string) : bool :=
  match o with
  | None => false
  | Some s => negb (String.eqb s "")
  end.

(** A Python [str] whose encoding matters (passwords, the salt) is kept
    as its sequence of Unicode code points. *)
Definition ustr := list Z.

Definition ustr_of_string (s : string) : ustr :=
  map code (list_ascii_of_string s).

(** [str.encode()] (UTF-8, strict): a surrogate code point cannot be
    encoded and raises [UnicodeEncodeError], rendered here as [None]. *)
Definition encode_cp (c : Z) : option (list Z) :=
  if c <? 0 then None
  else if c <? 0x80 then Some [c]
  else if c <? 0x800 then Some [0xC0 + c / 64; 0x80 + c mod 64]
  else if (0xD800 <=? c) && (c <=? 0xDFFF) then None
  else if c <? 0x10000 then
    Some [0xE0 + c / 4096; 0x80 + (c / 64) mod 64; 0x80 + c mod 64]
  else if c <? 0x110000 then
    Some [0xF0 + c / 262144; 0x80 + (c / 4096) mod 64;
          0x80 + (c / 64) mod 64; 0x80 + c mod 64]
  else None.

Fixpoint encode (s : ustr) : option (list Z) :=
  match s with
  | [] => Some []
  | c :: s' =>
      match encode_cp c, encode s' with
      | Some b, Some bs => Some (b ++ bs)
      | _, _ => None
      end
  end.

(** The code points of well-formed text: the Unicode scalar values. *)
Definition scalar (c : Z) : bool :=
  (0 <=? c) && (c <? 0x110000) && negb ((0xD800 <=? c) && (c <=? 0xDFFF)).

Definition is_text (s : ustr) : bool := forallb scalar s.

End py.

(* ===================================================================== *)
(** * secrets.token_urlsafe *)
(* ===================================================================== *)

Module secrets.

(** The values [token_urlsafe] returns: non-empty text over the URL-safe
    base-64 alphabet, A-Z a-z 0-9 - and _. *)
Definition urlsafe_char (c : ascii) : bool :=
  let n := py.code c in
  ((65 <=? n) && (n <=? 90)) || ((97 <=? n) && (n <=? 122))
  || ((48 <=? n) && (n <=? 57)) || (n =? 45) || (n =? 95).

Definition is_token (s : string) : bool :=
  negb (String.eqb s "")
  && forallb urlsafe_char (list_ascii_of_string s).

End secrets.

(* ===================================================================== *)
(** * hashlib.sha256 *)
(* ===================================================================== *)

Module hashlib.

(** SHA-256 (FIPS 180-4) over bytes held as [Z] in [0, 256) and 32-bit
    words held as [Z] in [0, 2^32) with the wrap-around written out. *)

Definition add32 (x y : Z) : Z := (x + y) mod 2 ^ 32.
Definition rotr (n x : Z) : Z :=
  Z.lor (Z.shiftr x n) (Z.shiftl x (32 - n) mod 2 ^ 32).
Definition not32 (x : Z) : Z := Z.lxor x 0xffffffff.

Definition Ch (x y z : Z) : Z := Z.lxor (Z.land x y) (Z.land (not32 x) z).
Definition Maj (x y z : Z) : Z :=
  Z.lxor (Z.lxor (Z.land x y) (Z.land x z)) (Z.land y z).
Definition Sigma0 (x : Z) : Z :=
  Z.lxor (Z.lxor (rotr 2 x) (rotr 13 x)) (rotr 22 x).
Definition Sigma1 (x : Z) : Z :=
  Z.lxor (Z.lxor (rotr 6 x) (rotr 11 x)) (rotr 25 x).
Definition sigma0 (x : Z) : Z :=
  Z.lxor (Z.lxor (rotr 7 x) (rotr 18 x)) (Z.shiftr x 3).
Definition sigma1 (x : Z) : Z :=
  Z.lxor (Z.lxor (rotr 17 x) (rotr 19 x)) (Z.shiftr x 10).

(** The round constants: the first 32 bits of the fractional parts of
    the cube roots of the first 64 primes. [icbrt n] is the integer cube
    root of [n < 2^108], found bit by bit. *)
Definition is_prime (n : Z) : bool :=
  (2 <=? n)
  && forallb (fun d => negb (n mod Z.of_nat d =? 0))
       (seq 2 (Z.to_nat n - 2)).

Definition primes : list Z :=
  List.filter is_prime (map Z.of_nat (seq 2 310)).

Definition icbrt (n : Z) : Z :=
  fold_left (fun r b => let r' := r + 2 ^ Z.of_nat b in
                        if r' * r' * r' <=? n then r' else r)
    (rev (seq 0 36)) 0.

Definition K : list Z :=
  map (fun p => icbrt (p * 2 ^ 96) mod 2 ^ 32) primes.

Record state := State {
  ha : Z; hb : Z; hc : Z; hd : Z; he : Z; hf : Z; hg : Z; hh : Z
}.

(** The initial hash value: the first 32 bits of the fractional parts
    of the square roots of the first 8 primes. *)
Definition frac_sqrt (p : Z) : Z := Z.sqrt (p * 2 ^ 64) mod 2 ^ 32.

Definition H0 : state :=
  State (frac_sqrt 2) (frac_sqrt 3) (frac_sqrt 5) (frac_sqrt 7)
        (frac_sqrt 11) (frac_sqrt 13) (frac_sqrt 17) (frac_sqrt 19).

(** Padding: one bit, zeros up to 56 mod 64, the bit length on 64 bits. *)
Definition be_bytes (n : nat) (x : Z) : list Z :=
  map (fun i => Z.shiftr x (8 * Z.of_nat i) mod 256) (rev (seq 0 n)).

Definition pad (msg : list Z) : list Z :=
  let len := Z.of_nat (length msg) in
  msg ++ [0x80] ++ repeat 0 (Z.to_nat ((55 - len) mod 64))
      ++ be_bytes 8 (8 * len).

Fixpoint words (bs : list Z) : list Z :=
  match bs with
  | b0 :: b1 :: b2 :: b3 :: bs' =>
      (b0 * 2 ^ 24 + b1 * 2 ^ 16 + b2 * 2 ^ 8 + b3) :: words bs'
  | _ => []
  end.

Fixpoint chunks (n : nat) (bs : list Z) : list (list Z) :=
  match n with
  | O => []
  | S n' => firstn 64 bs :: chunks n' (skipn 64 bs)
  end.

(** The message schedule: 16 words of the block, then 48 derived ones. *)
Definition schedule_step (w : list Z) : list Z :=
  let t := length w in
  w ++ [add32 (add32 (sigma1 (nth (t - 2) w 0)) (nth (t - 7) w 0))
              (add32 (sigma0 (nth (t - 15) w 0)) (nth (t - 16) w 0))].

Definition schedule (block : list Z) : list Z :=
  Nat.iter 48 schedule_step (words block).

Definition round (s : state) (kw : Z * Z) : state :=
  let t1 := add32 (add32 (add32 (hh s) (Sigma1 (he s)))
                         (add32 (Ch (he s) (hf s) (hg s)) (fst kw)))
                  (snd kw) in
  let t2 := add32 (Sigma0 (ha s)) (Maj (ha s) (hb s) (hc s)) in
  State (add32 t1 t2) (ha s) (hb s) (hc s)
        (add32 (hd s) t1) (he s) (hf s) (hg s).

Definition compress (h : state) (block : list Z) : state :=
  let s := fold_left round (combine K (schedule block)) h in
  State (add32 (ha h) (ha s)) (add32 (hb h) (hb s))
        (add32 (hc h) (hc s)) (add32 (hd h) (hd s))
        (add32 (he h) (he s)) (add32 (hf h) (hf s))
        (add32 (hg h) (hg s)) (add32 (hh h) (hh s)).

Definition sha256 (msg : list Z) : state :=
  let p := pad msg in
  fold_left compress (chunks (length p / 64) p) H0.

(** [hexdigest]: eight hexadecimal digits per word, most significant
    first, from the digits [0-9a-f]. *)
Definition hex_digit (d : Z) : ascii :=
  if d <? 10 then py.chr (48 + d) else py.chr (87 + d).

Definition hex_word (w : Z) : list ascii :=
  map (fun i => hex_digit (Z.shiftr w (4 * Z.of_nat i) mod 16))
      (rev (seq 0 8)).

Definition hexdigest (s : state) : string :=
  string_of_list_ascii
    (hex_word (ha s) ++ hex_word (hb s) ++ hex_word (hc s)
     ++ hex_word (hd s) ++ hex_word (he s) ++ hex_word (hf s)
     ++ hex_word (hg s) ++ hex_word (hh s)).

Definition sha256_hexdigest (msg : list Z) : string := hexdigest (sha256 msg).

End hashlib.

(* ===================================================================== *)
(** * bson.ObjectId *)
(* ===================================================================== *)

Module bson.

(** Modelled from the spec: the identifier type of the document store
    (the [bson] package is not part of the sources). An identifier is
    "conventionally a 24-character hexadecimal string"; [str(oid)] is
    that string with lowercase digits, and [ObjectId(s)] accepts the
    strings of 24 hexadecimal digits of either case. An [ObjectId] is
    therefore kept as its canonical string. A string of 24 characters
    some of which are whitespace is refused here, whatever the library
    makes of it. *)

Definition is_hex_lower (c : ascii) : bool :=
  let n := py.code c in
  ((48 <=? n) && (n <=? 57)) || ((97 <=? n) && (n <=? 102)).

Definition canonical (s : string) : bool :=
  (Z.of_nat (String.length s) =? 24)
  && forallb is_hex_lower (list_ascii_of_string s).

Definition ObjectId : Type := { s : string | canonical s = true }.

(** [str(oid)] *)
Definition str (o : ObjectId) : string := proj1_sig o.

(** [ObjectId(s)]: [None] stands for [bson.errors.InvalidId]. The digits
    A-F are lowered by [py.lower], which maps no other character to a
    hexadecimal digit. *)
Definition parse (s : string) : option ObjectId :=
  match canonical (py.lower s) as b
        return canonical (py.lower s) = b -> option ObjectId with
  | true => fun H => Some (exist _ (py.lower s) H)
  | false => fun _ => None
  end eq_refl.

Definition eqb (a b : ObjectId) : bool := String.eqb (str a) (str b).

End bson.

(* ===================================================================== *)
(** * The document store *)
(* ===================================================================== *)

Module mongo.

(** The values a stored field takes in this program. A price is a
    [float]; every finite float is a rational and floats compare as
    their rationals do, so a price is kept as a [Q]. A calendar date is
    its day number, a timestamp its number of microseconds. *)
Inductive value : Type :=
| VNull
| VBool (b : bool)
| VInt (n : Z)
| VFloat (q : QArith_base.Q)
| VStr (s : string)
| VDate (d : Z)
| VDateTime (t : Z)
| VOid (o : bson.ObjectId)
| VList (l : list string).

(** A document, and a Python [dict] with string keys. *)
Abbreviation doc := (gmap string value).

(** Modelled from the spec: the query language of the document store
    ("filter-based querying, including comparison and logical-OR/AND
    combinators"), the database driver not being part of the sources.
    Numbers compare across [int] and [float]; a comparison operator
    holds only between two numbers, two dates or two timestamps; the
    filter [{k: None}] holds of a document whose field [k] is null or
    missing. The program never queries the list-valued field. *)
Definition num (v : value) : option QArith_base.Q :=
  match v with
  | VInt n => Some (QArith_base.inject_Z n)
  | VFloat q => Some q
  | _ => None
  end.

Definition value_eqb (a b : value) : bool :=
  match a, b with
  | VNull, VNull => true
  | VBool x, VBool y => Bool.eqb x y
  | VStr x, VStr y => String.eqb x y
  | VDate x, VDate y => x =? y
  | VDateTime x, VDateTime y => x =? y
  | VOid x, VOid y => bson.eqb x y
  | VList x, VList y => bool_decide (x = y)
  | _, _ =>
      match num a, num b with
      | Some x, Some y => QArith_base.Qeq_bool x y
      | _, _ => false
      end
  end.

Inductive cmp : Type := gt | gte | lt | lte.

Definition value_compare (a b : value) : option comparison :=
  match a, b with
  | VDate x, VDate y => Some (x ?= y)
  | VDateTime x, VDateTime y => Some (x ?= y)
  | _, _ =>
      match num a, num b with
      | Some x, Some y => Some (QArith_base.Qcompare x y)
      | _, _ => None
      end
  end.

Definition cmp_holds (o : cmp) (a b : value) : bool :=
  match value_compare a b, o with
  | Some Gt, gt => true
  | Some (Gt | Eq), gte => true
  | Some Lt, lt => true
  | Some (Lt | Eq), lte => true
  | _, _ => false
  end.

(** What a filter says of one field: [{k: v}] or [{k: {"$op": v, ...}}]. *)
Inductive cond : Type :=
| Is (v : value)
| Ops (ops : list (cmp * value)).

(** A filter: one field, [{"$and": [...]}], [{"$or": [...]}]. A [dict]
    with several keys is the [And] of its entries, [{}] is [And []]. *)
#[local] Unset Elimination Schemes.
Inductive query : Type :=
| Field (k : string) (c : cond)
| And (qs : list query)
| Or (qs : list query).
#[local] Set Elimination Schemes.

Definition cond_holds (c : cond) (o : option value) : bool :=
  match c, o with
  | Is VNull, None => true
  | Is _, None => false
  | Is v, Some w => value_eqb w v
  | Ops _, None => false
  | Ops ops, Some w => forallb (fun ov => cmp_holds (fst ov) w (snd ov)) ops
  end.

Fixpoint matches (q : query) (d : doc) : bool :=
  match q with
  | Field k c => cond_holds c (d !! k)
  | And qs => forallb (fun q' => matches q' d) qs
  | Or qs => existsb (fun q' => matches q' d) qs
  end.

(** Modelled from the spec: a collection of the document store (the
    [db] handle of [database.py] is not part of the sources): the stored
    documents in insertion order, each under the identifier the store
    assigned to it. *)
Abbreviation collection := (list (bson.ObjectId * doc)).

(** Modelled from the spec: the [dict] a read returns for a stored
    document, with the identifier under [_id]. *)
Definition to_dict (r : bson.ObjectId * doc) : doc :=
  <["_id" := VOid (fst r)]> (snd r).

(** Modelled from the spec: find-many-by-filter, find-one-by-filter (the
    first match) and count-by-filter. *)
Definition find (c : collection) (q : query) : list doc :=
  List.filter (matches q) (map to_dict c).

Definition find_one (c : collection) (q : query) : option doc :=
  head (find c q).

(** Modelled from the spec: the optional result-count limit,
    [cursor.limit(n)]: [0] is no limit, a negative [n] limits to [-n]. *)
Definition limit {A} (n : Z) (l : list A) : list A :=
  if n =? 0 then l else firstn (Z.to_nat (Z.abs n)) l.

Definition count_documents (c : collection) (q : query) : Z :=
  Z.of_nat (length (find c q)).

Definition has_id (c : collection) (o : bson.ObjectId) : bool :=
  existsb (fun r => bson.eqb (fst r) o) c.

(** Modelled from the spec: [update_one] with a field-set operation and
    a stamp of the current server time: the first document the filter
    holds of gets the fields of [$set] and, for every field of
    [$currentDate], the server time. *)
Definition apply_update (set : doc) (stamps : list string) (now : Z)
    (d : doc) : doc :=
  fold_right (fun k acc => <[k := VDateTime now]> acc) (set ∪ d) stamps.

Fixpoint update_first (q : query) (f : doc -> doc) (c : collection)
    : collection :=
  match c with
  | [] => []
  | r :: c' =>
      if matches q (to_dict r) then (fst r, f (snd r)) :: c'
      else r :: update_first q f c'
  end.

(** Modelled from the spec: [delete_one]: the first document the filter
    holds of is removed; when there is none, nothing is. *)
Fixpoint delete_first (q : query) (c : collection) : collection :=
  match c with
  | [] => []
  | r :: c' =>
      if matches q (to_dict r) then c' else r :: delete_first q c'
  end.

(** Modelled from the spec: the database, its collections by name (the
    named-collection accessor); a collection that was never
    written to is empty. *)
Abbreviation database := (gmap string collection).

Definition coll (db : database) (name : string) : collection :=
  default [] (db !! name).

(** Modelled from the spec: [{k: {"$in": vs}}] holds of a document whose
    field [k] equals one of [vs], the [Or] of the equalities; and the
    projection [{"_id": 1}] keeps the identifier only. *)
Definition in_ (k : string) (vs : list value) : query :=
  Or (map (fun v => Field k (Is v)) vs).

Definition project_id (d : doc) : doc :=
  match d !! "_id"%string with
  | Some v => {[ "_id"%string := v ]}
  | None => ∅
  end.

(** The store keeps documents in BSON, which has no calendar date and
    keeps a timestamp to the millisecond. The driver refuses to encode
    a document or a filter that holds a [datetime.date]
    ([bson.errors.InvalidDocument]), and it cuts a [datetime] down to
    the whole millisecond. *)
Definition encodable (v : value) : bool :=
  match v with
  | VDate _ => false
  | _ => true
  end.

Definition millis (t : Z) : Z := t / 1000 * 1000.

Definition to_bson (v : value) : value :=
  match v with
  | VDateTime t => VDateTime (millis t)
  | _ => v
  end.

Definition encode (d : doc) : option doc :=
  if bool_decide (map_Forall (fun _ v => encodable v = true) d)
  then Some (to_bson <$> d)
  else None.

Definition cond_encodable (c : cond) : bool :=
  match c with
  | Is v => encodable v
  | Ops ops => forallb (fun ov => encodable (snd ov)) ops
  end.

Fixpoint query_encodable (q : query) : bool :=
  match q with
  | Field _ c => cond_encodable c
  | And qs => forallb query_encodable qs
  | Or qs => forallb query_encodable qs
  end.

End mongo.

(* ===================================================================== *)
(** * Exceptions and results *)
(* ===================================================================== *)

Module exc.

(** The exceptions a handler can leave uncaught. [NotRendered] marks the
    one place where the embedding is partial: [str(v)] is rendered for
    identifiers and strings only, the only values the handlers apply it
    to. *)
Inductive exception : Type :=
| IndexError
| KeyError
| TypeError
| AttributeError
| InvalidId
| UnicodeEncodeError
| ValidationError
| ResponseValidationError
| DuplicateKeyError
| InvalidDocument
| NotRendered.

(** What a request ends with when it fails: an [HTTPException] raised by
    the handler, or an exception nobody catches. *)
Inductive error : Type :=
| HTTPException (status_code : Z) (detail : string)
| Unhandled (e : exception).

(** The status of the error response; an uncaught exception is answered
    with 500. *)
Definition status (e : error) : Z :=
  match e with
  | HTTPException c _ => c
  | Unhandled _ => 500
  end.

Inductive result (A : Type) : Type :=
| Ok (a : A)
| Err (e : error).

Arguments Ok {A} a.
Arguments Err {A} e.

End exc.

(* ===================================================================== *)
(** * schemas.py and the request bodies *)
(* ===================================================================== *)

Module schemas.

Import mongo exc.

Definition opt_str (o : option string) : value :=
  match o with Some s => VStr s | None => VNull end.

Module User.
Record t := make {
  full_name : string;
  email : string;
  password_hash : string;
  role : string;
  phone : option string;
  city : option string
}.

Definition model_dump (u : t) : doc :=
  list_to_map
    [("full_name", VStr (full_name u)); ("email", VStr (email u));
     ("password_hash", VStr (password_hash u)); ("role", VStr (role u));
     ("phone", opt_str (phone u)); ("city", opt_str (city u))]%string.
End User.

Module Session.
Record t := make {
  user_id : string;
  token : string;
  expires_at : Z
}.

Definition model_dump (s : t) : doc :=
  list_to_map
    [("user_id", VStr (user_id s)); ("token", VStr (token s));
     ("expires_at", VDateTime (expires_at s))]%string.
End Session.

Module Booking.
Record t := make {
  property_id : string;
  user_id : string;
  start_date : Z;
  end_date : Z;
  guests : Z;
  status : string
}.

(** [guests: int = Field(1, ge=1, le=10)] *)
Definition validate (b : t) : result t :=
  if (1 <=? guests b) && (guests b <=? 10) then Ok b
  else Err (Unhandled ValidationError).

Definition model_dump (b : t) : doc :=
  list_to_map
    [("property_id", VStr (property_id b)); ("user_id", VStr (user_id b));
     ("start_date", VDate (start_date b)); ("end_date", VDate (end_date b));
     ("guests", VInt (guests b)); ("status", VStr (status b))]%string.
End Booking.

Definition opt_float (o : option QArith_base.Q) : value :=
  match o with Some q => VFloat q | None => VNull end.

Definition opt_date (o : option Z) : value :=
  match o with Some d => VDate d | None => VNull end.

Module Property.
Record t := make {
  title : string;
  description : string;
  city : string;
  address : string;
  type : string;
  price_per_month : QArith_base.Q;
  images : list string;
  lat : option QArith_base.Q;
  lng : option QArith_base.Q;
  distance_to_university : option string;
  available_from : option Z;
  available_to : option Z;
  host_id : string;
  is_active : bool
}.

(** [price_per_month: float = Field(..., ge=0)] *)
Definition validate (p : t) : result t :=
  if QArith_base.Qle_bool (QArith_base.inject_Z 0) (price_per_month p)
  then Ok p
  else Err (Unhandled ValidationError).

Definition model_dump (p : t) : doc :=
  list_to_map
    [("title", VStr (title p)); ("description", VStr (description p));
     ("city", VStr (city p)); ("address", VStr (address p));
     ("type", VStr (type p)); ("price_per_month", VFloat (price_per_month p));
     ("images", VList (images p)); ("lat", opt_float (lat p));
     ("lng", opt_float (lng p));
     ("distance_to_university", opt_str (distance_to_university p));
     ("available_from", opt_date (available_from p));
     ("available_to", opt_date (available_to p));
     ("host_id", VStr (host_id p)); ("is_active", VBool (is_active p))]%string.
End Property.

End schemas.

Module bodies.

Import mongo exc.

Module SignupBody.
Record t := make {
  full_name : string;
  email : string;
  password : py.ustr;
  role : string;
  phone : option string;
  city : option string
}.

(** The members of the JSON body; [role] is [None] when the body has
    no such member, and then takes the default of the model,
    [role: str = "user"]. *)
Record fields := make_fields {
  f_full_name : string;
  f_email : string;
  f_password : py.ustr;
  f_role : option string;
  f_phone : option string;
  f_city : option string
}.

Definition validate (f : fields) : t :=
  make (f_full_name f) (f_email f) (f_password f)
       (default "user"%string (f_role f)) (f_phone f) (f_city f).
End SignupBody.

Module LoginBody.
Record t := make {
  email : string;
  password : py.ustr
}.
End LoginBody.

Module PropertyUpdate.
Record t := make {
  title : option string;
  description : option string;
  city : option string;
  address : option string;
  type : option string;
  price_per_month : option QArith_base.Q;
  images : option (list string);
  lat : option QArith_base.Q;
  lng : option QArith_base.Q;
  distance_to_university : option string;
  available_from : option Z;
  available_to : option Z;
  is_active : option bool
}.

(** The fields in declaration order; a field that is [None] in Python
    is [None] here. *)
Definition items (b : t) : list (string * option value) :=
  [("title", VStr <$> title b);
   ("description", VStr <$> description b);
   ("city", VStr <$> city b);
   ("address", VStr <$> address b);
   ("type", VStr <$> type b);
   ("price_per_month", VFloat <$> price_per_month b);
   ("images", VList <$> images b);
   ("lat", VFloat <$> lat b);
   ("lng", VFloat <$> lng b);
   ("distance_to_university", VStr <$> distance_to_university b);
   ("available_from", VDate <$> available_from b);
   ("available_to", VDate <$> available_to b);
   ("is_active", VBool <$> is_active b)]%string.

(** [body.model_dump(exclude_none=True)]: the fields that are not
    [None]. *)
Definition keep (kv : string * option value) : option (string * value) :=
  pair (fst kv) <$> snd kv.

Definition model_dump_exclude_none (b : t) : doc :=
  list_to_map (omap keep (items b)).
End PropertyUpdate.

Module BookingCreate.
Record t := make {
  property_id : string;
  start_date : Z;
  end_date : Z;
  guests : Z
}.
End BookingCreate.

Module PropertyCreate.
Record t := make {
  title : string;
  description : string;
  city : string;
  address : string;
  type : string;
  price_per_month : QArith_base.Q;
  images : list string;
  lat : option QArith_base.Q;
  lng : option QArith_base.Q;
  distance_to_university : option string;
  available_from : option Z;
  available_to : option Z
}.
End PropertyCreate.

End bodies.

(* ===================================================================== *)
(** * main.py *)
(* ===================================================================== *)

Module main.

Import mongo exc schemas bodies.

(** ** The handler monad

    A handler reads and writes the database and either returns or
    raises. A write made before an exception is raised stays: there is
    no transaction. *)

Definition M (A : Type) : Type := database -> database * result A.

Definition ret {A} (a : A) : M A := fun db => (db, Ok a).

Definition bind {A B} (m : M A) (k : A -> M B) : M B :=
  fun db =>
    match m db with
    | (db', Ok a) => k a db'
    | (db', Err e) => (db', Err e)
    end.

Definition raise {A} (e : error) : M A := fun db => (db, Err e).

Definition lift {A} (r : result A) : M A := fun db => (db, r).

Notation "x <- m ;; k" := (bind m (fun x => k))
  (at level 100, m at next level, right associativity).

Fixpoint mapM {A B} (f : A -> result B) (l : list A) : result (list B) :=
  match l with
  | [] => Ok []
  | a :: l' =>
      match f a with
      | Err e => Err e
      | Ok b =>
          match mapM f l' with
          | Err e => Err e
          | Ok bs => Ok (b :: bs)
          end
      end
  end.

(** ** Python on dictionaries and values *)

(** [d.get(k)]: [None] for a missing key. *)
Definition get (d : doc) (k : string) : value := default VNull (d !! k).

(** [d[k]] *)
Definition item (d : doc) (k : string) : result value :=
  match d !! k with
  | Some v => Ok v
  | None => Err (Unhandled KeyError)
  end.

(** [a == b] *)
Definition py_num (v : value) : option QArith_base.Q :=
  match v with
  | VBool b => Some (QArith_base.inject_Z (if b then 1 else 0))
  | VInt n => Some (QArith_base.inject_Z n)
  | VFloat q => Some q
  | _ => None
  end.

Definition py_eq (a b : value) : bool :=
  match a, b with
  | VNull, VNull => true
  | VStr x, VStr y => String.eqb x y
  | VDate x, VDate y => x =? y
  | VDateTime x, VDateTime y => x =? y
  | VOid x, VOid y => bson.eqb x y
  | VList x, VList y => bool_decide (x = y)
  | _, _ =>
      match py_num a, py_num b with
      | Some x, Some y => QArith_base.Qeq_bool x y
      | _, _ => false
      end
  end.

(** [str(v)], for the values the handlers render. *)
Definition py_str (v : value) : result string :=
  match v with
  | VOid o => Ok (bson.str o)
  | VStr s => Ok s
  | _ => Err (Unhandled NotRendered)
  end.

(** [if not x: raise e], for [x] the result of [find_one]: [None] and
    the empty dictionary are falsy. *)
Definition truthy_or {A} (x : option doc) (e : error) (k : doc -> M A) : M A :=
  match x with
  | None => raise e
  | Some d => if bool_decide (d = ∅) then raise e else k d
  end.

(** [d["id"] = str(d.pop("_id"))] *)
Definition with_id (d : doc) : result doc :=
  match d !! "_id"%string with
  | None => Err (Unhandled KeyError)
  | Some v =>
      match py_str v with
      | Err e => Err e
      | Ok s => Ok (<["id"%string := VStr s]> (delete "_id"%string d))
      end
  end.

(** ** The collections of [db]

    Modelled from the spec: the operations of a collection handle
    ([db] comes from [database.py], which is not part of the sources),
    as reads and writes of the database the handlers thread. *)

Definition find_one (name : string) (q : query) : M (option doc) :=
  fun db => (db, Ok (mongo.find_one (coll db name) q)).

(** [find(q).limit(lim)], read through: the driver encodes the filter
    when the cursor is first read, and raises on a filter it cannot
    encode. *)
Definition find (name : string) (q : query) (lim : Z) : M (list doc) :=
  fun db =>
    if query_encodable q
    then (db, Ok (limit lim (mongo.find (coll db name) q)))
    else (db, Err (Unhandled InvalidDocument)).

Definition find_all (name : string) (q : query) : M (list doc) :=
  fun db => (db, Ok (mongo.find (coll db name) q)).

Definition count_documents (name : string) (q : query) : M Z :=
  fun db => (db, Ok (mongo.count_documents (coll db name) q)).

(** Modelled from the spec: [insert_one(d).inserted_id]: the driver
    encodes the document, raising on one it cannot encode; the store
    assigns the identifier [oid], refuses one that is already taken,
    and keeps the document as it was encoded. *)
Definition insert_one (name : string) (oid : bson.ObjectId) (d : doc)
    : M bson.ObjectId :=
  fun db =>
    match encode d with
    | None => (db, Err (Unhandled InvalidDocument))
    | Some stored =>
        if has_id (coll db name) oid
        then (db, Err (Unhandled DuplicateKeyError))
        else (<[name := coll db name ++ [(oid, stored)]]> db, Ok oid)
    end.

(** Modelled from the spec: [update_one(q, {"$set": set,
    "$currentDate": stamps})]: the driver encodes the fields to set,
    raising on what it cannot encode, and the store updates the first
    document the filter holds of. *)
Definition update_one (name : string) (q : query) (set : doc)
    (stamps : list string) (now : Z) : M unit :=
  fun db =>
    match encode set with
    | None => (db, Err (Unhandled InvalidDocument))
    | Some set =>
        match mongo.find_one (coll db name) q with
        | None => (db, Ok tt)
        | Some _ =>
            (<[name := update_first q (apply_update set stamps now)
                         (coll db name)]> db, Ok tt)
        end
    end.

Definition delete_one (name : string) (q : query) : M unit :=
  fun db =>
    match mongo.find_one (coll db name) q with
    | None => (db, Ok tt)
    | Some _ => (<[name := delete_first q (coll db name)]> db, Ok tt)
    end.

Definition by_id (o : bson.ObjectId) : query := Field "_id" (Is (VOid o)).

(** ** Helpers *)

Section Handlers.

(** The process environment, read by [os.getenv]. *)
Variable environ : gmap string py.ustr.

(** [os.getenv(key, fallback)] *)
Definition getenv (key : string) (fallback : py.ustr) : py.ustr :=
  default fallback (environ !! key).

Definition hash_password (password : py.ustr) : result string :=
  let salt := getenv "PW_SALT" (py.ustr_of_string "saknli_salt") in
  match py.encode (password ++ salt) with
  | Some bytes => Ok (hashlib.sha256_hexdigest bytes)
  | None => Err (Unhandled UnicodeEncodeError)
  end.

Definition to_object_id (id_str : string) : result bson.ObjectId :=
  match bson.parse id_str with
  | Some o => Ok o
  | None => Err (HTTPException 400 "معرف غير صالح")
  end.

(** [user_safe(u)] for a dictionary [u]; [user_safe(None)] is [None] and
    is dealt with where [signup] calls it. *)
Definition user_safe (u : doc) : result doc :=
  if bool_decide (u = ∅) then Ok u
  else with_id (delete "password_hash"%string u).

(** [session["user_id"] if isinstance(..., ObjectId) else ObjectId(...)].
    [ObjectId(None)] makes a new identifier, one that no stored document
    has: it is rendered as [None]. *)
Definition session_user_id (v : value) : result (option bson.ObjectId) :=
  match v with
  | VOid o => Ok (Some o)
  | VStr s =>
      match bson.parse s with
      | Some o => Ok (Some o)
      | None => Err (Unhandled InvalidId)
      end
  | VNull => Ok None
  | _ => Err (Unhandled TypeError)
  end.

(** [timedelta(days=n)], in microseconds. *)
Definition timedelta_days (n : Z) : Z := n * 86400 * 1000000.

(** [now] is the value of [datetime.utcnow()]. *)
Definition get_current_user (authorization : option string) (now : Z)
    : M doc :=
  if negb (py.truthy_str authorization)
     || negb (py.startswith (py.lower (default "" authorization)) "bearer ")
  then raise (HTTPException 401 "يرجى تسجيل الدخول")
  else
    token <- lift (match py.split (default "" authorization) !! 1%nat with
                   | Some t => Ok t
                   | None => Err (Unhandled IndexError)
                   end) ;;
    session <- find_one "session"
                 (And [Field "token" (Is (VStr token));
                       Field "expires_at" (Ops [(gt, VDateTime now)])]) ;;
    truthy_or session (HTTPException 401 "انتهت الجلسة أو غير صالحة")
      (fun session =>
         v <- lift (item session "user_id") ;;
         uid <- lift (session_user_id v) ;;
         user <- match uid with
                 | Some o => find_one "user" (by_id o)
                 | None => ret None
                 end ;;
         truthy_or user (HTTPException 401 "المستخدم غير موجود")
           (fun user => lift (user_safe user))).

(** ** Auth *)

(** [class TokenResponse]: [{"token": ..., "user": ...}] *)
Record TokenResponse := { token : string; user : doc }.

(** [uid] and [sid] are the identifiers the store assigns to the two
    inserted documents, [tok] the value of [secrets.token_urlsafe(32)]. *)
Definition signup (body : SignupBody.t) (now : Z)
    (uid sid : bson.ObjectId) (tok : string) : M TokenResponse :=
  existing <- find_one "user" (Field "email" (Is (VStr (SignupBody.email body)))) ;;
  if match existing with
     | Some d => negb (bool_decide (d = ∅))
     | None => false
     end
  then raise (HTTPException 400 "البريد الإلكتروني مستخدم مسبقاً")
  else
    h <- lift (hash_password (SignupBody.password body)) ;;
    let user_doc :=
      User.model_dump
        (User.make (SignupBody.full_name body) (SignupBody.email body) h
                   (SignupBody.role body) (SignupBody.phone body)
                   (SignupBody.city body)) in
    user_id <- insert_one "user" uid user_doc ;;
    let session_doc :=
      Session.model_dump
        (Session.make (bson.str user_id) tok (now + timedelta_days 7)) in
    let session_doc := <["user_id"%string := VOid user_id]> session_doc in
    _ <- insert_one "session" sid session_doc ;;
    u <- find_one "user" (by_id user_id) ;;
    match u with
    | None => raise (Unhandled ResponseValidationError)
    | Some u =>
        safe <- lift (user_safe u) ;;
        ret {| token := tok; user := safe |}
    end.

Definition login (body : LoginBody.t) (now : Z)
    (sid : bson.ObjectId) (tok : string) : M TokenResponse :=
  u <- find_one "user" (Field "email" (Is (VStr (LoginBody.email body)))) ;;
  truthy_or u (HTTPException 401 "بيانات الدخول غير صحيحة")
    (fun u =>
       h <- lift (hash_password (LoginBody.password body)) ;;
       if negb (py_eq (get u "password_hash") (VStr h))
       then raise (HTTPException 401 "بيانات الدخول غير صحيحة")
       else
         idv <- lift (item u "_id") ;;
         s <- lift (py_str idv) ;;
         let session_doc :=
           Session.model_dump
             (Session.make s tok (now + timedelta_days 7)) in
         let session_doc := <["user_id"%string := idv]> session_doc in
         _ <- insert_one "session" sid session_doc ;;
         safe <- lift (user_safe u) ;;
         ret {| token := tok; user := safe |}).

(** [GET /me] *)
Definition me (u : doc) : M doc := ret u.

(** [Depends(get_current_user)]: a protected route resolves the caller
    before its handler runs. *)
Definition protected {A} (authorization : option string) (now : Z)
    (handler : doc -> M A) : M A :=
  caller <- get_current_user authorization now ;;
  handler caller.

(** ** Properties *)

Definition list_properties (city type : option string)
    (min_price max_price : option QArith_base.Q)
    (start_date end_date : option Z) (lim : Z) : M (list doc) :=
  let q := [Field "is_active" (Is (VBool true))] in
  let q := if py.truthy_str city
           then q ++ [Field "city" (Is (VStr (default "" city)))] else q in
  let q := if py.truthy_str type
           then q ++ [Field "type" (Is (VStr (default "" type)))] else q in
  let price_cond : list (cmp * value) := [] in
  let price_cond := match min_price with
                    | Some m => price_cond ++ [(gte, VFloat m)]
                    | None => price_cond
                    end in
  let price_cond := match max_price with
                    | Some m => price_cond ++ [(lte, VFloat m)]
                    | None => price_cond
                    end in
  let q := match price_cond with
           | [] => q
           | _ :: _ => q ++ [Field "price_per_month" (Ops price_cond)]
           end in
  let q := match start_date, end_date with
           | Some s, Some e =>
               q ++ [And [Or [Field "available_from" (Is VNull);
                              Field "available_from" (Ops [(lte, VDate e)])];
                          Or [Field "available_to" (Is VNull);
                              Field "available_to" (Ops [(gte, VDate s)])]]]
           | _, _ => q
           end in
  docs <- find "property" (And q) lim ;;
  lift (mapM with_id docs).

Definition get_property (prop_id : string) : M doc :=
  oid <- lift (to_object_id prop_id) ;;
  d <- find_one "property" (by_id oid) ;;
  truthy_or d (HTTPException 404 "السكن غير موجود")
    (fun d => lift (with_id d)).

(** [now] is the time the store stamps with [$currentDate]. *)
Definition update_property (prop_id : string) (body : PropertyUpdate.t)
    (caller : doc) (now : Z) : M doc :=
  oid <- lift (to_object_id prop_id) ;;
  p <- find_one "property" (by_id oid) ;;
  truthy_or p (HTTPException 404 "السكن غير موجود")
    (fun p =>
       if negb (py_eq (get caller "role") (VStr "admin"))
          && negb (py_eq (get p "host_id") (get caller "id"))
       then raise (HTTPException 403 "ليس لديك إذن للتعديل")
       else
         let update := PropertyUpdate.model_dump_exclude_none body in
         if bool_decide (update = ∅)
         then ret {[ "updated"%string := VBool false ]}
         else
           pid <- lift (item p "_id") ;;
           _ <- update_one "property" (Field "_id" (Is pid)) update
                  ["updated_at"%string] now ;;
           p' <- find_one "property" (Field "_id" (Is pid)) ;;
           match p' with
           | None => raise (Unhandled AttributeError)
           | Some p' => lift (with_id p')
           end).

(** ** Bookings *)

(** [ObjectId(s)] outside [to_object_id] *)
Definition ObjectId (s : string) : result bson.ObjectId :=
  match bson.parse s with
  | Some o => Ok o
  | None => Err (Unhandled InvalidId)
  end.

(** [bid] is the identifier the store assigns to the booking. *)
Definition create_booking (body : BookingCreate.t) (caller : doc)
    (bid : bson.ObjectId) : M doc :=
  if BookingCreate.end_date body <? BookingCreate.start_date body
  then raise (HTTPException 400 "نطاق التواريخ غير صالح")
  else
    oid <- lift (to_object_id (BookingCreate.property_id body)) ;;
    prop <- find_one "property" (by_id oid) ;;
    truthy_or prop (HTTPException 404 "السكن غير موجود")
      (fun _ =>
         cid <- lift (item caller "id") ;;
         cid <- lift (match cid with
                      | VStr s => Ok s
                      | _ => Err (Unhandled ValidationError)
                      end) ;;
         b <- lift (Booking.validate
                      (Booking.make (BookingCreate.property_id body) cid
                         (BookingCreate.start_date body)
                         (BookingCreate.end_date body)
                         (BookingCreate.guests body) "pending")) ;;
         let booking := Booking.model_dump b in
         po <- lift (ObjectId (Booking.property_id b)) ;;
         let booking := <["property_id"%string := VOid po]> booking in
         uo <- lift (ObjectId (Booking.user_id b)) ;;
         let booking := <["user_id"%string := VOid uo]> booking in
         inserted <- insert_one "booking" bid booking ;;
         b <- find_one "booking" (by_id inserted) ;;
         match b with
         | None => raise (Unhandled AttributeError)
         | Some b =>
             b <- lift (with_id b) ;;
             pv <- lift (item b "property_id") ;;
             ps <- lift (py_str pv) ;;
             let b := <["property_id"%string := VStr ps]> b in
             uv <- lift (item b "user_id") ;;
             us <- lift (py_str uv) ;;
             ret (<["user_id"%string := VStr us]> b)
         end).

(** ** Admin *)

Definition admin_stats (caller : doc) : M doc :=
  if negb (py_eq (get caller "role") (VStr "admin"))
  then raise (HTTPException 403 "صلاحيات المسؤول مطلوبة")
  else
    users <- count_documents "user" (And []) ;;
    hosts <- count_documents "user" (Field "role" (Is (VStr "host"))) ;;
    properties <- count_documents "property" (And []) ;;
    bookings <- count_documents "booking" (And []) ;;
    ret (list_to_map
           [("users", VInt users); ("hosts", VInt hosts);
            ("properties", VInt properties);
            ("bookings", VInt bookings)]%string).

Definition admin_users (caller : doc) : M (list doc) :=
  if negb (py_eq (get caller "role") (VStr "admin"))
  then raise (HTTPException 403 "صلاحيات المسؤول مطلوبة")
  else
    cur <- find_all "user" (And []) ;;
    lift (mapM user_safe cur).

Definition admin_delete_property (prop_id : string) (caller : doc)
    : M doc :=
  if negb (py_eq (get caller "role") (VStr "admin"))
  then raise (HTTPException 403 "صلاحيات المسؤول مطلوبة")
  else
    oid <- lift (to_object_id prop_id) ;;
    _ <- delete_one "property" (by_id oid) ;;
    ret {[ "deleted"%string := VBool true ]}.

(** ** The other property and booking routes *)

(** [v in ["host", "admin"]] *)
Definition host_or_admin (v : value) : bool :=
  py_eq v (VStr "host") || py_eq v (VStr "admin").

(** The [PropertySchema] built from the dumped body and [host_id]: the
    fields of the body, the host, and the default of [is_active]. *)
Definition property_of (body : PropertyCreate.t) (host_id : string)
    : Property.t :=
  Property.make (PropertyCreate.title body) (PropertyCreate.description body)
    (PropertyCreate.city body) (PropertyCreate.address body)
    (PropertyCreate.type body) (PropertyCreate.price_per_month body)
    (PropertyCreate.images body) (PropertyCreate.lat body)
    (PropertyCreate.lng body) (PropertyCreate.distance_to_university body)
    (PropertyCreate.available_from body) (PropertyCreate.available_to body)
    host_id true.

(** [pid] is the identifier the store assigns to the property. *)
Definition create_property (body : PropertyCreate.t) (caller : doc)
    (pid : bson.ObjectId) : M doc :=
  if negb (host_or_admin (get caller "role"))
  then raise (HTTPException 403 "صلاحيات غير كافية")
  else
    cid <- lift (item caller "id") ;;
    cid <- lift (match cid with
                 | VStr s => Ok s
                 | _ => Err (Unhandled ValidationError)
                 end) ;;
    prop <- lift (Property.validate (property_of body cid)) ;;
    inserted <- insert_one "property" pid (Property.model_dump prop) ;;
    p <- find_one "property" (by_id inserted) ;;
    match p with
    | None => raise (Unhandled AttributeError)
    | Some p => lift (with_id p)
    end.

Definition delete_property (prop_id : string) (caller : doc) : M doc :=
  oid <- lift (to_object_id prop_id) ;;
  p <- find_one "property" (by_id oid) ;;
  truthy_or p (HTTPException 404 "السكن غير موجود")
    (fun p =>
       if negb (py_eq (get caller "role") (VStr "admin"))
          && negb (py_eq (get p "host_id") (get caller "id"))
       then raise (HTTPException 403 "ليس لديك إذن للحذف")
       else
         pid <- lift (item p "_id") ;;
         _ <- delete_one "property" (Field "_id" (Is pid)) ;;
         ret {[ "deleted"%string := VBool true ]}).

Definition and_then {A B} (r : result A) (k : A -> result B) : result B :=
  match r with
  | Ok a => k a
  | Err e => Err e
  end.

(** The body of the loops of [my_bookings] and [host_bookings]:
    [b["id"] = str(b.pop("_id"))], then the two references turned into
    strings. *)
Definition stringify (b : doc) : result doc :=
  and_then (with_id b) (fun b =>
  and_then (item b "property_id") (fun pv =>
  and_then (py_str pv) (fun ps =>
  let b := <["property_id"%string := VStr ps]> b in
  and_then (item b "user_id") (fun uv =>
  and_then (py_str uv) (fun us =>
  Ok (<["user_id"%string := VStr us]> b)))))).

(** [ObjectId(v)] for any value: an identifier is kept, a string is
    parsed, [None] makes a new identifier (rendered as [None]: no stored
    document refers to it), anything else is a [TypeError]. *)
Definition ObjectId_of (v : value) : result (option bson.ObjectId) :=
  match v with
  | VOid o => Ok (Some o)
  | VStr s =>
      match bson.parse s with
      | Some o => Ok (Some o)
      | None => Err (Unhandled InvalidId)
      end
  | VNull => Ok None
  | _ => Err (Unhandled TypeError)
  end.

Definition my_bookings (caller : doc) : M (list doc) :=
  cid <- lift (item caller "id") ;;
  uid <- lift (ObjectId_of cid) ;;
  match uid with
  | None => ret []
  | Some o =>
      cur <- find_all "booking" (Field "user_id" (Is (VOid o))) ;;
      lift (mapM stringify cur)
  end.

Definition host_bookings (caller : doc) : M (list doc) :=
  if negb (host_or_admin (get caller "role"))
  then raise (HTTPException 403 "صلاحيات غير كافية")
  else
    cid <- lift (item caller "id") ;;
    props <- find_all "property" (Field "host_id" (Is cid)) ;;
    prop_ids <- lift (mapM (fun p => item (project_id p) "_id") props) ;;
    cur <- find_all "booking" (in_ "property_id" prop_ids) ;;
    lift (mapM stringify cur).

End Handlers.

End main.

(* ===================================================================== *)
(** * main.py: the routes *)
(* ===================================================================== *)

Module routes.

Import mongo exc schemas bodies main.

Section Routes.

Variable environ : gmap string py.ustr.

(** One request served, as the database before it and the database
    after it, whether it is answered or fails. A route declared with
    [Depends(get_current_user)] first resolves the caller from the
    header, at the instant [now]; the identifiers, the token and the
    instants are those the store, [secrets] and the clock give to the
    request. The routes [/] and [/test] do not use the collections and
    are left out. *)
Inductive serves : database -> database -> Prop :=
| post_auth_signup body now uid sid tok db :
    serves db (fst (signup environ body now uid sid tok db))
| post_auth_login body now sid tok db :
    serves db (fst (login environ body now sid tok db))
| get_me authorization now db :
    serves db (fst (protected authorization now me db))
| get_properties city type min_price max_price start_date end_date lim db :
    serves db (fst (list_properties city type min_price max_price
                      start_date end_date lim db))
| get_properties_id prop_id db :
    serves db (fst (get_property prop_id db))
| post_properties authorization now body pid db :
    serves db (fst (protected authorization now
                      (fun user => create_property body user pid) db))
| put_properties_id authorization now prop_id body stamp db :
    serves db (fst (protected authorization now
                      (fun user => update_property prop_id body user stamp) db))
| delete_properties_id authorization now prop_id db :
    serves db (fst (protected authorization now
                      (fun user => delete_property prop_id user) db))
| post_bookings authorization now body bid db :
    serves db (fst (protected authorization now
                      (fun user => create_booking body user bid) db))
| get_bookings_me authorization now db :
    serves db (fst (protected authorization now my_bookings db))
| get_host_bookings authorization now db :
    serves db (fst (protected authorization now host_bookings db))
| get_admin_stats authorization now db :
    serves db (fst (protected authorization now admin_stats db))
| get_admin_users authorization now db :
    serves db (fst (protected authorization now admin_users db))
| delete_admin_properties_id authorization now prop_id db :
    serves db (fst (protected authorization now
                      (fun user => admin_delete_property prop_id user) db)).

(** The databases the application reaches from the empty one, one
    request after another. *)
Inductive reachable : database -> Prop :=
| reachable_empty : reachable ∅
| reachable_step db db' : reachable db -> serves db db' -> reachable db'.

End Routes.

End routes.

(* ===================================================================== *)
(** * main.py: the connectivity check *)
(* ===================================================================== *)

Module health.

(** [db] as [test_database] sees it: [None] when no connection was
    made, and otherwise a handle whose [list_collection_names()] returns
    the names or raises an exception [e], of which [str(e)] is kept. The
    texts of the report are sequences of code points, the marks being
    U+2705, U+274C and U+26A0 U+FE0F. *)
Inductive handle : Type :=
| Lists (names : list string)
| Fails (message : py.ustr).

Record report := Report {
  backend : py.ustr;
  database : py.ustr;
  database_url : py.ustr;
  database_name : py.ustr;
  connection_status : py.ustr;
  collections : list string
}.

Definition check_mark : py.ustr := [0x2705].
Definition cross_mark : py.ustr := [0x274C].
Definition warning_sign : py.ustr := [0x26A0; 0xFE0F].

Section Check.

Variable environ : gmap string py.ustr.

(** [if os.getenv(key)]: unset and empty are falsy. *)
Definition env_set (key : string) : bool :=
  match environ !! key with
  | Some (_ :: _) => true
  | _ => false
  end.

Definition set_or_not (key : string) : py.ustr :=
  if env_set key then check_mark ++ py.ustr_of_string " Set"
  else cross_mark ++ py.ustr_of_string " Not Set".

Definition test_database (db : option handle) : report :=
  let response :=
    Report (check_mark ++ py.ustr_of_string " Running")
           (cross_mark ++ py.ustr_of_string " Not Available")
           (set_or_not "DATABASE_URL") (set_or_not "DATABASE_NAME")
           (py.ustr_of_string "Not Connected") [] in
  match db with
  | None => response
  | Some h =>
      let response :=
        Report (backend response)
               (check_mark ++ py.ustr_of_string " Connected")
               (database_url response) (database_name response)
               (py.ustr_of_string "Connected") (collections response) in
      match h with
      | Lists names =>
          Report (backend response) (database response)
                 (database_url response) (database_name response)
                 (connection_status response) (firstn 10 names)
      | Fails message =>
          Report (backend response)
                 (warning_sign ++ py.ustr_of_string " " ++ firstn 80 message)
                 (database_url response) (database_name response)
                 (connection_status response) (collections response)
      end
  end.

End Check.

End health.

(* ===================================================================== *)
(** * The vocabulary of the statements *)
(* ===================================================================== *)

Module spec.

Import mongo exc schemas bodies main.

(** The public view of a stored user: every stored field but
    [password_hash], the identifier under [id]. *)
Definition public_view (r : bson.ObjectId * doc) : doc :=
  <["id"%string := VStr (bson.str (fst r))]>
    (delete "_id"%string (delete "password_hash"%string (to_dict r))).

(** The view of any other stored document: the identifier under [id]. *)
Definition record_view (r : bson.ObjectId * doc) : doc :=
  <["id"%string := VStr (bson.str (fst r))]> (delete "_id"%string (to_dict r)).

(** The user document [signup] stores for a body and a credential. *)
Definition signup_user_doc (body : SignupBody.t) (h : string) : doc :=
  User.model_dump
    (User.make (SignupBody.full_name body) (SignupBody.email body) h
       (SignupBody.role body) (SignupBody.phone body) (SignupBody.city body)).

(** The session document issued at [now] for the user [uid]. *)
Definition issued_session (uid : value) (s tok : string) (now : Z) : doc :=
  <["user_id"%string := uid]>
    (Session.model_dump (Session.make s tok (millis (now + timedelta_days 7)))).

(** The two filters of the authentication code. *)
Definition session_query (tok : string) (now : Z) : query :=
  And [Field "token" (Is (VStr tok));
       Field "expires_at" (Ops [(gt, VDateTime now)])].

Definition email_query (e : string) : query := Field "email" (Is (VStr e)).

(** A stored document after [update_one] with [$set: update] and
    [$currentDate: {updated_at: true}] at the server time [now]. *)
Definition stamped (update : doc) (now : Z) (stored : doc) : doc :=
  <["updated_at"%string := VDateTime now]> (update ∪ stored).

(** The body of an update gives an availability date. *)
Definition dated (body : PropertyUpdate.t) : bool :=
  match PropertyUpdate.available_from body, PropertyUpdate.available_to body with
  | None, None => false
  | _, _ => true
  end.

(** The search filter in the words of the specification: the property
    is active; its city and its type are the requested ones, when one is
    requested; its price is within the bounds given, both inclusive;
    and, when both dates are given, it is available from no later than
    the requested end and until no earlier than the requested start, an
    absent bound being no bound. A requested city or type that is the
    empty string counts as not requested. *)
Definition is_value (d : doc) (k : string) (v : value) : bool :=
  match d !! k with
  | Some w => value_eqb w v
  | None => false
  end.

Definition absent (d : doc) (k : string) : bool :=
  match d !! k with
  | None | Some VNull => true
  | Some _ => false
  end.

Definition requested (d : doc) (k : string) (o : option string) : bool :=
  match o with
  | None => true
  | Some s => String.eqb s "" || is_value d k (VStr s)
  end.

Definition price_within (d : doc) (lo hi : option QArith_base.Q) : bool :=
  match lo, hi with
  | None, None => true
  | _, _ =>
      match d !! "price_per_month"%string with
      | Some v =>
          match num v with
          | Some p =>
              match lo with
              | Some m => QArith_base.Qle_bool m p
              | None => true
              end
              && match hi with
                 | Some m => QArith_base.Qle_bool p m
                 | None => true
                 end
          | None => false
          end
      | None => false
      end
  end.

Definition date_field (d : doc) (k : string) : option Z :=
  match d !! k with
  | Some (VDate x) => Some x
  | _ => None
  end.

Definition available (d : doc) (start_date end_date : option Z) : bool :=
  match start_date, end_date with
  | Some s, Some e =>
      (absent d "available_from"
       || match date_field d "available_from" with
          | Some x => x <=? e
          | None => false
          end)
      && (absent d "available_to"
          || match date_field d "available_to" with
             | Some x => s <=? x
             | None => false
             end)
  | _, _ => true
  end.

Definition qualifies (city type : option string)
    (min_price max_price : option QArith_base.Q)
    (start_date end_date : option Z) (d : doc) : bool :=
  is_value d "is_active" (VBool true)
  && requested d "city" city
  && requested d "type" type
  && price_within d min_price max_price
  && available d start_date end_date.

(** A property of every run of a handler: [P] relates the database
    before to the database after, whether the handler returns or
    raises. *)
Definition preserves {A} (P : database -> database -> Prop) (m : M A) : Prop :=
  forall db, P db (fst (m db)).

(** [c'] is [c] with documents appended. *)
Definition grows (c c' : collection) : Prop := exists l, c' = c ++ l.

(** Outside the collection of properties, nothing is removed or changed. *)
Definition append_only (db db' : database) : Prop :=
  forall name, name <> "property"%string -> grows (coll db name) (coll db' name).

(** The database is left as it was. *)
Definition untouched (db db' : database) : Prop := db' = db.

(** Only the collections [names] may differ. *)
Definition only_writes (names : list string) (db db' : database) : Prop :=
  forall name, ~ In name names -> coll db' name = coll db name.

(** No two documents of a collection have the same identifier. *)
Definition unique_ids (db : database) : Prop :=
  forall name, NoDup (map fst (coll db name)).

(** A booking as [create_booking] builds it: pending, its two
    references being identifiers. *)
Definition booking_shape (b : doc) : Prop :=
  b !! "status"%string = Some (VStr "pending")
  /\ (exists o, b !! "property_id"%string = Some (VOid o))
  /\ (exists o, b !! "user_id"%string = Some (VOid o)).

Definition bookings_pending (db : database) : Prop :=
  Forall (fun r => booking_shape (snd r)) (coll db "booking").

(** The string has no whitespace character. *)
Definition nospace (s : string) : bool :=
  forallb (fun c => negb (py.isspace c)) (list_ascii_of_string s).

(** The view of a stored booking in the lists of [my_bookings] and
    [host_bookings]: the identifier under [id] and the two references
    as strings. *)
Definition ref (d : doc) (k : string) : string :=
  match d !! k with
  | Some (VOid o) => bson.str o
  | Some (VStr s) => s
  | _ => ""
  end.

Definition booking_listed (r : bson.ObjectId * doc) : doc :=
  <["user_id"%string := VStr (ref (snd r) "user_id")]>
    (<["property_id"%string := VStr (ref (snd r) "property_id")]> (record_view r)).

(** The booking was made by the user [o]; the property is hosted by the
    caller whose identifier is the string [i]; the booking is for one of
    the properties [c]. *)
Definition booked_by (o : bson.ObjectId) (b : bson.ObjectId * doc) : bool :=
  is_value (snd b) "user_id" (VOid o).

Definition hosted_by (i : string) (p : bson.ObjectId * doc) : bool :=
  is_value (snd p) "host_id" (VStr i).

Definition booked_at (c : collection) (b : bson.ObjectId * doc) : bool :=
  existsb (fun p => is_value (snd b) "property_id" (VOid (fst p))) c.

(** One write of a handler, with what the invariants of the database
    need to know of it: a user under a new identifier, with an e-mail
    no stored user has; a session or a property under a new identifier,
    for a stored user; a property changed in place, its identifier and
    its host kept; and a property removed. No handler writes a
    booking. *)
Inductive change (db : database) : database -> Prop :=
| new_user uid d :
    has_id (coll db "user") uid = false ->
    (forall r, In r (coll db "user") ->
               snd r !! "email"%string <> d !! "email"%string) ->
    change db (<["user"%string := coll db "user" ++ [(uid, d)]]> db)
| new_session sid s r :
    has_id (coll db "session") sid = false ->
    In r (coll db "user") ->
    s !! "user_id"%string = Some (VOid (fst r)) ->
    change db (<["session"%string := coll db "session" ++ [(sid, s)]]> db)
| new_property pid p r :
    has_id (coll db "property") pid = false ->
    In r (coll db "user") ->
    p !! "host_id"%string = Some (VStr (bson.str (fst r))) ->
    change db (<["property"%string := coll db "property" ++ [(pid, p)]]> db)
| changed_property pre o p p' post :
    coll db "property" = pre ++ (o, p) :: post ->
    p' !! "host_id"%string = p !! "host_id"%string ->
    change db (<["property"%string := pre ++ (o, p') :: post]> db)
| removed_property pre r post :
    coll db "property" = pre ++ r :: post ->
    change db (<["property"%string := pre ++ post]> db).

(** No two stored users have the same e-mail. *)
Definition unique_emails (db : database) : Prop :=
  NoDup (map (fun r : bson.ObjectId * doc => snd r !! "email"%string) (coll db "user")).

(** Every session and every booking is of a stored user, and every
    property is hosted by one. *)
Definition of_a_user (db : database) (v : option value) : Prop :=
  exists r, In r (coll db "user") /\ v = Some (VOid (fst r)).

Definition hosted_by_a_user (db : database) (v : option value) : Prop :=
  exists r, In r (coll db "user") /\ v = Some (VStr (bson.str (fst r))).

Definition references_hold (db : database) : Prop :=
  Forall (fun s => of_a_user db (snd s !! "user_id"%string)) (coll db "session")
  /\ Forall (fun b => of_a_user db (snd b !! "user_id"%string)) (coll db "booking")
  /\ Forall (fun p => hosted_by_a_user db (snd p !! "host_id"%string)) (coll db "property").

End spec.

(* ===================================================================== *)
(** * Sample data *)
(* ===================================================================== *)

Module samples.

Import mongo exc schemas bodies main.

Definition u1 : bson.ObjectId := exist _ "0000000000000000000000a1"%string eq_refl.
Definition u2 : bson.ObjectId := exist _ "0000000000000000000000a2"%string eq_refl.
Definition s1 : bson.ObjectId := exist _ "0000000000000000000000b1"%string eq_refl.
Definition s2 : bson.ObjectId := exist _ "0000000000000000000000b2"%string eq_refl.
Definition p1 : bson.ObjectId := exist _ "0000000000000000000000c1"%string eq_refl.
Definition p2 : bson.ObjectId := exist _ "0000000000000000000000c2"%string eq_refl.
Definition p3 : bson.ObjectId := exist _ "0000000000000000000000c3"%string eq_refl.
Definition b1 : bson.ObjectId := exist _ "0000000000000000000000d1"%string eq_refl.
Definition b2 : bson.ObjectId := exist _ "0000000000000000000000d2"%string eq_refl.

(** No [PW_SALT] in the environment. *)
Definition environ : gmap string py.ustr := ∅.

Definition password : py.ustr := py.ustr_of_string "secret".

Definition admin_fields : SignupBody.fields :=
  SignupBody.make_fields "Ali" "ali@example.com" password
    (Some "admin"%string) None None.

Definition plain_fields : SignupBody.fields :=
  SignupBody.make_fields "Ali" "ali@example.com" password None None None.

Definition tok : string := "dG9rZW4tMQ".

(** A database where [ali@example.com] has signed up. *)
Definition ali : doc :=
  User.model_dump
    (User.make "Ali" "ali@example.com"
       "d2f0f42984269e288f8b9342d5d8983e06c7a7c6486f12b2c22ffad39263fce3"
       "user" None None).

Definition db_ali : database := {[ "user"%string := [(u1, ali)] ]}.

(** Callers, as [get_current_user] returns them. *)
Definition host : doc :=
  list_to_map [("id", VStr (bson.str u1)); ("role", VStr "host")]%string.

Definition admin : doc :=
  list_to_map [("id", VStr (bson.str u2)); ("role", VStr "admin")]%string.

(** Properties: day numbers are proleptic Gregorian ordinals, so that
    2025-03-01 is 739311. *)
Definition listing (city : string) (active : bool) (from to : value) : doc :=
  list_to_map
    [("title", VStr "Oda"); ("description", VStr "-"); ("city", VStr city);
     ("address", VStr "-"); ("type", VStr "room");
     ("price_per_month", VFloat (QArith_base.inject_Z 1200));
     ("images", VList []); ("lat", VNull); ("lng", VNull);
     ("distance_to_university", VNull);
     ("available_from", from); ("available_to", to);
     ("host_id", VStr (bson.str u1)); ("is_active", VBool active)]%string.

Definition ankara : doc := listing "Ankara" true VNull VNull.
Definition hidden : doc := listing "Izmir" false VNull VNull.

Definition db_ankara : database := {[ "property"%string := [(p1, ankara)] ]}.
Definition db_hidden : database := {[ "property"%string := [(p2, hidden)] ]}.

Definition db_three : database :=
  {[ "property"%string :=
       [(p1, ankara); (p2, hidden); (p3, listing "Bursa" true VNull VNull)] ]}.

Definition booking (property_id : string) (guests : Z) : BookingCreate.t :=
  BookingCreate.make property_id 739320 739330 guests.

Definition price_only : PropertyUpdate.t :=
  PropertyUpdate.make None None None None None
    (Some (QArith_base.inject_Z 1500)) None None None None None None None.

(** The body that offers a property from 2025-03-01 on. *)
Definition from_march : PropertyUpdate.t :=
  PropertyUpdate.make None None None None None None None None None None
    (Some 739311) None None.

Definition nothing : PropertyUpdate.t :=
  PropertyUpdate.make None None None None None None None None None None None
    None None.

(** Bodies of [POST /properties]. *)
Definition flat_at (price : Z) : PropertyCreate.t :=
  PropertyCreate.make "Daire" "-" "Bursa" "-" "flat" (QArith_base.inject_Z price)
    [] None None None None None.

Definition flat : PropertyCreate.t := flat_at 900.
Definition below_zero : PropertyCreate.t := flat_at (-1).

(** The flat, offered from 2025-03-01 on. *)
Definition flat_in_march : PropertyCreate.t :=
  PropertyCreate.make "Daire" "-" "Bursa" "-" "flat" (QArith_base.inject_Z 900)
    [] None None None (Some 739311) None.

(** A caller who hosts nothing. *)
Definition guest : doc :=
  list_to_map [("id", VStr (bson.str u2)); ("role", VStr "user")]%string.

(** The body that takes a property off the market. *)
Definition take_down : PropertyUpdate.t :=
  PropertyUpdate.make None None None None None None None None None None None
    None (Some false).

(** [ali@example.com] with a session issued at the instant 0. *)
Definition db_session : database :=
  <["session"%string :=
      [(s1, <["user_id"%string := VOid u1]>
              (Session.model_dump
                 (Session.make (bson.str u1) tok (timedelta_days 7))))]]> db_ali.

(** The sample property, booked once by the user [u1] and once by [u2],
    from 2025-03-10 to 2025-03-20: two bookings as the store holds
    them, the dates being instants, in microseconds since 1970. *)
Definition booked (user : bson.ObjectId) : doc :=
  list_to_map
    [("property_id", VOid p1); ("user_id", VOid user);
     ("start_date", VDateTime 1741564800000000);
     ("end_date", VDateTime 1742428800000000);
     ("guests", VInt 2); ("status", VStr "pending")]%string.

Definition db_booked : database :=
  <["booking"%string := [(b1, booked u1); (b2, booked u2)]]> db_ankara.

(** Twelve collection names, and a message of 100 code points. *)
Definition twelve : list string :=
  ["a"; "b"; "c"; "d"; "e"; "f"; "g"; "h"; "i"; "j"; "k"; "l"]%string.

Definition long_message : py.ustr := repeat 120 100.

(** Three requests served from the empty database: a host signs up,
    lists a flat and asks to book it. *)
Definition host_fields : SignupBody.fields :=
  SignupBody.make_fields "Ali" "ali@example.com" password
    (Some "host"%string) None None.

Definition bearer : option string := Some ("Bearer " +:+ tok).

Definition signed_up : database :=
  fst (signup environ (SignupBody.validate host_fields) 0 u1 s1 tok ∅).

Definition listed : database :=
  fst (protected bearer 1 (fun user => create_property flat user p1) signed_up).

Definition after_booking : database :=
  fst (protected bearer 2
         (fun user => create_booking (booking "0000000000000000000000c1" 2) user b1)
         listed).

(** A session left for a user who is not stored. *)
Definition orphan : doc :=
  <["user_id"%string := VOid u2]>
    (Session.model_dump (Session.make (bson.str u2) tok (timedelta_days 7))).

Definition db_orphan : database := <["session"%string := [(s1, orphan)]]> db_ali.

End samples.

(* ===================================================================== *)
(** * Properties *)
(* ===================================================================== *)

Import mongo exc schemas bodies main spec.

(** ** Test vectors of the built-ins *)

Example sha256_constants :
  length hashlib.K = 64%nat
  /\ nth 0 hashlib.K 0 = 0x428a2f98 /\ nth 63 hashlib.K 0 = 0xc67178f2
  /\ hashlib.ha hashlib.H0 = 0x6a09e667 /\ hashlib.hh hashlib.H0 = 0x5be0cd19.
Proof. vm_compute. repeat split. Qed.

Example sha256_abc :
  hashlib.sha256_hexdigest [97; 98; 99]
  = "ba7816bf8f01cfea414140de5dae2223b00361a396177a9cb410ff61f20015ad"%string.
Proof. vm_compute. reflexivity. Qed.

Example sha256_empty :
  hashlib.sha256_hexdigest []
  = "e3b0c44298fc1c149afbf4c8996fb92427ae41e4649b934ca495991b7852b855"%string.
Proof. vm_compute. reflexivity. Qed.

Example sha256_two_blocks :
  hashlib.sha256_hexdigest (repeat 97 70)
  = "6bd5e5034855a11241f0dee8fc72850ffd9955b28347a86428b5fa19119f6ad0"%string.
Proof. vm_compute. reflexivity. Qed.

Example encode_mixed :
  py.encode [112; 228; 115; 115; 8364; 128512]
  = Some [112; 195; 164; 115; 115; 226; 130; 172; 240; 159; 152; 128].
Proof. reflexivity. Qed.

Example split_words : py.split "Bearer  abc def" = ["Bearer"; "abc"; "def"]%string.
Proof. reflexivity. Qed.

(** ** Identifiers *)

Lemma oid_eq (a b : bson.ObjectId) : bson.str a = bson.str b -> a = b.
Proof.
  destruct a as [a Ha], b as [b Hb]. simpl. intros ->.
  f_equal. apply (proof_irrel Ha Hb).
Qed.

Lemma oid_eqb_eq (a b : bson.ObjectId) : bson.eqb a b = true <-> a = b.
Proof.
  unfold bson.eqb. rewrite String.eqb_eq. split; [apply oid_eq | now intros ->].
Qed.

Lemma oid_eqb_refl (a : bson.ObjectId) : bson.eqb a a = true.
Proof. now apply oid_eqb_eq. Qed.

Lemma oid_eqb_neq (a b : bson.ObjectId) : bson.eqb a b = false <-> a <> b.
Proof.
  rewrite <- oid_eqb_eq. destruct (bson.eqb a b); split; congruence.
Qed.

Lemma lower_char_hex c : bson.is_hex_lower c = true -> py.lower_char c = c.
Proof.
  unfold bson.is_hex_lower, py.lower_char. intros H.
  destruct (_ || _) eqn:E in |- *; [|reflexivity]. exfalso. lia.
Qed.

Lemma lower_hex s :
  forallb bson.is_hex_lower (list_ascii_of_string s) = true -> py.lower s = s.
Proof.
  induction s as [|c s IH]; simpl; [reflexivity|].
  rewrite andb_true_iff. intros [Hc Hs]. now rewrite lower_char_hex, IH.
Qed.

Lemma parse_some s (H : bson.canonical (py.lower s) = true) :
  bson.parse s = Some (exist _ (py.lower s) H).
Proof.
  unfold bson.parse.
  generalize (eq_refl (bson.canonical (py.lower s))).
  generalize (bson.canonical (py.lower s)) at 2 3.
  intros b. destruct b; intros E.
  - f_equal. now apply oid_eq.
  - congruence.
Qed.

Lemma parse_str (o : bson.ObjectId) : bson.parse (bson.str o) = Some o.
Proof.
  destruct o as [s Hs]. simpl.
  assert (Hl : py.lower s = s).
  { apply lower_hex. unfold bson.canonical in Hs.
    apply andb_true_iff in Hs. tauto. }
  assert (H : bson.canonical (py.lower s) = true) by now rewrite Hl.
  rewrite (parse_some s H). f_equal. now apply oid_eq.
Qed.

Lemma parse_none s : bson.canonical (py.lower s) = false -> bson.parse s = None.
Proof.
  intros Hc. unfold bson.parse.
  generalize (eq_refl (bson.canonical (py.lower s))).
  generalize (bson.canonical (py.lower s)) at 2 3.
  intros b. destruct b; intros E; [congruence | reflexivity].
Qed.

(** ** Reads and writes of a collection *)

Lemma to_dict_id r : to_dict r !! "_id"%string = Some (VOid (fst r)).
Proof. unfold to_dict. apply lookup_insert_eq. Qed.

Lemma to_dict_other r k : k <> "_id"%string -> to_dict r !! k = snd r !! k.
Proof. intros H. unfold to_dict. now rewrite lookup_insert_ne. Qed.

Lemma to_dict_nonempty r : to_dict r <> ∅.
Proof. unfold to_dict. apply insert_non_empty. Qed.

Lemma matches_by_id o r : matches (by_id o) (to_dict r) = bson.eqb (fst r) o.
Proof. unfold by_id. simpl. now rewrite to_dict_id. Qed.

Lemma find_app (c1 c2 : collection) q :
  mongo.find (c1 ++ c2) q = mongo.find c1 q ++ mongo.find c2 q.
Proof. unfold mongo.find. now rewrite map_app, List.filter_app. Qed.

Lemma find_by_id_fresh c o : has_id c o = false -> mongo.find c (by_id o) = [].
Proof.
  unfold mongo.find, has_id. induction c as [|r c IH]; simpl; [reflexivity|].
  rewrite orb_false_iff. intros [Hr Hc].
  change (matches (by_id o) (to_dict r)) with (matches (by_id o) (to_dict r)).
  pose proof (matches_by_id o r) as Hm. unfold by_id in Hm. simpl in Hm.
  rewrite Hm, Hr. now apply IH.
Qed.

Lemma find_one_by_id_inserted c o d :
  has_id c o = false ->
  mongo.find_one (c ++ [(o, d)]) (by_id o) = Some (to_dict (o, d)).
Proof.
  intros H. unfold mongo.find_one. rewrite find_app, (find_by_id_fresh _ _ H).
  unfold mongo.find. cbn [map List.filter app].
  now rewrite matches_by_id, oid_eqb_refl.
Qed.

Lemma coll_insert_eq (db : database) name c : coll (<[name := c]> db) name = c.
Proof. unfold coll. now rewrite lookup_insert_eq. Qed.

Lemma coll_insert_ne (db : database) n1 n2 c :
  n1 <> n2 -> coll (<[n1 := c]> db) n2 = coll db n2.
Proof. intros H. unfold coll. now rewrite lookup_insert_ne. Qed.

(** ** Views *)

Lemma with_id_to_dict r :
  with_id (to_dict r) = Ok (<["id"%string := VStr (bson.str (fst r))]> (delete "_id"%string (to_dict r))).
Proof. unfold with_id. now rewrite to_dict_id. Qed.

Lemma user_safe_to_dict r : user_safe (to_dict r) = Ok (public_view r).
Proof.
  unfold user_safe. rewrite bool_decide_eq_false_2 by apply to_dict_nonempty.
  unfold with_id. rewrite lookup_delete_ne by discriminate.
  now rewrite to_dict_id.
Qed.

Lemma public_view_id r : public_view r !! "id"%string = Some (VStr (bson.str (fst r))).
Proof. apply lookup_insert_eq. Qed.

Lemma public_view_hidden r :
  public_view r !! "password_hash"%string = None /\ public_view r !! "_id"%string = None.
Proof.
  unfold public_view. split.
  - rewrite lookup_insert_ne by discriminate.
    rewrite lookup_delete_ne by discriminate. apply lookup_delete_eq.
  - rewrite lookup_insert_ne by discriminate. apply lookup_delete_eq.
Qed.

Lemma public_view_other r k :
  k <> "id"%string -> k <> "_id"%string -> k <> "password_hash"%string ->
  public_view r !! k = snd r !! k.
Proof.
  intros H1 H2 H3. unfold public_view.
  rewrite lookup_insert_ne by congruence.
  rewrite !lookup_delete_ne by congruence.
  now apply to_dict_other.
Qed.

(** ** What the driver encodes *)

Lemma map_Forall_fields (P : string -> value -> Prop) (l : list (string * value)) :
  Forall (fun kv => P (fst kv) (snd kv)) l -> map_Forall P (list_to_map l : doc).
Proof.
  induction 1 as [|[k v] l Hkv _ IH]; [apply map_Forall_empty|].
  cbn [list_to_map foldr]. now apply map_Forall_insert_2.
Qed.

Lemma fmap_fixed (f : value -> value) (d : doc) :
  map_Forall (fun _ v => f v = v) d -> f <$> d = d.
Proof.
  intros H. apply map_eq. intros k. rewrite lookup_fmap.
  destruct (d !! k) as [v|] eqn:E; [|reflexivity]. cbn. now rewrite (H k v E).
Qed.

Lemma encode_as_is (d : doc) :
  map_Forall (fun _ v => encodable v = true /\ to_bson v = v) d -> encode d = Some d.
Proof.
  intros H. unfold encode. rewrite bool_decide_eq_true_2.
  - f_equal. apply fmap_fixed. intros k v E. apply (H k v E).
  - intros k v E. apply (H k v E).
Qed.

Lemma encode_fields (l : list (string * value)) :
  Forall (fun kv => encodable (snd kv) = true /\ to_bson (snd kv) = snd kv) l ->
  encode (list_to_map l) = Some (list_to_map l).
Proof.
  intros H. apply encode_as_is.
  now apply (map_Forall_fields (fun _ v => encodable v = true /\ to_bson v = v)).
Qed.

Lemma encode_date (d : doc) k x : d !! k = Some (VDate x) -> encode d = None.
Proof.
  intros H. unfold encode. rewrite bool_decide_eq_false_2; [reflexivity|].
  intros Hall. specialize (Hall k _ H). discriminate.
Qed.

Lemma encode_some (d stored : doc) :
  encode d = Some stored ->
  stored = to_bson <$> d /\ forall k v, d !! k = Some v -> encodable v = true.
Proof.
  unfold encode. destruct (bool_decide _) eqn:E; [|discriminate].
  intros [= <-]. split; [reflexivity|]. now apply bool_decide_eq_true in E.
Qed.

Lemma encode_lookup (d stored : doc) k :
  encode d = Some stored -> stored !! k = to_bson <$> d !! k.
Proof. intros [-> _]%encode_some. apply lookup_fmap. Qed.

Lemma plain_opt_str o : encodable (opt_str o) = true /\ to_bson (opt_str o) = opt_str o.
Proof. now destruct o. Qed.

Lemma plain_opt_float o : encodable (opt_float o) = true /\ to_bson (opt_float o) = opt_float o.
Proof. now destruct o. Qed.

Lemma encode_user u : encode (User.model_dump u) = Some (User.model_dump u).
Proof.
  apply encode_fields. repeat (apply Forall_cons; split; [|]); try apply Forall_nil;
    cbn [snd]; auto using plain_opt_str.
Qed.

Lemma encode_session uidv s tok t :
  encodable uidv = true -> to_bson uidv = uidv ->
  encode (<["user_id"%string := uidv]> (Session.model_dump (Session.make s tok t)))
  = Some (<["user_id"%string := uidv]>
            (Session.model_dump (Session.make s tok (millis t)))).
Proof.
  intros He Hb. unfold encode. rewrite bool_decide_eq_true_2.
  - f_equal. rewrite fmap_insert, Hb. f_equal.
  - apply map_Forall_insert_2; [exact He|].
    apply (map_Forall_fields (fun _ v => encodable v = true)).
    now repeat constructor.
Qed.

Lemma encode_property body cid :
  PropertyCreate.available_from body = None ->
  PropertyCreate.available_to body = None ->
  encode (Property.model_dump (property_of body cid))
  = Some (Property.model_dump (property_of body cid)).
Proof.
  intros Hf Ht. apply encode_fields.
  unfold property_of. cbn [Property.available_from Property.available_to].
  rewrite Hf, Ht.
  repeat (apply Forall_cons; split; [|]); try apply Forall_nil;
    cbn [snd]; auto using plain_opt_str, plain_opt_float.
Qed.

Lemma encode_property_dated body cid :
  PropertyCreate.available_from body <> None
  \/ PropertyCreate.available_to body <> None ->
  encode (Property.model_dump (property_of body cid)) = None.
Proof.
  intros [H | H].
  - destruct (PropertyCreate.available_from body) as [x|] eqn:E; [|congruence].
    apply (encode_date _ "available_from"%string x).
    unfold Property.model_dump, property_of. cbn [Property.available_from].
    now rewrite E.
  - destruct (PropertyCreate.available_to body) as [x|] eqn:E; [|congruence].
    apply (encode_date _ "available_to"%string x).
    unfold Property.model_dump, property_of. cbn [Property.available_to].
    now rewrite E.
Qed.

Lemma millis_bounds t : t - 1000 < millis t <= t.
Proof.
  unfold millis. pose proof (Z.mod_pos_bound t 1000 ltac:(lia)).
  pose proof (Z.div_mod t 1000 ltac:(lia)). lia.
Qed.

Lemma millis_idem t : millis (millis t) = millis t.
Proof. unfold millis. now rewrite Z.div_mul by lia. Qed.

(** The driver cuts the instant in a filter down to the millisecond as
    well; against an instant that is a whole millisecond, as every
    stored one is, the comparison comes out the same. *)
Lemma before_millis s t : millis s = s -> (t < s <-> millis t < s).
Proof.
  unfold millis. intros Hs.
  pose proof (Z.div_mod t 1000 ltac:(lia)). pose proof (Z.mod_pos_bound t 1000 ltac:(lia)).
  lia.
Qed.

Ltac run := unfold bind, lift, ret, raise, main.find_one, main.insert_one, truthy_or.

Lemma signup_ok environ body now uid sid tok db h :
  mongo.find_one (coll db "user") (Field "email" (Is (VStr (SignupBody.email body)))) = None ->
  hash_password environ (SignupBody.password body) = Ok h ->
  has_id (coll db "user") uid = false ->
  has_id (coll db "session") sid = false ->
  signup environ body now uid sid tok db =
    (<["session"%string := coll db "session" ++ [(sid, issued_session (VOid uid) (bson.str uid) tok now)]]>
       (<["user"%string := coll db "user" ++ [(uid, signup_user_doc body h)]]> db),
     Ok {| token := tok; user := public_view (uid, signup_user_doc body h) |}).
Proof.
  intros He Hh Hu Hs. unfold signup. run.
  rewrite He, Hh, encode_user, Hu.
  rewrite encode_session by reflexivity. fold (issued_session (VOid uid) (bson.str uid) tok now).
  rewrite coll_insert_ne by discriminate. rewrite Hs.
  rewrite coll_insert_ne by discriminate. rewrite coll_insert_eq.
  rewrite (find_one_by_id_inserted _ _ _ Hu).
  now rewrite user_safe_to_dict.
Qed.

(** ** The Authorization header *)

Lemma urlsafe_not_space c : secrets.urlsafe_char c = true -> py.isspace c = false.
Proof.
  unfold secrets.urlsafe_char, py.isspace. intros H.
  destruct (_ || _) eqn:E in |- *; [|reflexivity]. exfalso. lia.
Qed.

Lemma append_assoc_char cur c s : (cur +:+ String c "") +:+ s = cur +:+ String c s.
Proof.
  induction cur as [|a cur IH]; [reflexivity|].
  change (String a ((cur +:+ String c "") +:+ s) = String a (cur +:+ String c s)).
  now f_equal.
Qed.

Lemma append_empty_r s : s +:+ "" = s.
Proof.
  induction s as [|a s IH]; [reflexivity|].
  change (String a (s +:+ "") = String a s). now f_equal.
Qed.

Lemma split_from_run s : forall cur,
  forallb secrets.urlsafe_char (list_ascii_of_string s) = true ->
  cur +:+ s <> ""%string ->
  py.split_from cur s = [cur +:+ s].
Proof.
  induction s as [|c s IH]; intros cur Hs Hne; simpl in *.
  - rewrite append_empty_r in *. destruct (String.eqb_spec cur ""); [contradiction | reflexivity].
  - apply andb_true_iff in Hs as [Hc Hs].
    rewrite (urlsafe_not_space _ Hc). rewrite IH; [|assumption|].
    + now rewrite append_assoc_char.
    + rewrite append_assoc_char. assumption.
Qed.

Lemma token_cases tok : secrets.is_token tok = true ->
  tok <> ""%string /\ forallb secrets.urlsafe_char (list_ascii_of_string tok) = true.
Proof.
  unfold secrets.is_token. rewrite andb_true_iff, negb_true_iff. intros [H1 H2].
  split; [|assumption]. intros ->. discriminate.
Qed.

Lemma split_bearer tok : secrets.is_token tok = true ->
  py.split ("Bearer " +:+ tok) !! 1%nat = Some tok.
Proof.
  intros [Hne Hs]%token_cases.
  change (py.split ("Bearer " +:+ tok)) with ("Bearer"%string :: py.split_from "" tok).
  now rewrite split_from_run.
Qed.

Lemma bearer_header_ok tok :
  negb (py.truthy_str (Some ("Bearer " +:+ tok)))
  || negb (py.startswith (py.lower (default "" (Some ("Bearer " +:+ tok)))) "bearer ") = false.
Proof. destruct tok; reflexivity. Qed.

(** ** Sessions *)

Lemma issued_session_fields uidv s tok now :
  issued_session uidv s tok now !! "token"%string = Some (VStr tok)
  /\ issued_session uidv s tok now !! "expires_at"%string
     = Some (VDateTime (millis (now + timedelta_days 7)))
  /\ issued_session uidv s tok now !! "user_id"%string = Some uidv.
Proof. repeat split; reflexivity. Qed.

Lemma filter_nil_and (c : collection) q qs :
  mongo.find c q = [] -> mongo.find c (And (q :: qs)) = [].
Proof.
  unfold mongo.find. induction (map to_dict c) as [|d l IH]; simpl; [reflexivity|].
  destruct (matches q d); simpl; [discriminate | exact IH].
Qed.

Lemma matches_issued sid uidv s tok now now' :
  matches (session_query tok now') (to_dict (sid, issued_session uidv s tok now))
  = (now' <? millis (now + timedelta_days 7)).
Proof.
  destruct (issued_session_fields uidv s tok now) as (Ht & He & _).
  unfold session_query. cbn [matches forallb cond_holds].
  rewrite !to_dict_other by discriminate. cbn [snd]. rewrite Ht, He.
  cbn [value_eqb forallb fst snd]. rewrite String.eqb_refl.
  unfold cmp_holds, value_compare.
  rewrite Z.compare_antisym. unfold Z.ltb.
  now destruct (now' ?= millis (now + timedelta_days 7)).
Qed.

Lemma find_one_issued c sid uidv s tok now now' :
  mongo.find c (Field "token" (Is (VStr tok))) = [] ->
  mongo.find_one (c ++ [(sid, issued_session uidv s tok now)]) (session_query tok now')
  = if now' <? millis (now + timedelta_days 7)
    then Some (to_dict (sid, issued_session uidv s tok now)) else None.
Proof.
  intros H. unfold mongo.find_one. rewrite find_app.
  unfold session_query at 1. rewrite (filter_nil_and _ _ _ H).
  unfold mongo.find. cbn [map List.filter app].
  rewrite matches_issued. now destruct (now' <? _).
Qed.

Lemma gcu_reject tok now db :
  secrets.is_token tok = true ->
  mongo.find_one (coll db "session") (session_query tok now) = None ->
  get_current_user (Some ("Bearer " +:+ tok)) now db
  = (db, Err (HTTPException 401 "انتهت الجلسة أو غير صالحة")).
Proof.
  intros Ht Hs. unfold get_current_user. rewrite bearer_header_ok.
  run.
  change (default "" (Some ("Bearer " +:+ tok)))%string with ("Bearer " +:+ tok).
  rewrite (split_bearer _ Ht).
  fold (session_query tok now). now rewrite Hs.
Qed.

Lemma gcu_accept tok now db s o r :
  secrets.is_token tok = true ->
  mongo.find_one (coll db "session") (session_query tok now) = Some (to_dict s) ->
  snd s !! "user_id"%string = Some (VOid o) ->
  mongo.find_one (coll db "user") (by_id o) = Some (to_dict r) ->
  get_current_user (Some ("Bearer " +:+ tok)) now db = (db, Ok (public_view r)).
Proof.
  intros Ht Hs Hu Hr. unfold get_current_user. rewrite bearer_header_ok.
  run.
  change (default "" (Some ("Bearer " +:+ tok)))%string with ("Bearer " +:+ tok).
  rewrite (split_bearer _ Ht).
  fold (session_query tok now). rewrite Hs.
  rewrite bool_decide_eq_false_2 by apply to_dict_nonempty.
  unfold item. rewrite to_dict_other by discriminate. rewrite Hu.
  cbn [session_user_id]. rewrite Hr.
  rewrite bool_decide_eq_false_2 by apply to_dict_nonempty.
  now rewrite user_safe_to_dict.
Qed.

(** ** Credentials *)

Lemma encode_cp_scalar c : py.scalar c = true -> exists b, py.encode_cp c = Some b.
Proof.
  unfold py.scalar, py.encode_cp. intros H.
  repeat match goal with
         | |- context [if ?b then _ else _] => destruct b eqn:?
         end; eauto; exfalso; lia.
Qed.

Lemma encode_text s : py.is_text s = true -> exists b, py.encode s = Some b.
Proof.
  unfold py.is_text. induction s as [|c s IH]; simpl.
  - eauto.
  - rewrite andb_true_iff. intros [Hc Hs].
    destruct (encode_cp_scalar c Hc) as [b ->], (IH Hs) as [bs ->]. eauto.
Qed.

Lemma encode_app s1 s2 b1 b2 :
  py.encode s1 = Some b1 -> py.encode s2 = Some b2 ->
  py.encode (s1 ++ s2) = Some (b1 ++ b2).
Proof.
  revert b1. induction s1 as [|c s1 IH]; simpl; intros b1 H1 H2.
  - now injection H1 as <-.
  - destruct (py.encode_cp c) as [b|]; [|discriminate].
    destruct (py.encode s1) as [bs|]; [|discriminate].
    injection H1 as <-. rewrite (IH bs eq_refl H2). now rewrite app_assoc.
Qed.

Lemma hex_digit_lower d : 0 <= d < 16 -> bson.is_hex_lower (hashlib.hex_digit d) = true.
Proof.
  intros H.
  assert (d = 0 \/ d = 1 \/ d = 2 \/ d = 3 \/ d = 4 \/ d = 5 \/ d = 6 \/ d = 7
          \/ d = 8 \/ d = 9 \/ d = 10 \/ d = 11 \/ d = 12 \/ d = 13 \/ d = 14
          \/ d = 15) as Hd by lia.
  repeat destruct Hd as [-> | Hd]; try reflexivity. now subst.
Qed.

Lemma hex_word_lower w : forallb bson.is_hex_lower (hashlib.hex_word w) = true.
Proof.
  unfold hashlib.hex_word. apply forallb_forall. intros c Hc.
  apply in_map_iff in Hc as (i & <- & _).
  apply hex_digit_lower. apply Z.mod_pos_bound. lia.
Qed.

Lemma hex_word_length w : length (hashlib.hex_word w) = 8%nat.
Proof. reflexivity. Qed.

Lemma string_of_list_length l : String.length (string_of_list_ascii l) = length l.
Proof. induction l as [|c l IH]; simpl; [reflexivity | now rewrite IH]. Qed.

Lemma hexdigest_canonical_shape st :
  String.length (hashlib.hexdigest st) = 64%nat
  /\ forallb bson.is_hex_lower (list_ascii_of_string (hashlib.hexdigest st)) = true.
Proof.
  unfold hashlib.hexdigest. split.
  - rewrite string_of_list_length. rewrite !length_app, !hex_word_length. reflexivity.
  - rewrite list_ascii_of_string_of_list_ascii.
    rewrite !forallb_app, !hex_word_lower. reflexivity.
Qed.

Lemma hash_password_text environ pw :
  py.is_text (getenv environ "PW_SALT" (py.ustr_of_string "saknli_salt")) = true ->
  py.is_text pw = true ->
  exists bp bs,
    py.encode pw = Some bp
    /\ py.encode (getenv environ "PW_SALT" (py.ustr_of_string "saknli_salt")) = Some bs
    /\ hash_password environ pw = Ok (hashlib.sha256_hexdigest (bp ++ bs)).
Proof.
  intros Hs Hp.
  destruct (encode_text _ Hp) as [bp Hbp], (encode_text _ Hs) as [bs Hbs].
  exists bp, bs. repeat split; try assumption.
  unfold hash_password. now rewrite (encode_app _ _ _ _ Hbp Hbs).
Qed.

Lemma py_eq_str v s : py_eq v (VStr s) = true <-> v = VStr s.
Proof.
  destruct v as [|b| | | | | | |]; simpl;
    try (split; [discriminate | discriminate]).
  rewrite String.eqb_eq. split; congruence.
Qed.

Lemma py_eq_str_false v s : py_eq v (VStr s) = false <-> v <> VStr s.
Proof.
  rewrite <- py_eq_str. destruct (py_eq v (VStr s)); split; congruence.
Qed.

(** ** Login *)

Lemma login_unknown environ body now sid tok db :
  mongo.find_one (coll db "user") (email_query (LoginBody.email body)) = None ->
  login environ body now sid tok db
  = (db, Err (HTTPException 401 "بيانات الدخول غير صحيحة")).
Proof. intros H. unfold login. run. fold (email_query (LoginBody.email body)). now rewrite H. Qed.

Lemma login_mismatch environ body now sid tok db r h :
  mongo.find_one (coll db "user") (email_query (LoginBody.email body)) = Some (to_dict r) ->
  hash_password environ (LoginBody.password body) = Ok h ->
  get (to_dict r) "password_hash" <> VStr h ->
  login environ body now sid tok db
  = (db, Err (HTTPException 401 "بيانات الدخول غير صحيحة")).
Proof.
  intros H Hh Hne. unfold login. run. fold (email_query (LoginBody.email body)).
  rewrite H. rewrite bool_decide_eq_false_2 by apply to_dict_nonempty.
  rewrite Hh. apply py_eq_str_false in Hne. now rewrite Hne.
Qed.

Lemma login_ok environ body now sid tok db r h :
  mongo.find_one (coll db "user") (email_query (LoginBody.email body)) = Some (to_dict r) ->
  hash_password environ (LoginBody.password body) = Ok h ->
  get (to_dict r) "password_hash" = VStr h ->
  has_id (coll db "session") sid = false ->
  login environ body now sid tok db
  = (<["session"%string := coll db "session"
         ++ [(sid, issued_session (VOid (fst r)) (bson.str (fst r)) tok now)]]> db,
     Ok {| token := tok; user := public_view r |}).
Proof.
  intros H Hh He Hs. unfold login. run. fold (email_query (LoginBody.email body)).
  rewrite H. rewrite bool_decide_eq_false_2 by apply to_dict_nonempty.
  rewrite Hh. apply py_eq_str in He. rewrite He. cbn [negb].
  unfold item. rewrite to_dict_id. cbn [py_str]. rewrite Hs.
  now rewrite user_safe_to_dict.
Qed.

Lemma find_one_some (c : collection) q d :
  mongo.find_one c q = Some d ->
  exists pre r post,
    c = pre ++ r :: post /\ d = to_dict r
    /\ matches q (to_dict r) = true
    /\ Forall (fun x => matches q (to_dict x) = false) pre.
Proof.
  unfold mongo.find_one, mongo.find. induction c as [|x c IH]; simpl; [discriminate|].
  destruct (matches q (to_dict x)) eqn:E; simpl.
  - intros [= <-]. exists [], x, c. repeat split; auto.
  - intros H. destruct (IH H) as (pre & r & post & -> & -> & Hm & Hp).
    exists (x :: pre), r, post. repeat split; auto.
Qed.

Lemma find_one_split (pre post : collection) r q :
  matches q (to_dict r) = true ->
  Forall (fun x => matches q (to_dict x) = false) pre ->
  mongo.find_one (pre ++ r :: post) q = Some (to_dict r).
Proof.
  intros Hr Hp. unfold mongo.find_one, mongo.find.
  induction Hp as [|x pre Hx Hp IH]; simpl.
  - now rewrite Hr.
  - now rewrite Hx.
Qed.

Lemma find_one_none (c : collection) q :
  mongo.find_one c q = None <-> Forall (fun x => matches q (to_dict x) = false) c.
Proof.
  unfold mongo.find_one, mongo.find. induction c as [|x c IH]; simpl.
  - split; auto.
  - destruct (matches q (to_dict x)) eqn:E; simpl.
    + split; [discriminate|]. intros H. inversion H; congruence.
    + rewrite IH. split; [now constructor | intros H; now inversion H].
Qed.

(** ** Lookups by e-mail and by identifier *)

Lemma value_eqb_str w s : value_eqb w (VStr s) = true <-> w = VStr s.
Proof.
  destruct w as [|b| | | | | | |]; simpl;
    try (split; [discriminate | discriminate]).
  rewrite String.eqb_eq. split; congruence.
Qed.

Lemma matches_email e r :
  matches (email_query e) (to_dict r) = true <-> snd r !! "email"%string = Some (VStr e).
Proof.
  unfold email_query. simpl. rewrite to_dict_other by discriminate.
  destruct (snd r !! "email"%string) as [w|]; simpl.
  - rewrite value_eqb_str. split; congruence.
  - split; discriminate.
Qed.

Lemma find_one_email_none (c : collection) e :
  (forall r, In r c -> snd r !! "email"%string <> Some (VStr e)) ->
  mongo.find_one c (email_query e) = None.
Proof.
  intros H. apply find_one_none. apply List.Forall_forall. intros r Hr.
  destruct (matches (email_query e) (to_dict r)) eqn:E; [|reflexivity].
  apply matches_email in E. now apply H in Hr.
Qed.

Lemma find_one_email_some (c : collection) e r :
  In r c -> snd r !! "email"%string = Some (VStr e) ->
  exists r', mongo.find_one c (email_query e) = Some (to_dict r').
Proof.
  intros Hin He.
  destruct (mongo.find_one c (email_query e)) as [d|] eqn:E.
  - destruct (find_one_some _ _ _ E) as (pre & r' & post & _ & -> & _). eauto.
  - exfalso. rewrite find_one_none, List.Forall_forall in E.
    specialize (E r Hin). apply matches_email in He. congruence.
Qed.

Lemma find_one_by_id_in (c : collection) r :
  In r c ->
  exists r', mongo.find_one c (by_id (fst r)) = Some (to_dict r') /\ fst r' = fst r.
Proof.
  intros Hin.
  destruct (mongo.find_one c (by_id (fst r))) as [d|] eqn:E.
  - destruct (find_one_some _ _ _ E) as (pre & r' & post & _ & -> & Hm & _).
    exists r'. split; [reflexivity|]. rewrite matches_by_id in Hm.
    now apply oid_eqb_eq.
  - exfalso. rewrite find_one_none, List.Forall_forall in E.
    specialize (E r Hin). rewrite matches_by_id, oid_eqb_refl in E. discriminate.
Qed.

Lemma find_by_id_none (c : collection) o :
  mongo.find_one c (by_id o) = None <-> has_id c o = false.
Proof.
  rewrite find_one_none. unfold has_id. induction c as [|x c IH]; simpl.
  - split; auto.
  - rewrite orb_false_iff, <- IH, <- matches_by_id.
    split; [intros H; inversion H; auto | intros [? ?]; now constructor].
Qed.

Lemma find_all_everything (c : collection) : mongo.find c (And []) = map to_dict c.
Proof. unfold mongo.find. induction c as [|x c IH]; simpl; [reflexivity | now f_equal]. Qed.

Lemma mapM_user_safe (c : collection) :
  mapM user_safe (map to_dict c) = Ok (map public_view c).
Proof.
  induction c as [|x c IH]; simpl; [reflexivity|].
  now rewrite user_safe_to_dict, IH.
Qed.

(** ** Admin operations *)

Lemma admin_stats_ok caller db :
  get caller "role" = VStr "admin" ->
  exists d, admin_stats caller db = (db, Ok d).
Proof. intros H. unfold admin_stats. rewrite H. simpl. eauto. Qed.

Lemma admin_users_ok caller db :
  get caller "role" = VStr "admin" ->
  admin_users caller db = (db, Ok (map public_view (coll db "user"))).
Proof.
  intros H. unfold admin_users. rewrite H.
  change (negb (py_eq (VStr "admin") (VStr "admin"))) with false. cbv iota.
  unfold bind, find_all, lift. now rewrite find_all_everything, mapM_user_safe.
Qed.
Lemma signup_user_doc_fields body h :
  signup_user_doc body h !! "role"%string = Some (VStr (SignupBody.role body))
  /\ signup_user_doc body h !! "password_hash"%string = Some (VStr h)
  /\ signup_user_doc body h !! "email"%string = Some (VStr (SignupBody.email body))
  /\ signup_user_doc body h !! "full_name"%string = Some (VStr (SignupBody.full_name body)).
Proof. repeat split; reflexivity. Qed.

Lemma get_some (d : doc) k v : d !! k = Some v -> get d k = v.
Proof. unfold get. now intros ->. Qed.

Lemma admin_delete_ok caller o db :
  get caller "role" = VStr "admin" ->
  exists db', admin_delete_property (bson.str o) caller db
              = (db', Ok {[ "deleted"%string := VBool true ]}).
Proof.
  intros H. unfold admin_delete_property. rewrite H.
  change (negb (py_eq (VStr "admin") (VStr "admin"))) with false. cbv iota.
  unfold bind, lift, to_object_id, delete_one, ret. rewrite parse_str.
  destruct (mongo.find_one _ _); eauto.
Qed.

(** C1: [signup] stores the supplied role, whatever it is, and checks
    nothing: for a fresh e-mail the stored user and the returned view
    carry exactly [body.role]; the issued token resolves to that view,
    and with the role [admin] the view passes the role check of the
    three admin-only operations. *)
Theorem C1_signup_role_unchecked environ (body : SignupBody.t) now uid sid tok db :
  py.is_text (getenv environ "PW_SALT" (py.ustr_of_string "saknli_salt")) = true ->
  py.is_text (SignupBody.password body) = true ->
  mongo.find_one (coll db "user") (email_query (SignupBody.email body)) = None ->
  has_id (coll db "user") uid = false ->
  has_id (coll db "session") sid = false ->
  secrets.is_token tok = true ->
  mongo.find (coll db "session") (Field "token" (Is (VStr tok))) = [] ->
  exists db' stored view,
    signup environ body now uid sid tok db
    = (db', Ok {| token := tok; user := view |})
    /\ coll db' "user" = coll db "user" ++ [(uid, stored)]
    /\ stored !! "role"%string = Some (VStr (SignupBody.role body))
    /\ view !! "role"%string = Some (VStr (SignupBody.role body))
    /\ get_current_user (Some ("Bearer " +:+ tok)) now db' = (db', Ok view)
    /\ (SignupBody.role body = "admin"%string ->
        forall db1,
          (exists d, admin_stats view db1 = (db1, Ok d))
          /\ (exists l, admin_users view db1 = (db1, Ok l))
          /\ (forall o, exists db2,
                admin_delete_property (bson.str o) view db1
                = (db2, Ok {[ "deleted"%string := VBool true ]}))).
Proof.
  intros Hsalt Hpw Hemail Huid Hsid Htok Hfresh.
  destruct (hash_password_text environ _ Hsalt Hpw) as (bp & bs & _ & _ & Hh).
  set (h := hashlib.sha256_hexdigest (bp ++ bs)) in Hh.
  pose proof (signup_ok environ body now uid sid tok db h Hemail Hh Huid Hsid) as Hrun.
  destruct (signup_user_doc_fields body h) as (Hrole & _).
  assert (Hview : public_view (uid, signup_user_doc body h) !! "role"%string
                  = Some (VStr (SignupBody.role body))).
  { now rewrite public_view_other by discriminate. }
  eexists _, _, _. split; [exact Hrun|].
  split_and!; [| | | | intros Hadmin db1; split_and!].
  - rewrite coll_insert_ne by discriminate. apply coll_insert_eq.
  - exact Hrole.
  - exact Hview.
  - eapply gcu_accept with (s := (sid, _)) (o := uid); [exact Htok | | |].
    + rewrite coll_insert_eq. rewrite (find_one_issued _ _ _ _ _ _ _ Hfresh).
      assert ((now <? millis (now + timedelta_days 7)) = true) as ->
          by (apply Z.ltb_lt; pose proof (millis_bounds (now + timedelta_days 7));
              unfold timedelta_days in *; lia).
      reflexivity.
    + reflexivity.
    + rewrite coll_insert_ne by discriminate. rewrite coll_insert_eq.
      now apply find_one_by_id_inserted.
  - apply admin_stats_ok, get_some. now rewrite Hview, Hadmin.
  - eexists. apply admin_users_ok, get_some. now rewrite Hview, Hadmin.
  - intros o. apply admin_delete_ok, get_some. now rewrite Hview, Hadmin.
Qed.

(** No header, an empty header and a header that does not start with the
    scheme are answered with 401, and the database is not touched. *)
Lemma get_current_user_rejects authorization now db :
  authorization = None
  \/ authorization = Some ""%string
  \/ (exists a, authorization = Some a
                /\ py.startswith (py.lower a) "bearer " = false) ->
  get_current_user authorization now db
  = (db, Err (HTTPException 401 "يرجى تسجيل الدخول")).
Proof.
  intros [-> | [-> | (a & -> & Ha)]]; unfold get_current_user; try reflexivity.
  cbn [default from_option id]. unfold default. cbn [from_option id].
  rewrite Ha. now rewrite orb_true_r.
Qed.

(** A header that passes the scheme test but holds no second word makes
    [authorization.split()[1]] raise. *)
Lemma get_current_user_no_token a now db :
  a <> ""%string ->
  py.startswith (py.lower a) "bearer " = true ->
  py.split a !! 1%nat = None ->
  get_current_user (Some a) now db = (db, Err (Unhandled IndexError)).
Proof.
  intros Hne Ha Hs. unfold get_current_user.
  unfold default. cbn [from_option id py.truthy_str].
  destruct (String.eqb_spec a ""); [contradiction|]. rewrite Ha. cbn [negb orb].
  unfold bind, lift. now rewrite Hs.
Qed.

(** C2: the header [Bearer ] (the scheme, a space, no token) is
    malformed, and a protected route does not answer it with 401: the
    lookup of the token raises [IndexError], which nothing catches, so
    the response is a 500. The same holds when the place of the token
    holds a no-break space (U+00A0), a header value that no trimming of
    spaces and tabs shortens. *)
Theorem C2_bearer_without_token_not_401 :
  forall (A : Type) (handler : doc -> M A) (now : Z) (db : database),
    get_current_user (Some "Bearer "%string) now db
    = (db, Err (Unhandled IndexError))
    /\ protected (Some "Bearer "%string) now handler db
       = (db, Err (Unhandled IndexError))
    /\ protected (Some ("Bearer " +:+ String (py.chr 160) "")) now handler db
       = (db, Err (Unhandled IndexError))
    /\ status (Unhandled IndexError) = 500.
Proof.
  intros A handler now db.
  assert (H : forall a, a = "Bearer "%string
                        \/ a = ("Bearer " +:+ String (py.chr 160) "")%string ->
                        get_current_user (Some a) now db
                        = (db, Err (Unhandled IndexError))).
  { intros a [-> | ->];
      (apply get_current_user_no_token;
       [discriminate | reflexivity | reflexivity]). }
  split; [apply H; now left|].
  split; [unfold protected, bind; rewrite H; auto|].
  split; [unfold protected, bind; rewrite H; auto | reflexivity].
Qed.

(** C3: the credential is the lowercase hexadecimal SHA-256 digest of
    the UTF-8 bytes of the password followed by those of the salt, the
    salt being [PW_SALT] when set and ["saknli_salt"] otherwise;
    [signup] stores it under [password_hash], and [login] recomputes it
    and succeeds exactly when the stored value equals it. *)
Theorem C3_password_credential environ (password : py.ustr) :
  let salt := getenv environ "PW_SALT" (py.ustr_of_string "saknli_salt") in
  py.is_text salt = true ->
  py.is_text password = true ->
  exists bp bs h,
    py.encode password = Some bp
    /\ py.encode salt = Some bs
    /\ h = hashlib.hexdigest (hashlib.sha256 (bp ++ bs))
    /\ hash_password environ password = Ok h
    /\ String.length h = 64%nat
    /\ forallb bson.is_hex_lower (list_ascii_of_string h) = true
    /\ (environ !! "PW_SALT"%string = None -> salt = py.ustr_of_string "saknli_salt")
    /\ (forall s, environ !! "PW_SALT"%string = Some s -> salt = s)
    /\ (forall body now uid sid tok db,
          SignupBody.password body = password ->
          mongo.find_one (coll db "user") (email_query (SignupBody.email body)) = None ->
          has_id (coll db "user") uid = false ->
          has_id (coll db "session") sid = false ->
          exists stored,
            coll (fst (signup environ body now uid sid tok db)) "user"
            = coll db "user" ++ [(uid, stored)]
            /\ stored !! "password_hash"%string = Some (VStr h))
    /\ (forall email now sid tok db u,
          mongo.find_one (coll db "user") (email_query email) = Some u ->
          has_id (coll db "session") sid = false ->
          (get u "password_hash" = VStr h ->
           exists db' view,
             login environ (LoginBody.make email password) now sid tok db
             = (db', Ok {| token := tok; user := view |}))
          /\ (get u "password_hash" <> VStr h ->
              exists detail,
                login environ (LoginBody.make email password) now sid tok db
                = (db, Err (HTTPException 401 detail)))).
Proof.
  intros salt Hsalt Hpw.
  destruct (hash_password_text environ _ Hsalt Hpw) as (bp & bs & Hbp & Hbs & Hh).
  destruct (hexdigest_canonical_shape (hashlib.sha256 (bp ++ bs))) as [Hlen Hhex].
  exists bp, bs, (hashlib.hexdigest (hashlib.sha256 (bp ++ bs))).
  split_and!; try assumption; try reflexivity.
  - intros H. unfold salt, getenv. now rewrite H.
  - intros s H. unfold salt, getenv. now rewrite H.
  - intros body now uid sid tok db Hb Hemail Huid Hsid. subst password.
    rewrite (signup_ok environ body now uid sid tok db _ Hemail Hh Huid Hsid).
    eexists. split.
    + cbn [fst]. rewrite coll_insert_ne by discriminate. apply coll_insert_eq.
    + reflexivity.
  - intros email now sid tok db u Hu Hsid.
    destruct (find_one_some _ _ _ Hu) as (pre & r & post & _ & -> & _).
    split; intros Hcmp.
    + eexists _, _. now apply (login_ok environ (LoginBody.make email password)
                                 now sid tok db r _ Hu Hh Hcmp Hsid).
    + eexists. now apply (login_mismatch environ (LoginBody.make email password)
                            now sid tok db r _ Hu Hh Hcmp).
Qed.

(** C4, amended: the session issued by [signup] or [login] at [now] is
    stored with an expiry of [now] plus seven days cut down to the
    whole millisecond, which is less than a millisecond short of seven
    days and exactly seven days when [now] is a whole millisecond; its
    token resolves at every instant before the stored expiry and is
    answered with 401 from that instant on, and resolving never changes
    the database, so the expired session stays stored. Cutting the
    instant of the lookup down to the millisecond, as the driver does
    with the filter, changes neither answer. *)
Theorem C4_session_lifetime environ now sid tok db :
  secrets.is_token tok = true ->
  mongo.find (coll db "session") (Field "token" (Is (VStr tok))) = [] ->
  has_id (coll db "session") sid = false ->
  let expiry := millis (now + 7 * 86400 * 1000000) in
  let issued db' r :=
    token r = tok
    /\ (exists s, coll db' "session" = coll db "session" ++ [(sid, s)]
                  /\ s !! "token"%string = Some (VStr tok)
                  /\ s !! "expires_at"%string = Some (VDateTime expiry))
    /\ (forall now', now' < expiry ->
          exists caller,
            get_current_user (Some ("Bearer " +:+ tok)) now' db' = (db', Ok caller)
            /\ caller !! "id"%string = user r !! "id"%string)
    /\ (forall now', expiry <= now' ->
          exists detail,
            get_current_user (Some ("Bearer " +:+ tok)) now' db'
            = (db', Err (HTTPException 401 detail))) in
  (forall body uid h,
     mongo.find_one (coll db "user") (email_query (SignupBody.email body)) = None ->
     hash_password environ (SignupBody.password body) = Ok h ->
     has_id (coll db "user") uid = false ->
     exists db' r,
       signup environ body now uid sid tok db = (db', Ok r) /\ issued db' r)
  /\ (forall body u h,
        mongo.find_one (coll db "user") (email_query (LoginBody.email body)) = Some u ->
        hash_password environ (LoginBody.password body) = Ok h ->
        get u "password_hash" = VStr h ->
        exists db' r,
          login environ body now sid tok db = (db', Ok r) /\ issued db' r)
  /\ now + 7 * 86400 * 1000000 - 1000 < expiry <= now + 7 * 86400 * 1000000
  /\ (now mod 1000 = 0 -> expiry = now + 7 * 86400 * 1000000)
  /\ (forall now', now' < expiry <-> millis now' < expiry).
Proof.
  intros Htok Hfresh Hsid expiry issued.
  assert (Hexp : expiry = millis (now + timedelta_days 7))
    by (unfold expiry, timedelta_days; f_equal; lia).
  assert (Hgen : forall db' r0 r',
             coll db' "session"
             = coll db "session" ++ [(sid, issued_session (VOid (fst r0)) (bson.str (fst r0)) tok now)] ->
             mongo.find_one (coll db' "user") (by_id (fst r0)) = Some (to_dict r') ->
             fst r' = fst r0 ->
             issued db' {| token := tok; user := public_view r0 |}).
  { intros db' r0 r' Hs Hu Hid. unfold issued. split_and!.
    - reflexivity.
    - eexists. split; [exact Hs|]. rewrite Hexp. split; reflexivity.
    - intros now' Hlt. exists (public_view r'). split.
      + eapply gcu_accept with (s := (sid, _)) (o := fst r0); [exact Htok | | | exact Hu].
        * rewrite Hs. rewrite (find_one_issued _ _ _ _ _ _ _ Hfresh).
          assert ((now' <? millis (now + timedelta_days 7)) = true) as ->
            by (apply Z.ltb_lt; lia).
          reflexivity.
        * reflexivity.
      + cbn [user]. rewrite !public_view_id. now rewrite Hid.
    - intros now' Hge. eexists. apply gcu_reject; [exact Htok|].
      rewrite Hs. rewrite (find_one_issued _ _ _ _ _ _ _ Hfresh).
      assert ((now' <? millis (now + timedelta_days 7)) = false) as ->
        by (apply Z.ltb_ge; lia).
      reflexivity. }
  split_and!.
  - intros body uid h Hemail Hh Huid.
    eexists _, _. split; [exact (signup_ok environ body now uid sid tok db h Hemail Hh Huid Hsid)|].
    apply (Hgen _ (uid, signup_user_doc body h) (uid, signup_user_doc body h)).
    + apply coll_insert_eq.
    + rewrite coll_insert_ne by discriminate. rewrite coll_insert_eq.
      now apply find_one_by_id_inserted.
    + reflexivity.
  - intros body u h Hu Hh Hcmp.
    destruct (find_one_some _ _ _ Hu) as (pre & r & post & Hc & -> & _).
    assert (Hin : In r (coll db "user")) by (rewrite Hc; apply in_elt).
    destruct (find_one_by_id_in _ _ Hin) as (r' & Hr' & Hid).
    eexists _, _. split; [exact (login_ok environ body now sid tok db r h Hu Hh Hcmp Hsid)|].
    apply (Hgen _ r r').
    + apply coll_insert_eq.
    + now rewrite coll_insert_ne by discriminate.
    + exact Hid.
  - pose proof (millis_bounds (now + 7 * 86400 * 1000000)). unfold expiry. lia.
  - pose proof (millis_bounds (now + 7 * 86400 * 1000000)). unfold expiry. lia.
  - intros Hms. unfold expiry, millis.
    pose proof (Z.div_mod (now + 7 * 86400 * 1000000) 1000 ltac:(lia)) as Hd.
    replace ((now + 7 * 86400 * 1000000) mod 1000) with 0 in Hd; [lia|].
    symmetry. rewrite Z.add_mod by lia. rewrite Hms. reflexivity.
  - intros now'. apply before_millis. apply millis_idem.
Qed.

Lemma signup_exists environ body now uid sid tok db r :
  In r (coll db "user") ->
  snd r !! "email"%string = Some (VStr (SignupBody.email body)) ->
  signup environ body now uid sid tok db
  = (db, Err (HTTPException 400 "البريد الإلكتروني مستخدم مسبقاً")).
Proof.
  intros Hin He. destruct (find_one_email_some _ _ _ Hin He) as [r' Hr'].
  unfold signup. run. fold (email_query (SignupBody.email body)). rewrite Hr'.
  now rewrite bool_decide_eq_false_2 by apply to_dict_nonempty.
Qed.

(** C8: [signup] with an e-mail some stored user has fails with 400 and
    leaves the database as it was; with an e-mail nobody has it appends
    one user and one session and returns the token with the public view
    of the new user: no [password_hash], the identifier under [id], the
    role ["user"] when the body names none. *)
Theorem C8_signup_unique_email environ (f : SignupBody.fields) now uid sid tok db :
  let body := SignupBody.validate f in
  ((exists r, In r (coll db "user")
              /\ snd r !! "email"%string = Some (VStr (SignupBody.f_email f))) ->
   exists detail,
     signup environ body now uid sid tok db = (db, Err (HTTPException 400 detail)))
  /\ ((forall r, In r (coll db "user") ->
                 snd r !! "email"%string <> Some (VStr (SignupBody.f_email f))) ->
      py.is_text (getenv environ "PW_SALT" (py.ustr_of_string "saknli_salt")) = true ->
      py.is_text (SignupBody.f_password f) = true ->
      has_id (coll db "user") uid = false ->
      has_id (coll db "session") sid = false ->
      exists db' stored session view,
        signup environ body now uid sid tok db
        = (db', Ok {| token := tok; user := view |})
        /\ coll db' "user" = coll db "user" ++ [(uid, stored)]
        /\ coll db' "session" = coll db "session" ++ [(sid, session)]
        /\ session !! "token"%string = Some (VStr tok)
        /\ session !! "user_id"%string = Some (VOid uid)
        /\ (forall name, name <> "user"%string -> name <> "session"%string ->
                         coll db' name = coll db name)
        /\ view !! "password_hash"%string = None
        /\ view !! "_id"%string = None
        /\ view !! "id"%string = Some (VStr (bson.str uid))
        /\ view !! "role"%string = Some (VStr (default "user"%string (SignupBody.f_role f)))
        /\ (SignupBody.f_role f = None -> view !! "role"%string = Some (VStr "user"))
        /\ view !! "email"%string = Some (VStr (SignupBody.f_email f))
        /\ view !! "full_name"%string = Some (VStr (SignupBody.f_full_name f))).
Proof.
  intros body. split.
  - intros (r & Hin & He). eexists. now apply (signup_exists environ body now uid sid tok db r).
  - intros Hnone Hsalt Hpw Huid Hsid.
    destruct (hash_password_text environ _ Hsalt Hpw) as (bp & bs & _ & _ & Hh).
    pose proof (find_one_email_none _ _ Hnone) as Hemail.
    pose proof (signup_ok environ body now uid sid tok db _ Hemail Hh Huid Hsid) as Hrun.
    destruct (public_view_hidden (uid, signup_user_doc body (hashlib.sha256_hexdigest (bp ++ bs)))) as [Hp Hi].
    eexists _, _, _, _. split; [exact Hrun|].
    split_and!.
    + rewrite coll_insert_ne by discriminate. apply coll_insert_eq.
    + apply coll_insert_eq.
    + reflexivity.
    + reflexivity.
    + intros name H1 H2. now rewrite !coll_insert_ne by congruence.
    + exact Hp.
    + exact Hi.
    + apply public_view_id.
    + now rewrite public_view_other by discriminate.
    + intros Hr. rewrite public_view_other by discriminate.
      unfold body, SignupBody.validate. now rewrite Hr.
    + now rewrite public_view_other by discriminate.
    + now rewrite public_view_other by discriminate.
Qed.

Lemma not_admin caller :
  get caller "role" <> VStr "admin" ->
  negb (py_eq (get caller "role") (VStr "admin")) = true.
Proof. intros H. apply negb_true_iff. now apply py_eq_str_false. Qed.

Lemma is_admin caller :
  get caller "role" = VStr "admin" ->
  negb (py_eq (get caller "role") (VStr "admin")) = false.
Proof. intros H. apply negb_false_iff. now apply py_eq_str. Qed.

Lemma delete_first_split (pre post : collection) r q :
  matches q (to_dict r) = true ->
  Forall (fun x => matches q (to_dict x) = false) pre ->
  delete_first q (pre ++ r :: post) = pre ++ post.
Proof.
  intros Hr Hp. induction Hp as [|x pre Hx Hp IH]; simpl.
  - now rewrite Hr.
  - now rewrite Hx, IH.
Qed.

Lemma has_id_false_forall (c : collection) o :
  has_id c o = false -> Forall (fun x => matches (by_id o) (to_dict x) = false) c.
Proof. intros H. now apply find_one_none, find_by_id_none. Qed.

(** C9: the three admin operations answer a caller whose role is not
    [admin] with 403 and touch nothing; for an admin, the delete removes
    the stored property with the given identifier if there is one,
    changes nothing if there is none, and returns [{"deleted": true}]
    whenever it returns. *)
Theorem C9_admin_only :
  (forall caller db,
     get caller "role" <> VStr "admin" ->
     (exists detail, admin_stats caller db = (db, Err (HTTPException 403 detail)))
     /\ (exists detail, admin_users caller db = (db, Err (HTTPException 403 detail)))
     /\ (forall prop_id, exists detail,
           admin_delete_property prop_id caller db
           = (db, Err (HTTPException 403 detail))))
  /\ (forall caller db prop_id o,
        get caller "role" = VStr "admin" ->
        bson.parse prop_id = Some o ->
        (has_id (coll db "property") o = false ->
         admin_delete_property prop_id caller db
         = (db, Ok {[ "deleted"%string := VBool true ]}))
        /\ (forall pre r post,
              coll db "property" = pre ++ r :: post ->
              fst r = o -> has_id pre o = false ->
              admin_delete_property prop_id caller db
              = (<["property"%string := pre ++ post]> db,
                 Ok {[ "deleted"%string := VBool true ]})))
  /\ (forall caller db prop_id db' d,
        admin_delete_property prop_id caller db = (db', Ok d) ->
        d = {[ "deleted"%string := VBool true ]}).
Proof.
  split_and!.
  - intros caller db H. apply not_admin in H.
    unfold admin_stats, admin_users, admin_delete_property. rewrite H.
    split_and!; [eexists; reflexivity | eexists; reflexivity |].
    intros prop_id. eexists; reflexivity.
  - intros caller db prop_id o H Hp. apply is_admin in H.
    unfold admin_delete_property. rewrite H.
    unfold bind, lift, to_object_id, delete_one, ret. rewrite Hp. split.
    + intros Hno. apply find_by_id_none in Hno. now rewrite Hno.
    + intros pre r post Hc <- Hpre. rewrite Hc.
      apply has_id_false_forall in Hpre.
      assert (Hm : matches (by_id (fst r)) (to_dict r) = true)
        by (rewrite matches_by_id; apply oid_eqb_refl).
      rewrite (find_one_split pre post r _ Hm Hpre).
      now rewrite (delete_first_split pre post r _ Hm Hpre).
  - intros caller db prop_id db' d. unfold admin_delete_property.
    destruct (negb _); [discriminate|].
    unfold bind, lift, to_object_id, delete_one, ret.
    destruct (bson.parse prop_id); [|discriminate].
    destruct (mongo.find_one _ _); now intros [= _ <-].
Qed.

(** ** The fields of an update *)

Lemma in_omap_keep (l : list (string * option value)) k v :
  In (k, v) (omap PropertyUpdate.keep l) <-> In (k, Some v) l.
Proof.
  induction l as [|[k0 [v0|]] l IH]; simpl.
  - tauto.
  - rewrite IH. split; intros [H | H]; auto; left; congruence.
  - rewrite IH. split; [auto | intros [H | H]; [discriminate | auto]].
Qed.

Lemma NoDup_omap_keep (l : list (string * option value)) :
  NoDup (map fst l) -> NoDup (map fst (omap PropertyUpdate.keep l)).
Proof.
  induction l as [|[k0 [v0|]] l IH]; simpl; intros H; [constructor | |].
  - apply NoDup_cons in H as [Hk Hl]. apply NoDup_cons. split; [|auto].
    intros Hin. apply Hk. apply list_elem_of_In in Hin. apply list_elem_of_In.
    apply in_map_iff in Hin as ([k v] & <- & Hin). apply in_omap_keep in Hin.
    apply in_map_iff. now exists (k, Some v).
  - apply NoDup_cons in H as [_ Hl]. auto.
Qed.

Lemma dump_lookup_some (l : list (string * option value)) k v :
  NoDup (map fst l) -> In (k, Some v) l ->
  (list_to_map (omap PropertyUpdate.keep l) : doc) !! k = Some v.
Proof.
  intros Hnd Hin. apply elem_of_list_to_map_1.
  - now apply NoDup_omap_keep.
  - apply list_elem_of_In. now apply in_omap_keep.
Qed.

Lemma dump_lookup_inv (l : list (string * option value)) k v :
  (list_to_map (omap PropertyUpdate.keep l) : doc) !! k = Some v -> In (k, Some v) l.
Proof.
  intros H. apply elem_of_list_to_map_2 in H. apply list_elem_of_In in H.
  now apply in_omap_keep.
Qed.

Lemma dump_lookup_none (l : list (string * option value)) k :
  (forall v, ~ In (k, Some v) l) ->
  (list_to_map (omap PropertyUpdate.keep l) : doc) !! k = None.
Proof.
  intros H. destruct (list_to_map (omap PropertyUpdate.keep l) !! k) as [v|] eqn:E; [|reflexivity].
  apply dump_lookup_inv in E. now apply H in E.
Qed.

Lemma items_NoDup b : NoDup (map fst (PropertyUpdate.items b)).
Proof. cbn [PropertyUpdate.items map fst]. apply (bool_decide_unpack _). vm_compute. exact I. Qed.

Lemma items_not_null b k v : In (k, Some v) (PropertyUpdate.items b) -> v <> VNull.
Proof.
  unfold PropertyUpdate.items. simpl.
  intros H. repeat destruct H as [H | H]; try contradiction;
    injection H as _ H;
    match type of H with
    | _ <$> ?o = _ => destruct o; simpl in H; [injection H as <-; discriminate | discriminate]
    end.
Qed.

Lemma items_all_none b :
  Forall (fun kv => snd kv = None) (PropertyUpdate.items b) ->
  PropertyUpdate.model_dump_exclude_none b = ∅.
Proof.
  unfold PropertyUpdate.model_dump_exclude_none.
  generalize (PropertyUpdate.items b). intros l H.
  induction H as [|[k [v|]] l Hk Hl IH]; simpl in *; [reflexivity | discriminate | exact IH].
Qed.

Lemma NoDup_fst_unique (l : list (string * option value)) k a b :
  NoDup (map fst l) -> In (k, a) l -> In (k, b) l -> a = b.
Proof.
  induction l as [|[k0 v0] l IH]; simpl; [tauto|].
  intros Hnd. apply NoDup_cons in Hnd as [Hk Hl].
  intros [Ha | Ha] [Hb | Hb].
  - congruence.
  - exfalso. apply Hk. apply list_elem_of_In, in_map_iff. exists (k, b).
    split; [simpl; congruence | assumption].
  - exfalso. apply Hk. apply list_elem_of_In, in_map_iff. exists (k, a).
    split; [simpl; congruence | assumption].
  - eauto.
Qed.

(** ** Updating a property *)

Lemma update_first_split (pre post : collection) r q f :
  matches q (to_dict r) = true ->
  Forall (fun x => matches q (to_dict x) = false) pre ->
  update_first q f (pre ++ r :: post) = pre ++ (fst r, f (snd r)) :: post.
Proof.
  intros Hr Hp. induction Hp as [|x pre Hx Hp IH]; simpl.
  - now rewrite Hr.
  - now rewrite Hx, IH.
Qed.

Lemma get_to_dict r k : k <> "_id"%string -> get (to_dict r) k = get (snd r) k.
Proof. intros H. unfold get. now rewrite to_dict_other. Qed.

Lemma dump_plain body k v :
  PropertyUpdate.available_from body = None ->
  PropertyUpdate.available_to body = None ->
  PropertyUpdate.model_dump_exclude_none body !! k = Some v ->
  encodable v = true /\ to_bson v = v.
Proof.
  intros Hf Ht H. apply dump_lookup_inv in H.
  unfold PropertyUpdate.items in H. rewrite Hf, Ht in H. simpl in H.
  repeat destruct H as [H | H]; try contradiction;
    injection H as _ H;
    first [ discriminate H
          | match type of H with
            | _ <$> ?o = _ =>
                destruct o; simpl in H; [injection H as <-; now split | discriminate]
            end ].
Qed.

Lemma encode_update body :
  encode (PropertyUpdate.model_dump_exclude_none body)
  = if dated body then None else Some (PropertyUpdate.model_dump_exclude_none body).
Proof.
  unfold dated.
  destruct (PropertyUpdate.available_from body) as [x|] eqn:Ef.
  { apply (encode_date _ "available_from"%string x).
    apply dump_lookup_some; [apply items_NoDup|]. cbn. rewrite Ef. cbn. tauto. }
  destruct (PropertyUpdate.available_to body) as [x|] eqn:Et.
  { apply (encode_date _ "available_to"%string x).
    apply dump_lookup_some; [apply items_NoDup|]. cbn. rewrite Et. cbn. tauto. }
  apply encode_as_is. intros k v H. now apply (dump_plain body k v).
Qed.

Lemma dated_false body :
  PropertyUpdate.available_from body = None ->
  PropertyUpdate.available_to body = None ->
  dated body = false.
Proof. unfold dated. now intros -> ->. Qed.

Lemma dated_true body :
  PropertyUpdate.available_from body <> None
  \/ PropertyUpdate.available_to body <> None ->
  dated body = true.
Proof.
  unfold dated.
  destruct (PropertyUpdate.available_from body), (PropertyUpdate.available_to body);
    intros [H | H]; congruence.
Qed.

Lemma update_property_run prop_id body caller now db o pre stored post :
  bson.parse prop_id = Some o ->
  coll db "property" = pre ++ (o, stored) :: post ->
  has_id pre o = false ->
  update_property prop_id body caller now db
  = if negb (py_eq (get caller "role") (VStr "admin"))
       && negb (py_eq (get stored "host_id") (get caller "id"))
    then (db, Err (HTTPException 403 "ليس لديك إذن للتعديل"))
    else if bool_decide (PropertyUpdate.model_dump_exclude_none body = ∅)
    then (db, Ok {[ "updated"%string := VBool false ]})
    else if dated body
    then (db, Err (Unhandled InvalidDocument))
    else (<["property"%string :=
              pre ++ (o, stamped (PropertyUpdate.model_dump_exclude_none body) now stored)
                  :: post]> db,
          Ok (record_view (o, stamped (PropertyUpdate.model_dump_exclude_none body) now stored))).
Proof.
  intros Hp Hc Hpre. apply has_id_false_forall in Hpre.
  assert (Hm : forall d, matches (by_id o) (to_dict (o, d)) = true)
    by (intros d; rewrite matches_by_id; apply oid_eqb_refl).
  unfold update_property. run. unfold to_object_id. rewrite Hp, Hc.
  rewrite (find_one_split pre post (o, stored) _ (Hm stored) Hpre).
  rewrite bool_decide_eq_false_2 by apply to_dict_nonempty.
  rewrite get_to_dict by discriminate. cbn [snd].
  destruct (negb _ && negb _); [reflexivity|].
  destruct (bool_decide _); [reflexivity|].
  unfold item, update_one. rewrite to_dict_id. cbn [fst]. fold (by_id o).
  rewrite encode_update. destruct (dated body); [reflexivity|].
  rewrite Hc, (find_one_split pre post (o, stored) _ (Hm stored) Hpre).
  rewrite (update_first_split pre post (o, stored) _ _ (Hm stored) Hpre).
  rewrite coll_insert_eq. cbn [fst snd].
  rewrite (find_one_split pre post (o, _) _ (Hm _) Hpre).
  now rewrite with_id_to_dict.
Qed.

Lemma stamped_lookup update now stored k :
  stamped update now stored !! k
  = if decide (k = "updated_at"%string) then Some (VDateTime now)
    else match update !! k with Some v => Some v | None => stored !! k end.
Proof.
  unfold stamped. destruct (decide (k = "updated_at"%string)) as [-> | Hk].
  - apply lookup_insert_eq.
  - rewrite lookup_insert_ne by congruence.
    destruct (update !! k) as [v|] eqn:E.
    + now apply lookup_union_Some_l.
    + now apply lookup_union_r.
Qed.

Lemma update_property_bad_id prop_id body caller now db :
  bson.parse prop_id = None ->
  update_property prop_id body caller now db
  = (db, Err (HTTPException 400 "معرف غير صالح")).
Proof. intros H. unfold update_property, bind, lift, to_object_id. now rewrite H. Qed.

Lemma update_property_missing prop_id body caller now db o :
  bson.parse prop_id = Some o ->
  has_id (coll db "property") o = false ->
  update_property prop_id body caller now db
  = (db, Err (HTTPException 404 "السكن غير موجود")).
Proof.
  intros H Hno. apply find_by_id_none in Hno.
  unfold update_property. run. unfold to_object_id. now rewrite H, Hno.
Qed.

(** C7: [update_property] answers a malformed identifier with 400, an
    identifier no stored property has with 404, and a caller who is
    neither admin nor the host of the property with 403, each time
    without writing; when no field is given it returns
    [{"updated": false}] and writes nothing. Otherwise, when the body
    gives no availability date, it writes the fields of the body that
    are not [None] (each with the value given), stamps [updated_at] with
    the server time and leaves every other field, every other property
    and every other collection as they were. A body that gives an
    availability date is not written: the date reaches the driver as
    a calendar date, which the driver cannot encode, and the request
    ends in an uncaught [InvalidDocument] (a 500) with the database as
    it was. *)
Theorem C7_update_property prop_id (body : PropertyUpdate.t) caller now db :
  let update := PropertyUpdate.model_dump_exclude_none body in
  ((forall k v, In (k, Some v) (PropertyUpdate.items body) -> update !! k = Some v)
   /\ (forall k, (forall v, ~ In (k, Some v) (PropertyUpdate.items body)) ->
                 update !! k = None))
  /\ (bson.parse prop_id = None ->
      exists detail,
        update_property prop_id body caller now db
        = (db, Err (HTTPException 400 detail)))
  /\ (forall o,
        bson.parse prop_id = Some o ->
        has_id (coll db "property") o = false ->
        exists detail,
          update_property prop_id body caller now db
          = (db, Err (HTTPException 404 detail)))
  /\ (forall o pre stored post,
        bson.parse prop_id = Some o ->
        coll db "property" = pre ++ (o, stored) :: post ->
        has_id pre o = false ->
        let allowed := py_eq (get caller "role") (VStr "admin")
                       || py_eq (get stored "host_id") (get caller "id") in
        (allowed = false ->
         exists detail,
           update_property prop_id body caller now db
           = (db, Err (HTTPException 403 detail)))
        /\ (allowed = true -> update = ∅ ->
            update_property prop_id body caller now db
            = (db, Ok {[ "updated"%string := VBool false ]}))
        /\ (allowed = true -> update <> ∅ ->
            PropertyUpdate.available_from body = None ->
            PropertyUpdate.available_to body = None ->
            exists stored',
              update_property prop_id body caller now db
              = (<["property"%string := pre ++ (o, stored') :: post]> db,
                 Ok (record_view (o, stored')))
              /\ stored' !! "updated_at"%string = Some (VDateTime now)
              /\ (forall k v, k <> "updated_at"%string ->
                              update !! k = Some v -> stored' !! k = Some v)
              /\ (forall k, k <> "updated_at"%string ->
                            update !! k = None -> stored' !! k = stored !! k))
        /\ (allowed = true ->
            PropertyUpdate.available_from body <> None
            \/ PropertyUpdate.available_to body <> None ->
            update <> ∅
            /\ update_property prop_id body caller now db
               = (db, Err (Unhandled InvalidDocument))
            /\ status (Unhandled InvalidDocument) = 500)).
Proof.
  intros update. split_and!.
  - intros k v H. apply dump_lookup_some; [apply items_NoDup | exact H].
  - intros k H. now apply dump_lookup_none.
  - intros H. eexists. now apply update_property_bad_id.
  - intros o H Hno. eexists. now apply update_property_missing with (o := o).
  - intros o pre stored post Hp Hc Hpre allowed.
    pose proof (update_property_run prop_id body caller now db o pre stored post Hp Hc Hpre) as Hrun.
    fold update in Hrun. rewrite <- negb_orb in Hrun. fold allowed in Hrun.
    split_and!.
    + intros Ha. rewrite Ha in Hrun. eexists. exact Hrun.
    + intros Ha He. rewrite Ha in Hrun. cbn [negb] in Hrun.
      now rewrite bool_decide_eq_true_2 in Hrun by exact He.
    + intros Ha He Hf Ht. rewrite Ha in Hrun. cbn [negb] in Hrun.
      rewrite bool_decide_eq_false_2 in Hrun by exact He.
      rewrite (dated_false body Hf Ht) in Hrun.
      eexists. split; [exact Hrun|]. split_and!.
      * rewrite stamped_lookup. now rewrite decide_True.
      * intros k v Hk Hu. rewrite stamped_lookup, decide_False by exact Hk. now rewrite Hu.
      * intros k Hk Hu. rewrite stamped_lookup, decide_False by exact Hk. now rewrite Hu.
    + intros Ha Hd. rewrite Ha in Hrun. cbn [negb] in Hrun.
      assert (He : update <> ∅).
      { pose proof (encode_update body) as E. rewrite (dated_true body Hd) in E.
        fold update in E. intros Hempty. rewrite Hempty in E. discriminate E. }
      rewrite bool_decide_eq_false_2 in Hrun by exact He.
      rewrite (dated_true body Hd) in Hrun. now split_and!.
Qed.

Lemma no_reset_refl (c : collection) :
  Forall2 (fun r r' : bson.ObjectId * doc =>
             fst r' = fst r
             /\ forall k v, snd r !! k = Some v -> v <> VNull ->
                            exists v', snd r' !! k = Some v' /\ v' <> VNull) c c.
Proof.
  induction c as [|r c IH]; constructor; [|exact IH].
  split; [reflexivity|]. intros k v Hk Hv. eauto.
Qed.

(** C10: a field that is [None] in the body is left out of the write;
    the write never stores a null, so a stored field that holds a value
    still holds one after any update; and a body whose fields are all
    [None] writes nothing and, for a caller allowed to edit, returns
    [{"updated": false}]. *)
Theorem C10_null_is_not_provided prop_id (body : PropertyUpdate.t) caller now db :
  let update := PropertyUpdate.model_dump_exclude_none body in
  (forall k, In (k, None) (PropertyUpdate.items body) -> update !! k = None)
  /\ (forall k v, update !! k = Some v -> v <> VNull)
  /\ (forall db' res,
        update_property prop_id body caller now db = (db', res) ->
        Forall2 (fun r r' : bson.ObjectId * doc =>
                   fst r' = fst r
                   /\ forall k v, snd r !! k = Some v -> v <> VNull ->
                                  exists v', snd r' !! k = Some v' /\ v' <> VNull)
                (coll db "property") (coll db' "property"))
  /\ (Forall (fun kv => snd kv = None) (PropertyUpdate.items body) ->
      (exists res, update_property prop_id body caller now db = (db, res))
      /\ (forall o pre stored post,
            bson.parse prop_id = Some o ->
            coll db "property" = pre ++ (o, stored) :: post ->
            has_id pre o = false ->
            py_eq (get caller "role") (VStr "admin")
            || py_eq (get stored "host_id") (get caller "id") = true ->
            update_property prop_id body caller now db
            = (db, Ok {[ "updated"%string := VBool false ]}))).
Proof.
  intros update.
  assert (Hnn : forall k v, update !! k = Some v -> v <> VNull).
  { intros k v H. apply dump_lookup_inv in H. now apply items_not_null in H. }
  assert (Hcases :
            (exists e, update_property prop_id body caller now db = (db, Err e))
            \/ (exists o pre stored post,
                  bson.parse prop_id = Some o
                  /\ coll db "property" = pre ++ (o, stored) :: post
                  /\ has_id pre o = false)).
  { destruct (bson.parse prop_id) as [o|] eqn:Hp.
    - destruct (mongo.find_one (coll db "property") (by_id o)) as [d|] eqn:Hf.
      + right. destruct (find_one_some _ _ _ Hf) as (pre & [o' stored] & post & Hc & _ & Hm & Hpre).
        rewrite matches_by_id in Hm. apply oid_eqb_eq in Hm. cbn [fst] in Hm. subst o'.
        exists o, pre, stored, post. split_and!; [reflexivity | exact Hc |].
        now apply find_by_id_none, find_one_none.
      + left. eexists. apply update_property_missing with (o := o); [exact Hp|].
        now apply find_by_id_none.
    - left. eexists. now apply update_property_bad_id. }
  split_and!.
  - intros k Hk. apply dump_lookup_none. intros v Hv.
    pose proof (NoDup_fst_unique _ _ _ _ (items_NoDup body) Hk Hv). discriminate.
  - exact Hnn.
  - intros db' res Hrun.
    destruct Hcases as [[e He] | (o & pre & stored & post & Hp & Hc & Hpre)].
    { rewrite He in Hrun. injection Hrun as <- _. apply no_reset_refl. }
    rewrite (update_property_run _ _ _ _ _ _ _ _ _ Hp Hc Hpre) in Hrun.
    destruct (negb _ && negb _).
    { injection Hrun as <- _. apply no_reset_refl. }
    destruct (bool_decide _).
    { injection Hrun as <- _. apply no_reset_refl. }
    destruct (dated body).
    { injection Hrun as <- _. apply no_reset_refl. }
    injection Hrun as <- _. rewrite coll_insert_eq, Hc.
    apply Forall2_app; [apply no_reset_refl|].
    constructor; [|apply no_reset_refl].
    split; [reflexivity|]. cbn [snd]. intros k v Hk Hv.
    rewrite stamped_lookup. destruct (decide _); [eexists; split; [reflexivity | discriminate]|].
    fold update. destruct (update !! k) as [w|] eqn:E; eauto.
  - intros Hall. pose proof (items_all_none body Hall) as Hempty. split.
    + destruct Hcases as [[e He] | (o & pre & stored & post & Hp & Hc & Hpre)]; [eauto|].
      rewrite (update_property_run _ _ _ _ _ _ _ _ _ Hp Hc Hpre).
      rewrite Hempty. rewrite bool_decide_eq_true_2 by reflexivity.
      destruct (negb _ && negb _); eauto.
    + intros o pre stored post Hp Hc Hpre Ha.
      rewrite (update_property_run _ _ _ _ _ _ _ _ _ Hp Hc Hpre).
      rewrite <- negb_orb, Ha, Hempty. cbn [negb].
      now rewrite bool_decide_eq_true_2 by reflexivity.
Qed.

(** ** Search *)

Lemma find_as_filter (c : collection) q :
  mongo.find c q = map to_dict (List.filter (fun r => matches q (to_dict r)) c).
Proof.
  unfold mongo.find. induction c as [|r c IH]; simpl; [reflexivity|].
  destruct (matches q (to_dict r)); simpl; now rewrite IH.
Qed.

Lemma limit_map {A B} (f : A -> B) n (l : list A) :
  limit n (map f l) = map f (limit n l).
Proof. unfold limit. destruct (n =? 0); [reflexivity | apply firstn_map]. Qed.

Lemma mapM_with_id (c : collection) :
  mapM with_id (map to_dict c) = Ok (map record_view c).
Proof.
  induction c as [|x c IH]; simpl; [reflexivity|].
  now rewrite with_id_to_dict, IH.
Qed.

Lemma cond_null (d : doc) k : cond_holds (Is VNull) (d !! k) = absent d k.
Proof. unfold absent. destruct (d !! k) as [[]|]; reflexivity. Qed.

Lemma cond_is (d : doc) k v : v <> VNull -> cond_holds (Is v) (d !! k) = is_value d k v.
Proof. intros H. unfold is_value. destruct (d !! k); destruct v; simpl; congruence. Qed.

Lemma cmp_gte_float w m :
  cmp_holds gte w (VFloat m)
  = match num w with Some p => QArith_base.Qle_bool m p | None => false end.
Proof.
  unfold cmp_holds, value_compare.
  assert (H : forall p, match QArith_base.Qcompare p m with
                        | Gt | Eq => true | Lt => false end
                        = QArith_base.Qle_bool m p).
  { intros p. pose proof (QArith_base.Qle_bool_iff m p) as Hb.
    pose proof (QArith_base.Qge_alt p m) as Ha.
    destruct (QArith_base.Qcompare p m) eqn:C;
      destruct (QArith_base.Qle_bool m p) eqn:E; try reflexivity; exfalso.
    all: first [ exact (proj1 Ha (proj1 Hb eq_refl) eq_refl)
               | discriminate (proj2 Hb (proj2 Ha ltac:(discriminate))) ]. }
  destruct w; simpl; try reflexivity; apply H.
Qed.

Lemma cmp_lte_float w m :
  cmp_holds lte w (VFloat m)
  = match num w with Some p => QArith_base.Qle_bool p m | None => false end.
Proof.
  unfold cmp_holds, value_compare.
  assert (H : forall p, match QArith_base.Qcompare p m with
                        | Lt | Eq => true | Gt => false end
                        = QArith_base.Qle_bool p m).
  { intros p. pose proof (QArith_base.Qle_bool_iff p m) as Hb.
    pose proof (QArith_base.Qle_alt p m) as Ha.
    destruct (QArith_base.Qcompare p m) eqn:C;
      destruct (QArith_base.Qle_bool p m) eqn:E; try reflexivity; exfalso.
    all: first [ exact (proj1 Ha (proj1 Hb eq_refl) eq_refl)
               | discriminate (proj2 Hb (proj2 Ha ltac:(discriminate))) ]. }
  destruct w; simpl; try reflexivity; apply H.
Qed.

Lemma cmp_lte_date (d : doc) k e :
  cond_holds (Ops [(lte, VDate e)]) (d !! k)
  = match date_field d k with Some x => x <=? e | None => false end.
Proof.
  unfold date_field. destruct (d !! k) as [w|]; [|reflexivity].
  destruct w; simpl; try reflexivity.
  unfold cmp_holds. simpl. unfold Z.leb.
  destruct (_ ?= _); reflexivity.
Qed.

Lemma cmp_gte_date (d : doc) k s :
  cond_holds (Ops [(gte, VDate s)]) (d !! k)
  = match date_field d k with Some x => s <=? x | None => false end.
Proof.
  unfold date_field. destruct (d !! k) as [w|]; [|reflexivity].
  destruct w; simpl; try reflexivity.
  unfold cmp_holds. simpl. unfold Z.leb. rewrite (Z.compare_antisym d0 s).
  destruct (d0 ?= s); reflexivity.
Qed.

Lemma requested_part (d : doc) k o base :
  forallb (fun q => matches q d)
    (if py.truthy_str o then base ++ [Field k (Is (VStr (default "" o)))] else base)
  = forallb (fun q => matches q d) base && requested d k o.
Proof.
  unfold requested, py.truthy_str. destruct o as [s|]; [|now rewrite andb_true_r].
  destruct (String.eqb s ""); cbn [negb orb]; [now rewrite andb_true_r|].
  rewrite forallb_app. cbn [forallb matches]. unfold default. cbn [from_option id].
  rewrite cond_is by discriminate. now rewrite andb_true_r.
Qed.

Lemma price_part (d : doc) lo hi base :
  forallb (fun q => matches q d)
    (match
        match hi with
        | Some m => match lo with Some m0 => [] ++ [(gte, VFloat m0)] | None => [] end
                    ++ [(lte, VFloat m)]
        | None => match lo with Some m0 => [] ++ [(gte, VFloat m0)] | None => [] end
        end
      with
      | [] => base
      | _ :: _ =>
          base ++ [Field "price_per_month"
                     (Ops match hi with
                          | Some m => match lo with Some m0 => [] ++ [(gte, VFloat m0)] | None => [] end
                                      ++ [(lte, VFloat m)]
                          | None => match lo with Some m0 => [] ++ [(gte, VFloat m0)] | None => [] end
                          end)]
      end)
  = forallb (fun q => matches q d) base && price_within d lo hi.
Proof.
  unfold price_within.
  destruct lo as [a|], hi as [b|]; cbn [app]; rewrite ?forallb_app;
    cbn [forallb matches]; rewrite ?andb_true_r; try reflexivity;
    f_equal; destruct (d !! "price_per_month"%string) as [w|]; cbn [cond_holds forallb fst snd];
    try reflexivity; rewrite ?cmp_gte_float, ?cmp_lte_float;
    destruct (num w); cbn; rewrite ?andb_true_r; reflexivity.
Qed.

Lemma date_part (d : doc) sd ed base :
  forallb (fun q => matches q d)
    (match sd, ed with
     | Some s, Some e =>
         base ++ [And [Or [Field "available_from" (Is VNull);
                           Field "available_from" (Ops [(lte, VDate e)])];
                       Or [Field "available_to" (Is VNull);
                           Field "available_to" (Ops [(gte, VDate s)])]]]
     | _, _ => base
     end)
  = forallb (fun q => matches q d) base && available d sd ed.
Proof.
  unfold available. destruct sd as [s|], ed as [e|]; rewrite ?andb_true_r; try reflexivity.
  rewrite forallb_app. f_equal. cbn [forallb existsb matches].
  rewrite !cond_null, cmp_lte_date, cmp_gte_date.
  now rewrite !orb_false_r, !andb_true_r.
Qed.

Lemma list_properties_run city type lo hi sd ed lim db :
  sd = None \/ ed = None ->
  list_properties city type lo hi sd ed lim db
  = (db, Ok (map record_view
               (limit lim
                  (List.filter (fun r => qualifies city type lo hi sd ed (to_dict r))
                     (coll db "property"))))).
Proof.
  intros Hd. unfold list_properties, bind, main.find, lift.
  match goal with
  | |- context [query_encodable ?q] => assert (E : query_encodable q = true)
  end.
  { destruct Hd as [-> | ->];
      destruct lo, hi, (py.truthy_str city), (py.truthy_str type);
      try destruct sd; try destruct ed; reflexivity. }
  rewrite E.
  rewrite find_as_filter, limit_map, mapM_with_id.
  rewrite (List.filter_ext _ (fun r => qualifies city type lo hi sd ed (to_dict r)));
    [reflexivity|].
  intros r. cbn [matches].
  rewrite date_part, price_part, !requested_part. cbn [forallb matches].
  rewrite cond_is by discriminate. unfold qualifies. now rewrite andb_true_r.
Qed.

Lemma list_properties_dates city type lo hi s e lim db :
  list_properties city type lo hi (Some s) (Some e) lim db
  = (db, Err (Unhandled InvalidDocument)).
Proof.
  unfold list_properties, bind, main.find, lift.
  match goal with
  | |- context [query_encodable ?q] => assert (E : query_encodable q = false)
  end.
  { destruct lo, hi, (py.truthy_str city), (py.truthy_str type); reflexivity. }
  now rewrite E.
Qed.

Lemma list_properties_ok city type lo hi sd ed lim db db' docs :
  list_properties city type lo hi sd ed lim db = (db', Ok docs) ->
  sd = None \/ ed = None.
Proof.
  destruct sd as [s|]; [|now left]. destruct ed as [e|]; [|now right].
  now rewrite list_properties_dates.
Qed.

Lemma qualifies_no_dates city type lo hi sd ed d :
  sd = None \/ ed = None ->
  qualifies city type lo hi sd ed d = qualifies city type lo hi None None d.
Proof. intros [-> | ->]; [reflexivity|]. unfold qualifies, available. now destruct sd. Qed.

Lemma record_view_other r k :
  k <> "id"%string -> k <> "_id"%string -> record_view r !! k = snd r !! k.
Proof.
  intros H1 H2. unfold record_view.
  rewrite lookup_insert_ne by congruence. rewrite lookup_delete_ne by congruence.
  now apply to_dict_other.
Qed.

Lemma record_view_id r : record_view r !! "id"%string = Some (VStr (bson.str (fst r))).
Proof. apply lookup_insert_eq. Qed.

Lemma is_value_true (d : doc) k : is_value d k (VBool true) = true -> d !! k = Some (VBool true).
Proof.
  unfold is_value. destruct (d !! k) as [w|]; [|discriminate].
  destruct w as [|[|]| | | | | | |]; simpl; try discriminate. reflexivity.
Qed.

Lemma has_id_true (c : collection) o :
  has_id c o = true ->
  exists pre body post, c = pre ++ (o, body) :: post /\ has_id pre o = false.
Proof.
  intros H. destruct (mongo.find_one c (by_id o)) as [d|] eqn:E.
  - destruct (find_one_some _ _ _ E) as (pre & [o' body] & post & Hc & _ & Hm & Hpre).
    rewrite matches_by_id in Hm. apply oid_eqb_eq in Hm. cbn [fst] in Hm. subst o'.
    exists pre, body, post. split; [exact Hc|]. now apply find_by_id_none, find_one_none.
  - apply find_by_id_none in E. congruence.
Qed.

Lemma has_id_in (c : collection) o body : In (o, body) c -> has_id c o = true.
Proof.
  intros H. unfold has_id. apply existsb_exists. exists (o, body).
  split; [exact H | apply oid_eqb_refl].
Qed.

Lemma find_one_by_id_split (pre post : collection) o body :
  has_id pre o = false ->
  mongo.find_one (pre ++ (o, body) :: post) (by_id o) = Some (to_dict (o, body)).
Proof.
  intros H. apply find_one_split; [|now apply has_id_false_forall].
  rewrite matches_by_id. apply oid_eqb_refl.
Qed.

Lemma get_property_found prop_id db o pre body post :
  bson.parse prop_id = Some o ->
  coll db "property" = pre ++ (o, body) :: post ->
  has_id pre o = false ->
  get_property prop_id db = (db, Ok (record_view (o, body))).
Proof.
  intros Hp Hc Hpre. unfold get_property. run. unfold to_object_id.
  rewrite Hp, Hc, (find_one_by_id_split _ _ _ _ Hpre).
  rewrite bool_decide_eq_false_2 by apply to_dict_nonempty.
  now rewrite with_id_to_dict.
Qed.

(** C5, amended: a search that does not give both dates returns, up to
    the limit, the stored properties that are active and pass the
    filters given: city and type by equality when requested and not the
    empty string, the price within the bounds given. Every property a
    search returns is active. The fetch by identifier returns a stored
    property with that identifier whatever its [is_active]. *)
Theorem C5_search_and_fetch db :
  (forall city type lo hi sd ed lim,
     sd = None \/ ed = None ->
     list_properties city type lo hi sd ed lim db
     = (db, Ok (map record_view
                  (limit lim
                     (List.filter
                        (fun r => qualifies city type lo hi None None (to_dict r))
                        (coll db "property"))))))
  /\ (forall city type lo hi sd ed lim docs d,
        snd (list_properties city type lo hi sd ed lim db) = Ok docs ->
        In d docs -> d !! "is_active"%string = Some (VBool true))
  /\ (forall prop_id o body,
        bson.parse prop_id = Some o ->
        In (o, body) (coll db "property") ->
        exists body',
          In (o, body') (coll db "property")
          /\ get_property prop_id db = (db, Ok (record_view (o, body')))).
Proof.
  split_and!.
  - intros city type lo hi sd ed lim Hd. rewrite list_properties_run by exact Hd.
    do 4 f_equal. apply List.filter_ext. intros r. now apply qualifies_no_dates.
  - intros city type lo hi sd ed lim docs d Hrun Hd.
    assert (Hdates : sd = None \/ ed = None).
    { destruct (list_properties city type lo hi sd ed lim db) as [db' res] eqn:E.
      cbn [snd] in Hrun. subst res. now apply list_properties_ok in E. }
    rewrite list_properties_run in Hrun by exact Hdates.
    cbn [snd] in Hrun. injection Hrun as <-.
    apply in_map_iff in Hd as (r & <- & Hr).
    assert (Hf : In r (List.filter (fun r => qualifies city type lo hi sd ed (to_dict r))
                         (coll db "property"))).
    { unfold limit in Hr. destruct (lim =? 0); [exact Hr|].
      rewrite <- (firstn_skipn (Z.to_nat (Z.abs lim))). apply in_or_app. now left. }
    apply filter_In in Hf as [_ Ha]. unfold qualifies in Ha.
    rewrite !andb_true_iff in Ha. destruct Ha as [[[[Ha _] _] _] _].
    apply is_value_true in Ha.
    rewrite record_view_other by discriminate.
    now rewrite to_dict_other in Ha by discriminate.
  - intros prop_id o body Hp Hin.
    destruct (has_id_true _ _ (has_id_in _ _ _ Hin)) as (pre & body' & post & Hc & Hpre).
    exists body'. split; [rewrite Hc; apply in_elt|].
    now apply get_property_found with (pre := pre) (post := post).
Qed.

(** ** Bookings *)

Lemma booking_not_encodable (b : Booking.t) po uo :
  encode (<["user_id"%string := VOid uo]>
            (<["property_id"%string := VOid po]> (Booking.model_dump b))) = None.
Proof. now apply (encode_date _ "start_date" (Booking.start_date b)). Qed.

Lemma create_booking_invalid_document body caller bid db o cid uo :
  BookingCreate.start_date body <= BookingCreate.end_date body ->
  bson.parse (BookingCreate.property_id body) = Some o ->
  has_id (coll db "property") o = true ->
  caller !! "id"%string = Some (VStr cid) ->
  bson.parse cid = Some uo ->
  1 <= BookingCreate.guests body <= 10 ->
  create_booking body caller bid db = (db, Err (Unhandled InvalidDocument)).
Proof.
  intros Hd Hp Hprop Hc Hu Hg.
  destruct (has_id_true _ _ Hprop) as (pre & pbody & post & Hcoll & Hpre).
  unfold create_booking.
  assert ((BookingCreate.end_date body <? BookingCreate.start_date body) = false) as ->
      by (apply Z.ltb_ge; lia).
  run. unfold to_object_id. rewrite Hp, Hcoll, (find_one_by_id_split _ _ _ _ Hpre).
  rewrite bool_decide_eq_false_2 by apply to_dict_nonempty.
  unfold item. rewrite Hc. unfold Booking.validate. cbn [Booking.guests].
  assert (((1 <=? BookingCreate.guests body) && (BookingCreate.guests body <=? 10)) = true) as ->
      by (apply andb_true_iff; split; apply Z.leb_le; lia).
  unfold ObjectId. cbn [Booking.property_id Booking.user_id].
  rewrite Hp, Hu. now rewrite booking_not_encodable.
Qed.

Lemma create_booking_never_stores body caller bid db :
  fst (create_booking body caller bid db) = db
  /\ forall view, snd (create_booking body caller bid db) <> Ok view.
Proof.
  unfold create_booking. destruct (_ <? _); [now split|]. run.
  destruct (to_object_id _) as [oid|]; [|now split].
  destruct (mongo.find_one (coll db "property") _) as [p|]; [|now split].
  destruct (bool_decide (p = ∅)); [now split|].
  destruct (item caller "id") as [[]|]; try now split.
  destruct (Booking.validate _) as [b|]; [|now split].
  destruct (ObjectId (Booking.property_id b)) as [po|]; [|now split].
  destruct (ObjectId (Booking.user_id b)) as [uo|]; [|now split].
  rewrite booking_not_encodable. now split.
Qed.

Lemma create_booking_bad_dates body caller bid db :
  BookingCreate.end_date body < BookingCreate.start_date body ->
  create_booking body caller bid db
  = (db, Err (HTTPException 400 "نطاق التواريخ غير صالح")).
Proof.
  intros H. unfold create_booking.
  now assert ((BookingCreate.end_date body <? BookingCreate.start_date body) = true) as ->
      by (apply Z.ltb_lt; lia).
Qed.

Lemma create_booking_bad_id body caller bid db :
  BookingCreate.start_date body <= BookingCreate.end_date body ->
  bson.parse (BookingCreate.property_id body) = None ->
  create_booking body caller bid db
  = (db, Err (HTTPException 400 "معرف غير صالح")).
Proof.
  intros H Hp. unfold create_booking.
  assert ((BookingCreate.end_date body <? BookingCreate.start_date body) = false) as ->
      by (apply Z.ltb_ge; lia).
  unfold bind, lift, to_object_id. now rewrite Hp.
Qed.

Lemma create_booking_missing body caller bid db o :
  BookingCreate.start_date body <= BookingCreate.end_date body ->
  bson.parse (BookingCreate.property_id body) = Some o ->
  has_id (coll db "property") o = false ->
  create_booking body caller bid db
  = (db, Err (HTTPException 404 "السكن غير موجود")).
Proof.
  intros H Hp Hno. apply find_by_id_none in Hno. unfold create_booking.
  assert ((BookingCreate.end_date body <? BookingCreate.start_date body) = false) as ->
      by (apply Z.ltb_ge; lia).
  run. unfold to_object_id. now rewrite Hp, Hno.
Qed.

Lemma create_booking_400 body caller bid db db' e :
  create_booking body caller bid db = (db', Err e) ->
  status e = 400 ->
  BookingCreate.end_date body < BookingCreate.start_date body
  \/ bson.parse (BookingCreate.property_id body) = None.
Proof.
  intros Hrun Hs.
  destruct (Z.ltb_spec (BookingCreate.end_date body) (BookingCreate.start_date body)) as [Hlt | Hge];
    [now left|].
  destruct (bson.parse (BookingCreate.property_id body)) as [o|] eqn:Hp; [|now right].
  exfalso. revert Hrun. unfold create_booking.
  assert ((BookingCreate.end_date body <? BookingCreate.start_date body) = false) as ->
      by (apply Z.ltb_ge; lia).
  run. unfold to_object_id. rewrite Hp.
  assert (Hno : forall (A : Type) (x : exc.exception) (r : database * result A),
             r = (db, Err (Unhandled x)) -> r = (db', Err e) -> False).
  { intros A x r -> [= _ <-]. discriminate Hs. }
  destruct (mongo.find_one _ _) as [p|]; [|intros [= _ <-]; discriminate Hs].
  destruct (bool_decide (p = ∅)); [intros [= _ <-]; discriminate Hs|].
  unfold item. destruct (caller !! "id"%string) as [v|]; [|now apply Hno with (x := KeyError)].
  destruct v; try (now apply Hno with (x := ValidationError)).
  unfold Booking.validate. cbn [Booking.guests].
  destruct (_ && _); [|now apply Hno with (x := ValidationError)].
  unfold ObjectId. cbn [Booking.property_id Booking.user_id]. rewrite Hp.
  destruct (bson.parse s) as [uo|]; [|now apply Hno with (x := InvalidId)].
  rewrite booking_not_encodable. now apply Hno with (x := InvalidDocument).
Qed.

(** C6: [create_booking] never creates a booking. With the end date
    before the start date it fails with 400, and with an identifier no
    stored property has with 404, as the claim says. Otherwise, for a
    caller with a well-formed identifier and a number of guests from 1
    to 10, the handler builds the pending booking and hands it to
    [insert_one] with its two dates still calendar dates, which the
    driver cannot encode: the request ends in an uncaught
    [InvalidDocument] (a 500) and nothing is stored. So no input makes
    the handler return a booking or write to the database. *)
Theorem C6_create_booking_stores_nothing (body : BookingCreate.t) caller bid db :
  let start_date := BookingCreate.start_date body in
  let end_date := BookingCreate.end_date body in
  let parsed := bson.parse (BookingCreate.property_id body) in
  (end_date < start_date ->
   exists detail,
     create_booking body caller bid db = (db, Err (HTTPException 400 detail)))
  /\ (forall o,
        start_date <= end_date -> parsed = Some o ->
        has_id (coll db "property") o = false ->
        exists detail,
          create_booking body caller bid db = (db, Err (HTTPException 404 detail)))
  /\ (forall o cid,
        start_date <= end_date -> parsed = Some o ->
        has_id (coll db "property") o = true ->
        caller !! "id"%string = Some (VStr (bson.str cid)) ->
        1 <= BookingCreate.guests body <= 10 ->
        create_booking body caller bid db = (db, Err (Unhandled InvalidDocument))
        /\ status (Unhandled InvalidDocument) = 500)
  /\ fst (create_booking body caller bid db) = db
  /\ (forall view, snd (create_booking body caller bid db) <> Ok view).
Proof.
  intros start_date end_date parsed. split_and!.
  - intros H. eexists. now apply create_booking_bad_dates.
  - intros o H Hp Hno. eexists. now apply create_booking_missing with (o := o).
  - intros o cid H Hp Hprop Hc Hg. split; [|reflexivity].
    now apply (create_booking_invalid_document _ _ _ _ o (bson.str cid) cid);
      try apply parse_str.
  - apply create_booking_never_stores.
  - apply create_booking_never_stores.
Qed.

(** ** Passwords that cannot be encoded *)

Lemma encode_cp_not_scalar c : py.scalar c = false -> py.encode_cp c = None.
Proof.
  unfold py.scalar, py.encode_cp. intros H.
  repeat match goal with
         | |- context [if ?b then _ else _] => destruct b eqn:?
         end; try reflexivity; exfalso; lia.
Qed.

Lemma encode_not_text s : py.is_text s = false -> py.encode s = None.
Proof.
  unfold py.is_text. induction s as [|c s IH]; simpl; [discriminate|].
  rewrite andb_false_iff. intros [Hc | Hs].
  - now rewrite (encode_cp_not_scalar _ Hc).
  - rewrite (IH Hs). now destruct (py.encode_cp c).
Qed.

(** A password or a salt with a lone surrogate makes [str.encode] raise:
    no credential is computed, and [signup] stores nothing. *)
Lemma hash_password_not_text environ pw :
  py.is_text (pw ++ getenv environ "PW_SALT" (py.ustr_of_string "saknli_salt")) = false ->
  hash_password environ pw = Err (Unhandled UnicodeEncodeError).
Proof. intros H. unfold hash_password. now rewrite (encode_not_text _ H). Qed.

Lemma signup_not_text environ body now uid sid tok db :
  mongo.find_one (coll db "user") (email_query (SignupBody.email body)) = None ->
  py.is_text (SignupBody.password body
              ++ getenv environ "PW_SALT" (py.ustr_of_string "saknli_salt")) = false ->
  signup environ body now uid sid tok db = (db, Err (Unhandled UnicodeEncodeError)).
Proof.
  intros He Ht. unfold email_query in He. unfold signup. run. rewrite He.
  now rewrite (hash_password_not_text _ _ Ht).
Qed.

(** ** Guests *)

(** The number of guests is checked by the [Booking] schema only, inside
    the handler: with a number of guests outside 1..10 for an existing
    property the request ends in an uncaught [ValidationError], and
    nothing is stored. *)
Lemma create_booking_guests_unchecked body caller bid db o cid :
  BookingCreate.start_date body <= BookingCreate.end_date body ->
  bson.parse (BookingCreate.property_id body) = Some o ->
  has_id (coll db "property") o = true ->
  caller !! "id"%string = Some (VStr cid) ->
  ~ (1 <= BookingCreate.guests body <= 10) ->
  create_booking body caller bid db = (db, Err (Unhandled ValidationError)).
Proof.
  intros Hd Hp Hprop Hc Hg.
  destruct (has_id_true _ _ Hprop) as (pre & pbody & post & Hcoll & Hpre).
  unfold create_booking.
  assert ((BookingCreate.end_date body <? BookingCreate.start_date body) = false) as ->
      by (apply Z.ltb_ge; lia).
  run. unfold to_object_id. rewrite Hp, Hcoll, (find_one_by_id_split _ _ _ _ Hpre).
  rewrite bool_decide_eq_false_2 by apply to_dict_nonempty.
  unfold item. rewrite Hc. unfold Booking.validate. cbn [Booking.guests].
  assert (((1 <=? BookingCreate.guests body) && (BookingCreate.guests body <=? 10)) = false) as ->
      by (apply andb_false_iff; rewrite !Z.leb_gt; lia).
  reflexivity.
Qed.

Example create_booking_zero_guests :
  create_booking (samples.booking "0000000000000000000000c1" 0) samples.host
    samples.b1 samples.db_ankara
  = (samples.db_ankara, Err (Unhandled ValidationError)).
Proof.
  apply create_booking_guests_unchecked with (o := samples.p1) (cid := bson.str samples.u1);
    [cbn; lia | reflexivity | reflexivity | reflexivity | cbn; lia].
Qed.

(** A booking whose end date does not precede its start date is
    answered with 400 as well, when the property identifier is not well
    formed. *)
Lemma create_booking_malformed_id_is_400 :
  create_booking (samples.booking "xyz" 1) samples.host samples.b1
    samples.db_ankara
  = (samples.db_ankara, Err (HTTPException 400 "معرف غير صالح"))
  /\ ~ (BookingCreate.end_date (samples.booking "xyz" 1)
        < BookingCreate.start_date (samples.booking "xyz" 1)).
Proof.
  split.
  - apply create_booking_bad_id; [cbn; lia | reflexivity].
  - cbn. lia.
Qed.

(** C5, as stated, fails: the city [""] is given, and a property whose
    city is not [""] is returned. *)
Lemma C5_empty_city_not_filtered :
  list_properties (Some ""%string) None None None None None 50
    samples.db_ankara
  = (samples.db_ankara, Ok [record_view (samples.p1, samples.ankara)])
  /\ record_view (samples.p1, samples.ankara) !! "city"%string
     = Some (VStr "Ankara")
  /\ VStr "Ankara" <> VStr "".
Proof.
  split_and!; [|reflexivity|discriminate].
  rewrite list_properties_run by now left. reflexivity.
Qed.

(** The search of the specification's example, from 2025-03-10 to
    2025-03-20: the filter holds the two calendar dates, the driver
    cannot encode it, and the request ends in an uncaught
    [InvalidDocument] whatever is stored. *)
Example search_march :
  list_properties None None None None (Some 739320) (Some 739330) 50
    samples.db_three
  = (samples.db_three, Err (Unhandled InvalidDocument)).
Proof. apply list_properties_dates. Qed.

(* ===================================================================== *)
(** * The statements at sample inputs *)
(* ===================================================================== *)

(** An admin signs up into the empty database, unauthenticated, and the
    token returned opens the admin statistics. *)
Lemma C1_witness :
  exists db' view,
    signup samples.environ (SignupBody.validate samples.admin_fields) 0
      samples.u1 samples.s1 samples.tok ∅
    = (db', Ok {| token := samples.tok; user := view |})
    /\ view !! "role"%string = Some (VStr "admin")
    /\ get_current_user (Some ("Bearer " +:+ samples.tok)) 0 db' = (db', Ok view)
    /\ exists d, admin_stats view db' = (db', Ok d).
Proof.
  destruct (C1_signup_role_unchecked samples.environ
              (SignupBody.validate samples.admin_fields) 0
              samples.u1 samples.s1 samples.tok ∅
              ltac:(reflexivity) ltac:(reflexivity) ltac:(reflexivity) ltac:(reflexivity) ltac:(reflexivity) ltac:(reflexivity) ltac:(reflexivity))
    as (db' & stored & view & Hrun & _ & _ & Hrole & Hgcu & Hadmin).
  exists db', view. split_and!; try assumption.
  exact (proj1 (Hadmin eq_refl db')).
Defined.

Lemma C3_witness :
  exists h,
    hash_password samples.environ samples.password = Ok h
    /\ String.length h = 64%nat
    /\ getenv samples.environ "PW_SALT" (py.ustr_of_string "saknli_salt")
       = py.ustr_of_string "saknli_salt".
Proof.
  destruct (C3_password_credential samples.environ samples.password ltac:(reflexivity) ltac:(reflexivity))
    as (bp & bs & h & _ & _ & _ & Hh & Hlen & _ & Hsalt & _).
  exists h. split_and!; [exact Hh | exact Hlen | exact (Hsalt eq_refl)].
Defined.

(** The credential of the sample password under the fallback salt. *)
Example hash_password_secret :
  hash_password samples.environ samples.password
  = Ok "d2f0f42984269e288f8b9342d5d8983e06c7a7c6486f12b2c22ffad39263fce3"%string.
Proof. vm_compute. reflexivity. Qed.

Lemma C4_witness :
  (exists db' r,
     signup samples.environ (SignupBody.validate samples.plain_fields) 0
       samples.u1 samples.s1 samples.tok ∅ = (db', Ok r)
     /\ exists caller,
          get_current_user (Some ("Bearer " +:+ samples.tok)) 604799999999 db'
          = (db', Ok caller))
  /\ (exists db' r,
        login samples.environ (LoginBody.make "ali@example.com" samples.password)
          0 samples.s1 samples.tok samples.db_ali = (db', Ok r)
        /\ exists detail,
             get_current_user (Some ("Bearer " +:+ samples.tok)) 604800000000 db'
             = (db', Err (HTTPException 401 detail))).
Proof.
  split.
  - destruct (proj1 (C4_session_lifetime samples.environ 0 samples.s1 samples.tok ∅
                       ltac:(reflexivity) ltac:(reflexivity) ltac:(reflexivity))
                (SignupBody.validate samples.plain_fields) samples.u1 _
                ltac:(reflexivity) hash_password_secret ltac:(reflexivity))
      as (db' & r & Hrun & _ & _ & Hlive & _).
    exists db', r. split; [exact Hrun|].
    destruct (Hlive 604799999999 eq_refl) as (caller & Hc & _). now exists caller.
  - destruct (proj1 (proj2 (C4_session_lifetime samples.environ 0 samples.s1 samples.tok
                       samples.db_ali ltac:(reflexivity) ltac:(reflexivity) ltac:(reflexivity)))
                (LoginBody.make "ali@example.com" samples.password)
                (to_dict (samples.u1, samples.ali)) _
                ltac:(reflexivity) hash_password_secret ltac:(reflexivity))
      as (db' & r & Hrun & _ & _ & _ & Hdead).
    exists db', r. split; [exact Hrun|].
    apply Hdead. discriminate.
Defined.

(** C4, as stated, fails: a session issued 600 microseconds after a
    whole millisecond is stored with an expiry that is not the issuance
    time plus seven days, and its token is answered with 401 at an
    instant before the issuance time plus seven days. *)
Lemma C4_expiry_is_cut_to_the_millisecond :
  exists db' r s detail,
    signup samples.environ (SignupBody.validate samples.plain_fields) 600
      samples.u1 samples.s1 samples.tok ∅ = (db', Ok r)
    /\ coll db' "session" = [(samples.s1, s)]
    /\ s !! "expires_at"%string = Some (VDateTime 604800000000)
    /\ 604800000000 <> 600 + 7 * 86400 * 1000000
    /\ 604800000101 < 600 + 7 * 86400 * 1000000
    /\ get_current_user (Some ("Bearer " +:+ samples.tok)) 604800000101 db'
       = (db', Err (HTTPException 401 detail)).
Proof.
  eexists _, _, _, _. split_and!.
  - apply signup_ok;
      [reflexivity | exact hash_password_secret | reflexivity | reflexivity].
  - apply coll_insert_eq.
  - reflexivity.
  - lia.
  - lia.
  - apply gcu_reject; [reflexivity|].
    rewrite coll_insert_eq, find_one_issued; reflexivity.
Qed.

(** The fetch by identifier returns a property that is not active. *)
Lemma C5_witness :
  exists body,
    get_property "0000000000000000000000C2" samples.db_hidden
    = (samples.db_hidden, Ok (record_view (samples.p2, body)))
    /\ body !! "is_active"%string = Some (VBool false).
Proof.
  destruct (proj2 (proj2 (C5_search_and_fetch samples.db_hidden))
              "0000000000000000000000C2"%string samples.p2 samples.hidden
              ltac:(reflexivity) ltac:(left; reflexivity))
    as (body & Hin & Hrun).
  exists body. split; [exact Hrun|].
  destruct Hin as [[= <-] | []]. reflexivity.
Defined.

(** A host books the sample property, which is stored, from 2025-03-10
    to 2025-03-20 for two guests: the request ends in an uncaught
    [InvalidDocument] and the database is as it was. *)
Lemma C6_witness :
  create_booking (samples.booking "0000000000000000000000c1" 2)
    samples.host samples.b1 samples.db_ankara
  = (samples.db_ankara, Err (Unhandled InvalidDocument))
  /\ coll samples.db_ankara "booking" = [].
Proof.
  split; [|reflexivity].
  apply (proj1 (proj2 (proj2
           (C6_create_booking_stores_nothing
              (samples.booking "0000000000000000000000c1" 2)
              samples.host samples.b1 samples.db_ankara)))
           samples.p1 samples.u1
           ltac:(cbn; lia) ltac:(reflexivity) ltac:(reflexivity)
           ltac:(reflexivity) ltac:(cbn; lia)).
Defined.

(** The owning host updates the price of the sample property. *)
Lemma C7_witness :
  (exists stored',
     update_property "0000000000000000000000c1" samples.price_only
       samples.host 77 samples.db_ankara
     = (<["property"%string := [(samples.p1, stored')]]> samples.db_ankara,
        Ok (record_view (samples.p1, stored')))
     /\ stored' !! "price_per_month"%string
        = Some (VFloat (QArith_base.inject_Z 1500))
     /\ stored' !! "updated_at"%string = Some (VDateTime 77)
     /\ stored' !! "city"%string = Some (VStr "Ankara"))
  /\ (exists detail,
        update_property "0000000000000000000000c2" samples.price_only
          samples.host 77 samples.db_ankara
        = (samples.db_ankara, Err (HTTPException 404 detail)))
  /\ update_property "0000000000000000000000c1" samples.from_march
       samples.host 77 samples.db_ankara
     = (samples.db_ankara, Err (Unhandled InvalidDocument)).
Proof.
  pose proof (C7_update_property "0000000000000000000000c1" samples.price_only
                samples.host 77 samples.db_ankara) as (Hdump & _ & _ & Hrun).
  split_and!.
  - destruct (Hrun samples.p1 [] samples.ankara [] ltac:(reflexivity)
                ltac:(reflexivity) ltac:(reflexivity))
      as (_ & _ & Hok & _).
    destruct (Hok ltac:(reflexivity) ltac:(intros H; apply (f_equal (fun m : doc => m !! "price_per_month"%string)) in H; discriminate H) ltac:(reflexivity) ltac:(reflexivity))
      as (stored' & Hr & Hstamp & Hset & Hkeep).
    exists stored'. split_and!.
    + exact Hr.
    + apply Hset; [discriminate|]. apply (proj1 Hdump). cbn. tauto.
    + exact Hstamp.
    + rewrite Hkeep; [reflexivity | discriminate |].
      apply (proj2 Hdump). cbn. intros v H.
      repeat destruct H as [H | H]; try discriminate H. exact H.
  - apply (C7_update_property "0000000000000000000000c2" samples.price_only
             samples.host 77 samples.db_ankara) with (o := samples.p2); reflexivity.
  - apply (proj2 (proj2 (proj2 (proj2 (proj2 (proj2
             (C7_update_property "0000000000000000000000c1" samples.from_march
                samples.host 77 samples.db_ankara)))
             samples.p1 [] samples.ankara [] ltac:(reflexivity) ltac:(reflexivity)
             ltac:(reflexivity))))
             ltac:(reflexivity) ltac:(left; discriminate)).
Defined.

(** The second signup with the e-mail of the sample user is refused; the
    first one into the empty database succeeds with the role ["user"]. *)
Lemma C8_witness :
  (exists detail,
     signup samples.environ (SignupBody.validate samples.plain_fields) 0
       samples.u2 samples.s1 samples.tok samples.db_ali
     = (samples.db_ali, Err (HTTPException 400 detail)))
  /\ (exists db' view,
        signup samples.environ (SignupBody.validate samples.plain_fields) 0
          samples.u1 samples.s1 samples.tok ∅
        = (db', Ok {| token := samples.tok; user := view |})
        /\ view !! "role"%string = Some (VStr "user")
        /\ view !! "password_hash"%string = None).
Proof.
  split.
  - apply (C8_signup_unique_email samples.environ samples.plain_fields 0
             samples.u2 samples.s1 samples.tok samples.db_ali).
    exists (samples.u1, samples.ali). split; [left; reflexivity | reflexivity].
  - destruct (proj2 (C8_signup_unique_email samples.environ samples.plain_fields 0
                       samples.u1 samples.s1 samples.tok ∅)
                ltac:(intros r H; exfalso; exact H) ltac:(reflexivity) ltac:(reflexivity)
                ltac:(reflexivity) ltac:(reflexivity))
      as (db' & stored & session & view & Hrun & _ & _ & _ & _ & _ & Hph & _ & _ & _ & Hrole & _).
    exists db', view. split_and!; [exact Hrun | exact (Hrole eq_refl) | exact Hph].
Defined.

(** A host is refused the statistics; an admin deletes the sample
    property, and deleting an identifier nobody has changes nothing. *)
Lemma C9_witness :
  (exists detail,
     admin_stats samples.host samples.db_ankara
     = (samples.db_ankara, Err (HTTPException 403 detail)))
  /\ admin_delete_property "0000000000000000000000c2" samples.admin samples.db_ankara
     = (samples.db_ankara, Ok {[ "deleted"%string := VBool true ]})
  /\ admin_delete_property "0000000000000000000000c1" samples.admin samples.db_ankara
     = (<["property"%string := []]> samples.db_ankara,
        Ok {[ "deleted"%string := VBool true ]}).
Proof.
  destruct C9_admin_only as (Hrefuse & Hdelete & _).
  split_and!.
  - apply (Hrefuse samples.host samples.db_ankara). discriminate.
  - apply (Hdelete samples.admin samples.db_ankara _ samples.p2); reflexivity.
  - apply (proj2 (Hdelete samples.admin samples.db_ankara "0000000000000000000000c1"%string
                    samples.p1 ltac:(reflexivity) ltac:(reflexivity))
             [] (samples.p1, samples.ankara) []); reflexivity.
Defined.

(** A body of nulls by the owning host writes nothing. *)
Lemma C10_witness :
  PropertyUpdate.model_dump_exclude_none samples.price_only !! "lat"%string = None
  /\ update_property "0000000000000000000000c1" samples.nothing samples.host 77
       samples.db_ankara
     = (samples.db_ankara, Ok {[ "updated"%string := VBool false ]}).
Proof.
  split.
  - apply (C10_null_is_not_provided "0000000000000000000000c1" samples.price_only
             samples.host 77 samples.db_ankara).
    cbn. tauto.
  - apply (proj2 (proj2 (proj2 (proj2
             (C10_null_is_not_provided "0000000000000000000000c1" samples.nothing
                samples.host 77 samples.db_ankara)))
             ltac:(repeat constructor))
             samples.p1 [] samples.ankara []); reflexivity.
Defined.

(* ===================================================================== *)
(** * Further properties of the handlers *)
(* ===================================================================== *)

Import routes.

(** ** What a run may change *)

Section Preserves.

Variable P : database -> database -> Prop.
Hypothesis P_refl : forall db, P db db.
Hypothesis P_trans : forall a b c, P a b -> P b c -> P a c.

Lemma preserves_ret {A} (a : A) : preserves P (ret a).
Proof. intros db. apply P_refl. Qed.

Lemma preserves_raise {A} e : preserves P (@raise A e).
Proof. intros db. apply P_refl. Qed.

Lemma preserves_lift {A} (r : result A) : preserves P (lift r).
Proof. intros db. apply P_refl. Qed.

Lemma preserves_bind {A B} (m : M A) (k : A -> M B) :
  preserves P m -> (forall a, preserves P (k a)) -> preserves P (bind m k).
Proof.
  intros Hm Hk db. unfold bind. specialize (Hm db).
  destruct (m db) as [db' [a | e]]; cbn [fst] in *; [|exact Hm].
  eapply P_trans; [exact Hm | apply Hk].
Qed.

Lemma preserves_bind_lift {A B} (r : result A) (k : A -> M B) :
  (forall a, r = Ok a -> preserves P (k a)) -> preserves P (bind (lift r) k).
Proof.
  intros Hk db. unfold bind, lift. destruct r as [a | e]; cbn [fst].
  - now apply Hk.
  - apply P_refl.
Qed.

Lemma preserves_find_one name q : preserves P (main.find_one name q).
Proof. intros db. apply P_refl. Qed.

Lemma preserves_find name q lim : preserves P (main.find name q lim).
Proof. intros db. unfold main.find. destruct (query_encodable q); apply P_refl. Qed.

Lemma preserves_find_all name q : preserves P (find_all name q).
Proof. intros db. apply P_refl. Qed.

Lemma preserves_count name q : preserves P (main.count_documents name q).
Proof. intros db. apply P_refl. Qed.

Lemma preserves_insert_one name oid d :
  (forall db stored,
     encode d = Some stored -> has_id (coll db name) oid = false ->
     P db (<[name := coll db name ++ [(oid, stored)]]> db)) ->
  preserves P (insert_one name oid d).
Proof.
  intros H db. unfold insert_one.
  destruct (encode d) as [stored|] eqn:Ed; cbn [fst]; auto.
  destruct (has_id _ _) eqn:E; cbn [fst]; auto.
Qed.

Lemma preserves_update_one name q set stamps now :
  (forall db set',
     encode set = Some set' ->
     P db (<[name := update_first q (apply_update set' stamps now)
                       (coll db name)]> db)) ->
  preserves P (update_one name q set stamps now).
Proof.
  intros H db. unfold update_one.
  destruct (encode set) as [set'|] eqn:E; cbn [fst]; auto.
  destruct (mongo.find_one _ _); cbn [fst]; auto.
Qed.

Lemma preserves_delete_one name q :
  (forall db, P db (<[name := delete_first q (coll db name)]> db)) ->
  preserves P (delete_one name q).
Proof.
  intros H db. unfold delete_one. destruct (mongo.find_one _ _); cbn [fst]; auto.
Qed.

End Preserves.

(** One step of the proof that a handler preserves [P]: a bind, a read,
    a case of the code. Writes are left to the caller. *)
Create HintDb preserve discriminated.

Ltac preserve_step :=
  match goal with
  | |- preserves _ (bind (lift _) _) =>
      apply preserves_bind_lift; [solve [eauto with preserve] .. | intros ? ?]
  | |- preserves _ (bind _ _) =>
      apply preserves_bind; [solve [eauto with preserve] .. | | intros ?]
  | |- preserves _ (ret _) => apply preserves_ret; solve [eauto with preserve]
  | |- preserves _ (raise _) => apply preserves_raise; solve [eauto with preserve]
  | |- preserves _ (lift _) => apply preserves_lift; solve [eauto with preserve]
  | |- preserves _ (main.find_one _ _) =>
      apply preserves_find_one; solve [eauto with preserve]
  | |- preserves _ (main.find _ _ _) =>
      apply preserves_find; solve [eauto with preserve]
  | |- preserves _ (find_all _ _) =>
      apply preserves_find_all; solve [eauto with preserve]
  | |- preserves _ (main.count_documents _ _) =>
      apply preserves_count; solve [eauto with preserve]
  | |- preserves _ (truthy_or _ _ _) => unfold truthy_or
  | |- preserves _ (match ?x with _ => _ end) => destruct x
  | |- preserves _ (if ?b then _ else _) => destruct b
  end.

Lemma untouched_refl db : untouched db db.
Proof. reflexivity. Qed.

Lemma untouched_trans a b c : untouched a b -> untouched b c -> untouched a c.
Proof. unfold untouched. congruence. Qed.

#[local] Hint Resolve untouched_refl untouched_trans : preserve.

Ltac reads := repeat preserve_step.

Lemma get_current_user_reads authorization now :
  preserves untouched (get_current_user authorization now).
Proof. unfold get_current_user. reads. Qed.

Lemma list_properties_reads city type lo hi sd ed lim :
  preserves untouched (list_properties city type lo hi sd ed lim).
Proof. unfold list_properties. reads. Qed.

Lemma get_property_reads prop_id : preserves untouched (get_property prop_id).
Proof. unfold get_property. reads. Qed.

Lemma my_bookings_reads caller : preserves untouched (my_bookings caller).
Proof. unfold my_bookings. reads. Qed.

Lemma host_bookings_reads caller : preserves untouched (host_bookings caller).
Proof. unfold host_bookings. reads. Qed.

Lemma admin_stats_reads caller : preserves untouched (admin_stats caller).
Proof. unfold admin_stats. reads. Qed.

Lemma admin_users_reads caller : preserves untouched (admin_users caller).
Proof. unfold admin_users. reads. Qed.

(** X1: The routes that only read: whatever the input and whatever the
    outcome, the database after the run is the database before it. *)
Theorem reads_never_write db :
  (forall authorization now, fst (get_current_user authorization now db) = db)
  /\ (forall city type lo hi sd ed lim,
        fst (list_properties city type lo hi sd ed lim db) = db)
  /\ (forall prop_id, fst (get_property prop_id db) = db)
  /\ (forall caller, fst (my_bookings caller db) = db)
  /\ (forall caller, fst (host_bookings caller db) = db)
  /\ (forall caller, fst (admin_stats caller db) = db)
  /\ (forall caller, fst (admin_users caller db) = db)
  /\ (forall caller, fst (me caller db) = db).
Proof.
  split_and!; intros.
  - apply get_current_user_reads.
  - apply list_properties_reads.
  - apply get_property_reads.
  - apply my_bookings_reads.
  - apply host_bookings_reads.
  - apply admin_stats_reads.
  - apply admin_users_reads.
  - reflexivity.
Qed.

Lemma grows_refl c : grows c c.
Proof. exists []. now rewrite app_nil_r. Qed.

Lemma grows_trans a b c : grows a b -> grows b c -> grows a c.
Proof. intros [l ->] [l' ->]. exists (l ++ l'). now rewrite app_assoc. Qed.

Lemma append_only_refl db : append_only db db.
Proof. intros name _. apply grows_refl. Qed.

Lemma append_only_trans a b c : append_only a b -> append_only b c -> append_only a c.
Proof. intros H1 H2 name Hn. eapply grows_trans; eauto. Qed.

Lemma append_only_insert (db : database) name x :
  append_only db (<[name := coll db name ++ [x]]> db).
Proof.
  intros name' _. destruct (decide (name = name')) as [<- | Hne].
  - rewrite coll_insert_eq. now exists [x].
  - rewrite coll_insert_ne by exact Hne. apply grows_refl.
Qed.

Lemma append_only_property (db : database) c :
  append_only db (<["property"%string := c]> db).
Proof.
  intros name Hn. rewrite coll_insert_ne by congruence. apply grows_refl.
Qed.

Lemma only_writes_refl names db : only_writes names db db.
Proof. now intros name _. Qed.

Lemma only_writes_trans names a b c :
  only_writes names a b -> only_writes names b c -> only_writes names a c.
Proof. intros H1 H2 name Hn. now rewrite H2, H1. Qed.

Lemma only_writes_insert names (db : database) name c :
  In name names -> only_writes names db (<[name := c]> db).
Proof.
  intros Hin name' Hn. apply coll_insert_ne. intros ->. contradiction.
Qed.

#[local] Hint Resolve append_only_refl append_only_trans only_writes_refl
  only_writes_trans : preserve.

(** The steps of a handler that writes: every write is an insertion, or
    an update or a deletion in the collection of properties. *)
Ltac writes_by tac :=
  repeat first
    [ preserve_step
    | apply preserves_insert_one; [solve [eauto with preserve] .. | intros ? ? ? ?; tac]
    | apply preserves_update_one; [solve [eauto with preserve] .. | intros ? ? ?; tac]
    | apply preserves_delete_one; [solve [eauto with preserve] .. | intros ?; tac] ].

Ltac writes :=
  writes_by ltac:(first [ apply append_only_insert
                        | apply append_only_property
                        | apply only_writes_insert; cbn; tauto ]).

Lemma signup_appends environ body now uid sid tok :
  preserves append_only (signup environ body now uid sid tok).
Proof. unfold signup. writes. Qed.

Lemma login_appends environ body now sid tok :
  preserves append_only (login environ body now sid tok).
Proof. unfold login. writes. Qed.

Lemma create_property_appends body caller pid :
  preserves append_only (create_property body caller pid).
Proof. unfold create_property. writes. Qed.

Lemma update_property_appends prop_id body caller now :
  preserves append_only (update_property prop_id body caller now).
Proof. unfold update_property. writes. Qed.

Lemma delete_property_appends prop_id caller :
  preserves append_only (delete_property prop_id caller).
Proof. unfold delete_property. writes. Qed.

Lemma admin_delete_property_appends prop_id caller :
  preserves append_only (admin_delete_property prop_id caller).
Proof. unfold admin_delete_property. writes. Qed.

Lemma create_booking_appends body caller bid :
  preserves append_only (create_booking body caller bid).
Proof. unfold create_booking. writes. Qed.

(** X2: No handler removes or changes a stored user, session or booking:
    whatever the input and the outcome, each collection other than the
    properties is after the run what it was before, with at most new
    documents appended. *)
Theorem documents_are_permanent environ db :
  (forall body now uid sid tok,
     append_only db (fst (signup environ body now uid sid tok db)))
  /\ (forall body now sid tok,
        append_only db (fst (login environ body now sid tok db)))
  /\ (forall body caller pid, append_only db (fst (create_property body caller pid db)))
  /\ (forall prop_id body caller now,
        append_only db (fst (update_property prop_id body caller now db)))
  /\ (forall prop_id caller, append_only db (fst (delete_property prop_id caller db)))
  /\ (forall prop_id caller,
        append_only db (fst (admin_delete_property prop_id caller db)))
  /\ (forall body caller bid, append_only db (fst (create_booking body caller bid db))).
Proof.
  split_and!; intros.
  - apply signup_appends.
  - apply login_appends.
  - apply create_property_appends.
  - apply update_property_appends.
  - apply delete_property_appends.
  - apply admin_delete_property_appends.
  - apply create_booking_appends.
Qed.

Lemma signup_writes environ body now uid sid tok :
  preserves (only_writes ["user"; "session"]%string) (signup environ body now uid sid tok).
Proof. unfold signup. writes. Qed.

Lemma login_writes environ body now sid tok :
  preserves (only_writes ["session"%string]) (login environ body now sid tok).
Proof. unfold login. writes. Qed.

Lemma create_property_writes body caller pid :
  preserves (only_writes ["property"%string]) (create_property body caller pid).
Proof. unfold create_property. writes. Qed.

Lemma update_property_writes prop_id body caller now :
  preserves (only_writes ["property"%string]) (update_property prop_id body caller now).
Proof. unfold update_property. writes. Qed.

Lemma delete_property_writes prop_id caller :
  preserves (only_writes ["property"%string]) (delete_property prop_id caller).
Proof. unfold delete_property. writes. Qed.

Lemma admin_delete_property_writes prop_id caller :
  preserves (only_writes ["property"%string]) (admin_delete_property prop_id caller).
Proof. unfold admin_delete_property. writes. Qed.

Lemma create_booking_writes body caller bid :
  preserves (only_writes ["booking"%string]) (create_booking body caller bid).
Proof. unfold create_booking. writes. Qed.

(** X3: Each writing handler writes to its own collections only: [signup] to
    the users and the sessions, [login] to the sessions, the property
    routes to the properties (deleting a property leaves its bookings),
    [create_booking] to the bookings. *)
Theorem writes_stay_in_their_collections environ db :
  (forall body now uid sid tok,
     only_writes ["user"; "session"]%string db
       (fst (signup environ body now uid sid tok db)))
  /\ (forall body now sid tok,
        only_writes ["session"%string] db (fst (login environ body now sid tok db)))
  /\ (forall body caller pid,
        only_writes ["property"%string] db (fst (create_property body caller pid db)))
  /\ (forall prop_id body caller now,
        only_writes ["property"%string] db
          (fst (update_property prop_id body caller now db)))
  /\ (forall prop_id caller,
        only_writes ["property"%string] db (fst (delete_property prop_id caller db)))
  /\ (forall prop_id caller,
        only_writes ["property"%string] db
          (fst (admin_delete_property prop_id caller db)))
  /\ (forall body caller bid,
        only_writes ["booking"%string] db (fst (create_booking body caller bid db))).
Proof.
  split_and!; intros.
  - apply signup_writes.
  - apply login_writes.
  - apply create_property_writes.
  - apply update_property_writes.
  - apply delete_property_writes.
  - apply admin_delete_property_writes.
  - apply create_booking_writes.
Qed.

(** ** Views, again *)

(** X5: [user_safe] on a stored user gives the public view: no
    [password_hash], no [_id], the identifier as a string under [id],
    every other key as it was. An empty dictionary is returned as it
    is; any other dictionary without [_id] raises [KeyError], so
    [user_safe] cannot be applied to its own result. *)
Theorem user_safe_hides_the_credential (u : doc) :
  (u = ∅ -> user_safe u = Ok u)
  /\ (u <> ∅ -> u !! "_id"%string = None -> user_safe u = Err (Unhandled KeyError))
  /\ (forall o, u !! "_id"%string = Some (VOid o) ->
        exists v,
          user_safe u = Ok v
          /\ v !! "password_hash"%string = None
          /\ v !! "_id"%string = None
          /\ v !! "id"%string = Some (VStr (bson.str o))
          /\ (forall k, k <> "id"%string -> k <> "_id"%string ->
                        k <> "password_hash"%string -> v !! k = u !! k)
          /\ user_safe v = Err (Unhandled KeyError)).
Proof.
  unfold user_safe, with_id. split_and!.
  - intros ->. now rewrite bool_decide_eq_true_2.
  - intros Hne Hid. rewrite bool_decide_eq_false_2 by exact Hne.
    rewrite lookup_delete_ne by discriminate. now rewrite Hid.
  - intros o Hid.
    assert (Hne : u <> ∅) by (intros ->; rewrite lookup_empty in Hid; discriminate).
    rewrite bool_decide_eq_false_2 by exact Hne.
    rewrite lookup_delete_ne by discriminate. rewrite Hid. cbn [py_str].
    eexists. split; [reflexivity|]. split_and!.
    + rewrite lookup_insert_ne by discriminate.
      rewrite lookup_delete_ne by discriminate. apply lookup_delete_eq.
    + rewrite lookup_insert_ne by discriminate. apply lookup_delete_eq.
    + apply lookup_insert_eq.
    + intros k H1 H2 H3. rewrite lookup_insert_ne by congruence.
      now rewrite !lookup_delete_ne by congruence.
    + rewrite bool_decide_eq_false_2 by apply insert_non_empty.
      rewrite lookup_delete_ne by discriminate.
      rewrite lookup_insert_ne by discriminate. now rewrite lookup_delete_eq.
Qed.

Lemma user_safe_witness :
  exists v,
    user_safe (to_dict (samples.u1, samples.ali)) = Ok v
    /\ v !! "password_hash"%string = None
    /\ v !! "email"%string = Some (VStr "ali@example.com")
    /\ user_safe v = Err (Unhandled KeyError).
Proof.
  destruct (proj2 (proj2 (user_safe_hides_the_credential
                            (to_dict (samples.u1, samples.ali))))
              samples.u1 ltac:(reflexivity))
    as (v & Hv & Hp & _ & _ & Hk & Hagain).
  exists v. split_and!; try assumption.
  rewrite Hk by discriminate. reflexivity.
Defined.

Lemma nospace_snoc cur c :
  nospace cur = true -> py.isspace c = false -> nospace (cur +:+ String c "") = true.
Proof.
  unfold nospace. induction cur as [|a cur IH]; intros H Hc.
  - change ("" +:+ String c "")%string with (String c "").
    cbn [list_ascii_of_string forallb]. now rewrite Hc.
  - change ((String a cur) +:+ String c "")%string with (String a (cur +:+ String c "")).
    cbn [list_ascii_of_string forallb] in *.
    apply andb_true_iff in H as [Ha H]. rewrite Ha. now apply IH.
Qed.

Lemma split_from_words s : forall cur,
  nospace cur = true ->
  Forall (fun w => w <> ""%string /\ nospace w = true) (py.split_from cur s).
Proof.
  induction s as [|c s IH]; intros cur Hcur; cbn [py.split_from].
  - destruct (String.eqb_spec cur ""); [constructor|]. now repeat constructor.
  - destruct (py.isspace c) eqn:Hc.
    + destruct (String.eqb_spec cur "").
      * now apply IH.
      * constructor; [now split | now apply IH].
    + apply IH. now apply nospace_snoc.
Qed.

Lemma split_from_word s : forall cur,
  nospace s = true -> cur +:+ s <> ""%string -> py.split_from cur s = [cur +:+ s].
Proof.
  unfold nospace. induction s as [|c s IH]; intros cur Hs Hne;
    cbn [py.split_from]; cbn [list_ascii_of_string forallb] in Hs.
  - rewrite append_empty_r in *.
    destruct (String.eqb_spec cur ""); [contradiction | reflexivity].
  - apply andb_true_iff in Hs as [Hc Hs]. apply negb_true_iff in Hc.
    rewrite Hc. rewrite IH; [|assumption|].
    + now rewrite append_assoc_char.
    + rewrite append_assoc_char. assumption.
Qed.

Lemma split_bearer_word w :
  w <> ""%string -> nospace w = true -> py.split ("Bearer " +:+ w) !! 1%nat = Some w.
Proof.
  intros Hne Hw.
  change (py.split ("Bearer " +:+ w)) with ("Bearer"%string :: py.split_from "" w).
  now rewrite split_from_word.
Qed.

(** X6: Only the scheme and the second word of the header count: a header
    whose lowercase form starts with [bearer ] resolves exactly as
    [Bearer <token>] does, where the token is its second word, whatever
    the case of the scheme, the number of spaces and the words that
    follow. *)
Theorem header_is_scheme_and_second_word a tok now db :
  py.startswith (py.lower a) "bearer " = true ->
  py.split a !! 1%nat = Some tok ->
  get_current_user (Some a) now db
  = get_current_user (Some ("Bearer " +:+ tok)) now db.
Proof.
  intros Ha Htok.
  assert (Hne : a <> ""%string) by (intros ->; discriminate Ha).
  assert (Hw : tok <> ""%string /\ nospace tok = true).
  { pose proof (split_from_words a "" eq_refl) as Hall.
    rewrite List.Forall_forall in Hall. apply Hall.
    apply list_elem_of_In, list_elem_of_lookup. now exists 1%nat. }
  destruct Hw as [Hw1 Hw2].
  unfold get_current_user. rewrite bearer_header_ok.
  unfold default. cbn [from_option id py.truthy_str].
  destruct (String.eqb_spec a ""); [contradiction|]. rewrite Ha. cbn [negb orb].
  unfold bind, lift. now rewrite Htok, (split_bearer_word _ Hw1 Hw2).
Qed.

Lemma header_witness :
  get_current_user (Some "bEaReR   dG9rZW4tMQ  and more"%string) 5 samples.db_session
  = get_current_user (Some ("Bearer " +:+ samples.tok)) 5 samples.db_session.
Proof.
  apply (header_is_scheme_and_second_word _ samples.tok 5 samples.db_session);
    reflexivity.
Defined.

(** X7: A token that no stored session carries is answered with 401, and so
    is the token of a session whose user is not stored. *)
Theorem unknown_token_and_orphan_session tok now db :
  secrets.is_token tok = true ->
  (mongo.find (coll db "session") (Field "token" (Is (VStr tok))) = [] ->
   exists detail,
     get_current_user (Some ("Bearer " +:+ tok)) now db
     = (db, Err (HTTPException 401 detail)))
  /\ (forall s o,
        mongo.find_one (coll db "session") (session_query tok now) = Some (to_dict s) ->
        snd s !! "user_id"%string = Some (VOid o) ->
        has_id (coll db "user") o = false ->
        exists detail,
          get_current_user (Some ("Bearer " +:+ tok)) now db
          = (db, Err (HTTPException 401 detail))).
Proof.
  intros Htok. split.
  - intros Hnone. eexists. apply gcu_reject; [exact Htok|].
    unfold mongo.find_one, session_query. now rewrite (filter_nil_and _ _ _ Hnone).
  - intros s o Hs Hu Ho. apply find_by_id_none in Ho.
    unfold get_current_user. rewrite bearer_header_ok. run.
    change (default "" (Some ("Bearer " +:+ tok)))%string with ("Bearer " +:+ tok).
    rewrite (split_bearer _ Htok). fold (session_query tok now). rewrite Hs.
    rewrite bool_decide_eq_false_2 by apply to_dict_nonempty.
    unfold item. rewrite to_dict_other by discriminate. rewrite Hu.
    cbn [session_user_id]. rewrite Ho. eauto.
Qed.

Lemma unknown_token_witness :
  (exists detail,
     get_current_user (Some ("Bearer " +:+ samples.tok)) 5 samples.db_ali
     = (samples.db_ali, Err (HTTPException 401 detail)))
  /\ (exists detail,
        get_current_user (Some ("Bearer " +:+ samples.tok)) 5 samples.db_orphan
        = (samples.db_orphan, Err (HTTPException 401 detail))).
Proof.
  split.
  - apply (proj1 (unknown_token_and_orphan_session samples.tok 5 samples.db_ali
                    ltac:(reflexivity))).
    reflexivity.
  - apply (proj2 (unknown_token_and_orphan_session samples.tok 5 samples.db_orphan
                    ltac:(reflexivity))
             (samples.s1, samples.orphan) samples.u2);
      reflexivity.
Defined.

(** ** Invariants of the database *)

Lemma has_id_not_in (c : collection) o : has_id c o = false -> ~ In o (map fst c).
Proof.
  induction c as [|r c IH]; cbn [has_id existsb map]; [tauto|].
  intros H [Heq | Hin]; apply orb_false_iff in H as [H1 H2].
  - apply oid_eqb_neq in H1. contradiction.
  - now apply IH.
Qed.

Lemma unique_ids_insert (db : database) name oid d :
  has_id (coll db name) oid = false ->
  unique_ids db -> unique_ids (<[name := coll db name ++ [(oid, d)]]> db).
Proof.
  intros Hfresh U name'. destruct (decide (name = name')) as [<- | Hne].
  - rewrite coll_insert_eq, map_app. apply NoDup_app. split_and!.
    + apply U.
    + intros x Hx Hin. apply list_elem_of_In in Hx, Hin.
      destruct Hin as [<- | []]. now apply has_id_not_in in Hfresh.
    + repeat constructor. cbn. apply not_elem_of_nil.
  - rewrite coll_insert_ne by exact Hne. apply U.
Qed.

(** ** Creating and deleting a property *)

Lemma host_or_admin_iff v :
  host_or_admin v = true <-> v = VStr "host" \/ v = VStr "admin".
Proof.
  unfold host_or_admin. rewrite orb_true_iff, !py_eq_str. tauto.
Qed.

Lemma property_fields body cid :
  let d := Property.model_dump (property_of body cid) in
  d !! "host_id"%string = Some (VStr cid)
  /\ d !! "is_active"%string = Some (VBool true)
  /\ d !! "title"%string = Some (VStr (PropertyCreate.title body))
  /\ d !! "city"%string = Some (VStr (PropertyCreate.city body))
  /\ d !! "type"%string = Some (VStr (PropertyCreate.type body))
  /\ d !! "price_per_month"%string = Some (VFloat (PropertyCreate.price_per_month body))
  /\ d !! "available_from"%string = Some (opt_date (PropertyCreate.available_from body))
  /\ d !! "available_to"%string = Some (opt_date (PropertyCreate.available_to body)).
Proof. cbv zeta. split_and!; reflexivity. Qed.

Lemma create_property_run body caller pid db cid :
  host_or_admin (get caller "role") = true ->
  caller !! "id"%string = Some (VStr cid) ->
  QArith_base.Qle_bool (QArith_base.inject_Z 0) (PropertyCreate.price_per_month body) = true ->
  PropertyCreate.available_from body = None ->
  PropertyCreate.available_to body = None ->
  has_id (coll db "property") pid = false ->
  create_property body caller pid db
  = (<["property"%string :=
         coll db "property" ++ [(pid, Property.model_dump (property_of body cid))]]> db,
     Ok (record_view (pid, Property.model_dump (property_of body cid)))).
Proof.
  intros Hrole Hid Hprice Hf Ht Hfresh. unfold create_property. rewrite Hrole. cbn [negb].
  run. unfold item. rewrite Hid. unfold Property.validate.
  change (Property.price_per_month (property_of body cid))
    with (PropertyCreate.price_per_month body).
  rewrite Hprice. cbv beta iota.
  rewrite (encode_property body cid Hf Ht), Hfresh.
  rewrite coll_insert_eq, (find_one_by_id_inserted _ _ _ Hfresh).
  now rewrite with_id_to_dict.
Qed.

Lemma create_property_dated body caller pid db cid :
  host_or_admin (get caller "role") = true ->
  caller !! "id"%string = Some (VStr cid) ->
  QArith_base.Qle_bool (QArith_base.inject_Z 0) (PropertyCreate.price_per_month body) = true ->
  PropertyCreate.available_from body <> None
  \/ PropertyCreate.available_to body <> None ->
  create_property body caller pid db = (db, Err (Unhandled InvalidDocument)).
Proof.
  intros Hrole Hid Hprice Hd. unfold create_property. rewrite Hrole. cbn [negb].
  run. unfold item. rewrite Hid. unfold Property.validate.
  change (Property.price_per_month (property_of body cid))
    with (PropertyCreate.price_per_month body).
  rewrite Hprice. cbv beta iota.
  now rewrite (encode_property_dated body cid Hd).
Qed.

(** X8: [create_property]: a caller who is neither host nor admin is
    answered with 403 and nothing is stored. For a host or an admin
    whose body has no availability date, the property is stored under
    the new identifier with every field of the body as given, the
    caller as its host and active, and its view is returned. A body
    with an availability date reaches the driver with the date still a
    calendar date, which the driver cannot encode: the exception is not
    caught (a 500) and nothing is stored. A negative price, which the
    body accepts, is refused by the schema only: the exception is not
    caught either and nothing is stored. *)
Theorem create_property_is_for_hosts (body : PropertyCreate.t) caller pid db :
  (get caller "role" <> VStr "host" -> get caller "role" <> VStr "admin" ->
   exists detail,
     create_property body caller pid db = (db, Err (HTTPException 403 detail)))
  /\ (forall cid,
        get caller "role" = VStr "host" \/ get caller "role" = VStr "admin" ->
        caller !! "id"%string = Some (VStr cid) ->
        (QArith_base.Qle (QArith_base.inject_Z 0) (PropertyCreate.price_per_month body) ->
         PropertyCreate.available_from body = None ->
         PropertyCreate.available_to body = None ->
         has_id (coll db "property") pid = false ->
         let stored : doc :=
           list_to_map
             [("title", VStr (PropertyCreate.title body));
              ("description", VStr (PropertyCreate.description body));
              ("city", VStr (PropertyCreate.city body));
              ("address", VStr (PropertyCreate.address body));
              ("type", VStr (PropertyCreate.type body));
              ("price_per_month", VFloat (PropertyCreate.price_per_month body));
              ("images", VList (PropertyCreate.images body));
              ("lat", opt_float (PropertyCreate.lat body));
              ("lng", opt_float (PropertyCreate.lng body));
              ("distance_to_university",
               opt_str (PropertyCreate.distance_to_university body));
              ("available_from", VNull); ("available_to", VNull);
              ("host_id", VStr cid); ("is_active", VBool true)]%string in
         create_property body caller pid db
         = (<["property"%string := coll db "property" ++ [(pid, stored)]]> db,
            Ok (record_view (pid, stored))))
        /\ (QArith_base.Qle (QArith_base.inject_Z 0) (PropertyCreate.price_per_month body) ->
            PropertyCreate.available_from body <> None
            \/ PropertyCreate.available_to body <> None ->
            create_property body caller pid db = (db, Err (Unhandled InvalidDocument))
            /\ status (Unhandled InvalidDocument) = 500)
        /\ (QArith_base.Qlt (PropertyCreate.price_per_month body) (QArith_base.inject_Z 0) ->
            create_property body caller pid db = (db, Err (Unhandled ValidationError))
            /\ status (Unhandled ValidationError) = 500)).
Proof.
  split.
  - intros Hh Ha. unfold create_property.
    destruct (host_or_admin (get caller "role")) eqn:E.
    + apply host_or_admin_iff in E. tauto.
    + cbn [negb]. unfold raise. eauto.
  - intros cid Hrole Hid. apply host_or_admin_iff in Hrole. split_and!.
    + intros Hprice Hf Ht Hfresh stored. apply QArith_base.Qle_bool_iff in Hprice.
      rewrite (create_property_run _ _ _ _ _ Hrole Hid Hprice Hf Ht Hfresh).
      assert (E : Property.model_dump (property_of body cid) = stored).
      { unfold stored, Property.model_dump, property_of.
        cbn [Property.available_from Property.available_to].
        now rewrite Hf, Ht. }
      now rewrite E.
    + intros Hprice Hd. apply QArith_base.Qle_bool_iff in Hprice.
      split; [|reflexivity]. now apply create_property_dated with (cid := cid).
    + intros Hneg. split; [|reflexivity].
      unfold create_property. rewrite Hrole. cbn [negb]. run. unfold item. rewrite Hid.
      unfold Property.validate. cbn [Property.price_per_month property_of].
      destruct (QArith_base.Qle_bool _ _) eqn:E; [|reflexivity].
      apply QArith_base.Qle_bool_iff in E.
      exfalso. exact (QArith_base.Qlt_not_le _ _ Hneg E).
Qed.

Lemma create_property_witness :
  (exists detail,
     create_property samples.flat (public_view (samples.u1, samples.ali)) samples.p2
       samples.db_ankara
     = (samples.db_ankara, Err (HTTPException 403 detail)))
  /\ (exists stored,
        create_property samples.flat samples.host samples.p2 samples.db_ankara
        = (<["property"%string := [(samples.p1, samples.ankara); (samples.p2, stored)]]>
             samples.db_ankara,
           Ok (record_view (samples.p2, stored)))
        /\ stored !! "host_id"%string = Some (VStr (bson.str samples.u1))
        /\ stored !! "city"%string = Some (VStr "Bursa"))
  /\ create_property samples.flat_in_march samples.host samples.p2 samples.db_ankara
     = (samples.db_ankara, Err (Unhandled InvalidDocument))
  /\ create_property samples.below_zero samples.host samples.p2 samples.db_ankara
     = (samples.db_ankara, Err (Unhandled ValidationError)).
Proof.
  split_and!.
  - apply (proj1 (create_property_is_for_hosts samples.flat
                    (public_view (samples.u1, samples.ali)) samples.p2 samples.db_ankara));
      discriminate.
  - eexists. split.
    + apply (proj1 (proj2 (create_property_is_for_hosts samples.flat samples.host
                             samples.p2 samples.db_ankara)
                      (bson.str samples.u1) ltac:(left; reflexivity) ltac:(reflexivity))
               ltac:(discriminate) ltac:(reflexivity) ltac:(reflexivity)
               ltac:(reflexivity)).
    + split; reflexivity.
  - apply (proj1 (proj2 (proj2 (create_property_is_for_hosts samples.flat_in_march
                                  samples.host samples.p2 samples.db_ankara)
                           (bson.str samples.u1) ltac:(left; reflexivity)
                           ltac:(reflexivity)))
             ltac:(discriminate) ltac:(left; discriminate)).
  - apply (proj2 (proj2 (proj2 (create_property_is_for_hosts samples.below_zero
                                  samples.host samples.p2 samples.db_ankara)
                           (bson.str samples.u1) ltac:(left; reflexivity)
                           ltac:(reflexivity)))
             ltac:(reflexivity)).
Defined.

Lemma delete_property_run prop_id caller db o pre stored post :
  bson.parse prop_id = Some o ->
  coll db "property" = pre ++ (o, stored) :: post ->
  has_id pre o = false ->
  delete_property prop_id caller db
  = if negb (py_eq (get caller "role") (VStr "admin"))
       && negb (py_eq (get stored "host_id") (get caller "id"))
    then (db, Err (HTTPException 403 "ليس لديك إذن للحذف"))
    else (<["property"%string := pre ++ post]> db,
          Ok {[ "deleted"%string := VBool true ]}).
Proof.
  intros Hp Hc Hpre. apply has_id_false_forall in Hpre.
  assert (Hm : matches (by_id o) (to_dict (o, stored)) = true)
    by (rewrite matches_by_id; apply oid_eqb_refl).
  unfold delete_property. run. unfold to_object_id. rewrite Hp, Hc.
  rewrite (find_one_split pre post (o, stored) _ Hm Hpre).
  rewrite bool_decide_eq_false_2 by apply to_dict_nonempty.
  rewrite get_to_dict by discriminate. cbn [snd].
  destruct (negb _ && negb _); [reflexivity|].
  unfold item, delete_one. rewrite to_dict_id. cbn [fst]. fold (by_id o).
  rewrite Hc, (find_one_split pre post (o, stored) _ Hm Hpre).
  now rewrite (delete_first_split pre post (o, stored) _ Hm Hpre).
Qed.

Lemma has_id_app2 (c1 c2 : collection) o : has_id (c1 ++ c2) o = has_id c1 o || has_id c2 o.
Proof. unfold has_id. apply existsb_app. Qed.

Lemma get_property_missing prop_id db o :
  bson.parse prop_id = Some o ->
  has_id (coll db "property") o = false ->
  get_property prop_id db = (db, Err (HTTPException 404 "السكن غير موجود")).
Proof.
  intros Hp Hno. apply find_by_id_none in Hno.
  unfold get_property. run. unfold to_object_id. now rewrite Hp, Hno.
Qed.

(** X9: [delete_property] answers a malformed identifier with 400 and an
    identifier no stored property has with 404, also when the caller is
    an admin; a caller who is neither admin nor the host of the
    property is answered with 403. None of these writes. Otherwise the
    first property with the identifier is removed, the others are left,
    and when no other property has the identifier a later fetch of it
    is a 404. *)
Theorem delete_property_by_host_or_admin prop_id caller db :
  (bson.parse prop_id = None ->
   exists detail,
     delete_property prop_id caller db = (db, Err (HTTPException 400 detail)))
  /\ (forall o,
        bson.parse prop_id = Some o ->
        has_id (coll db "property") o = false ->
        exists detail,
          delete_property prop_id caller db = (db, Err (HTTPException 404 detail)))
  /\ (forall o pre stored post,
        bson.parse prop_id = Some o ->
        coll db "property" = pre ++ (o, stored) :: post ->
        has_id pre o = false ->
        (get caller "role" <> VStr "admin" ->
         py_eq (get stored "host_id") (get caller "id") = false ->
         exists detail,
           delete_property prop_id caller db = (db, Err (HTTPException 403 detail)))
        /\ (get caller "role" = VStr "admin"
            \/ py_eq (get stored "host_id") (get caller "id") = true ->
            let db' := <["property"%string := pre ++ post]> db in
            delete_property prop_id caller db
            = (db', Ok {[ "deleted"%string := VBool true ]})
            /\ (has_id post o = false ->
                exists detail,
                  get_property prop_id db' = (db', Err (HTTPException 404 detail))))).
Proof.
  split_and!.
  - intros Hp. unfold delete_property, bind, lift, to_object_id. rewrite Hp. eauto.
  - intros o Hp Hno. apply find_by_id_none in Hno.
    unfold delete_property. run. unfold to_object_id. rewrite Hp, Hno. eauto.
  - intros o pre stored post Hp Hc Hpre.
    rewrite (delete_property_run _ caller _ _ _ _ _ Hp Hc Hpre). split.
    + intros Hrole Hhost. rewrite (not_admin _ Hrole), Hhost. cbn. eauto.
    + intros Hallowed db'.
      assert (E : negb (py_eq (get caller "role") (VStr "admin"))
                  && negb (py_eq (get stored "host_id") (get caller "id")) = false).
      { destruct Hallowed as [H | H].
        - now rewrite (is_admin _ H).
        - rewrite H. apply andb_false_r. }
      rewrite E. split; [reflexivity|].
      intros Hpost. eexists. apply (get_property_missing _ _ o Hp).
      subst db'. rewrite coll_insert_eq, has_id_app2, Hpre, Hpost. reflexivity.
Qed.

Lemma delete_property_witness :
  (exists detail,
     delete_property "0000000000000000000000c1" samples.admin
       (<["property"%string := @nil (bson.ObjectId * doc)]> samples.db_ankara)
     = (<["property"%string := []]> samples.db_ankara, Err (HTTPException 404 detail)))
  /\ (exists detail,
        delete_property "0000000000000000000000c1" samples.guest samples.db_ankara
        = (samples.db_ankara, Err (HTTPException 403 detail)))
  /\ delete_property "0000000000000000000000c1" samples.host samples.db_ankara
     = (<["property"%string := []]> samples.db_ankara,
        Ok {[ "deleted"%string := VBool true ]})
  /\ exists detail,
       get_property "0000000000000000000000c1"
         (<["property"%string := []]> samples.db_ankara)
       = (<["property"%string := []]> samples.db_ankara, Err (HTTPException 404 detail)).
Proof.
  pose proof (delete_property_by_host_or_admin "0000000000000000000000c1") as H.
  split_and!.
  - apply (proj1 (proj2 (H samples.admin _)) samples.p1); reflexivity.
  - apply (proj1 (proj2 (proj2 (H samples.guest samples.db_ankara))
                    samples.p1 [] samples.ankara []
                    ltac:(reflexivity) ltac:(reflexivity) ltac:(reflexivity)));
      [discriminate | reflexivity].
  - apply (proj2 (proj2 (proj2 (H samples.host samples.db_ankara))
                    samples.p1 [] samples.ankara []
                    ltac:(reflexivity) ltac:(reflexivity) ltac:(reflexivity))
             ltac:(right; reflexivity)).
  - apply (proj2 (proj2 (proj2 (H samples.host samples.db_ankara))
                    samples.p1 [] samples.ankara []
                    ltac:(reflexivity) ltac:(reflexivity) ltac:(reflexivity))
             ltac:(right; reflexivity)).
    reflexivity.
Defined.

(** ** A property from creation to deletion *)

Lemma filter_app_one {A} (f : A -> bool) l x :
  List.filter f (l ++ [x]) = List.filter f l ++ if f x then [x] else [].
Proof. rewrite List.filter_app. cbn. now destruct (f x). Qed.

Lemma qualifies_city body cid pid :
  PropertyCreate.city body <> ""%string ->
  qualifies (Some (PropertyCreate.city body)) None None None None None
    (to_dict (pid, Property.model_dump (property_of body cid))) = true.
Proof.
  intros Hc. unfold qualifies, requested, is_value.
  rewrite !to_dict_other by discriminate. cbn [snd].
  destruct (property_fields body cid) as (_ & -> & _ & -> & _).
  cbn. rewrite String.eqb_refl. now rewrite orb_true_r.
Qed.

(** X10: What was created is there, for a body without availability
    dates: the view [create_property] returns is
    what a fetch of the new identifier returns afterwards; an unlimited
    search returns what it returned before, followed by the new
    property when it passes the filters, as it does for no filter and
    for its own city; and the caller who created it is allowed to
    change it, an update without availability dates succeeding, while
    a caller with another identifier who is not an admin is refused. *)
Theorem created_property_is_there (body : PropertyCreate.t) caller pid db cid :
  get caller "role" = VStr "host" \/ get caller "role" = VStr "admin" ->
  caller !! "id"%string = Some (VStr cid) ->
  QArith_base.Qle (QArith_base.inject_Z 0) (PropertyCreate.price_per_month body) ->
  PropertyCreate.available_from body = None ->
  PropertyCreate.available_to body = None ->
  has_id (coll db "property") pid = false ->
  exists db' stored view,
    create_property body caller pid db = (db', Ok view)
    /\ view = record_view (pid, stored)
    /\ get_property (bson.str pid) db' = (db', Ok view)
    /\ (forall city type lo hi sd ed old,
          list_properties city type lo hi sd ed 0 db = (db, Ok old) ->
          list_properties city type lo hi sd ed 0 db'
          = (db', Ok (old ++ if qualifies city type lo hi sd ed (to_dict (pid, stored))
                             then [view] else [])))
    /\ qualifies None None None None None None (to_dict (pid, stored)) = true
    /\ (PropertyCreate.city body <> ""%string ->
        qualifies (Some (PropertyCreate.city body)) None None None None None
          (to_dict (pid, stored)) = true)
    /\ (forall update now,
          PropertyUpdate.available_from update = None ->
          PropertyUpdate.available_to update = None ->
          exists res, snd (update_property (bson.str pid) update caller now db') = Ok res)
    /\ (forall other cid',
          other !! "id"%string = Some (VStr cid') -> cid' <> cid ->
          get other "role" <> VStr "admin" ->
          (forall update now, exists detail,
             update_property (bson.str pid) update other now db'
             = (db', Err (HTTPException 403 detail)))
          /\ exists detail,
               delete_property (bson.str pid) other db'
               = (db', Err (HTTPException 403 detail))).
Proof.
  intros Hrole Hid Hprice Hf Ht Hfresh.
  apply host_or_admin_iff in Hrole. apply QArith_base.Qle_bool_iff in Hprice.
  pose proof (create_property_run _ _ _ _ _ Hrole Hid Hprice Hf Ht Hfresh) as Hrun.
  set (stored := Property.model_dump (property_of body cid)) in *.
  set (db' := <["property"%string := coll db "property" ++ [(pid, stored)]]> db) in *.
  assert (Hc : coll db' "property" = coll db "property" ++ (pid, stored) :: [])
    by apply coll_insert_eq.
  assert (Hhost : get stored "host_id" = VStr cid) by reflexivity.
  exists db', stored, (record_view (pid, stored)). split_and!.
  - exact Hrun.
  - reflexivity.
  - apply (get_property_found _ _ pid _ stored [] (parse_str pid) Hc Hfresh).
  - intros city type lo hi sd ed old Hold.
    pose proof (list_properties_ok _ _ _ _ _ _ _ _ _ _ Hold) as Hd.
    revert Hold. rewrite !list_properties_run by exact Hd.
    intros [= <-]. f_equal. f_equal. unfold limit. cbn [Z.eqb].
    rewrite Hc, filter_app_one, map_app.
    now destruct (qualifies _ _ _ _ _ _ _).
  - reflexivity.
  - intros Hcity. now apply qualifies_city.
  - intros update now Hfrom Hto.
    rewrite (update_property_run _ update caller now _ pid _ stored [] (parse_str pid) Hc Hfresh).
    rewrite Hhost, (get_some _ _ _ Hid), (dated_false update Hfrom Hto).
    replace (py_eq (VStr cid) (VStr cid)) with true
      by (symmetry; now apply py_eq_str).
    rewrite andb_false_r. destruct (bool_decide _); cbn [snd]; eauto.
  - intros other cid' Hid' Hne Hrole'.
    assert (E : negb (py_eq (get other "role") (VStr "admin"))
                && negb (py_eq (get stored "host_id") (get other "id")) = true).
    { rewrite (not_admin _ Hrole'), Hhost, (get_some _ _ _ Hid'). cbn [andb].
      apply negb_true_iff, py_eq_str_false. congruence. }
    split.
    + intros update now.
      rewrite (update_property_run _ update other now _ pid _ stored []
                 (parse_str pid) Hc Hfresh), E. eauto.
    + rewrite (delete_property_run _ other _ pid _ stored [] (parse_str pid) Hc Hfresh), E.
      eauto.
Qed.

Lemma created_property_witness :
  exists db' view,
    create_property samples.flat samples.host samples.p2 samples.db_ankara
    = (db', Ok view)
    /\ get_property "0000000000000000000000c2" db' = (db', Ok view)
    /\ list_properties (Some "Bursa"%string) None None None None None 0 db'
       = (db', Ok [view])
    /\ exists detail,
         delete_property "0000000000000000000000c2" samples.guest db'
         = (db', Err (HTTPException 403 detail)).
Proof.
  destruct (created_property_is_there samples.flat samples.host samples.p2
              samples.db_ankara (bson.str samples.u1)
              ltac:(left; reflexivity) ltac:(reflexivity) ltac:(discriminate)
              ltac:(reflexivity) ltac:(reflexivity) ltac:(reflexivity))
    as (db' & stored & view & Hrun & Hview & Hget & Hlist & _ & Hcity & _ & Hother).
  exists db', view. split_and!.
  - exact Hrun.
  - exact Hget.
  - pose proof (Hcity ltac:(discriminate)) as Hq.
    change (PropertyCreate.city samples.flat) with "Bursa"%string in Hq.
    rewrite (Hlist (Some "Bursa"%string) None None None None None []
               ltac:(reflexivity)).
    now rewrite Hq.
  - apply (Hother samples.guest (bson.str samples.u2)
             ltac:(reflexivity) ltac:(discriminate) ltac:(discriminate)).
Defined.

(** ** Updates *)

Lemma property_cases prop_id (db : database) :
  bson.parse prop_id = None
  \/ (exists o, bson.parse prop_id = Some o /\ has_id (coll db "property") o = false)
  \/ (exists o pre stored post,
        bson.parse prop_id = Some o
        /\ coll db "property" = pre ++ (o, stored) :: post
        /\ has_id pre o = false).
Proof.
  destruct (bson.parse prop_id) as [o|]; [right | now left].
  destruct (has_id (coll db "property") o) eqn:E.
  - right. destruct (has_id_true _ _ E) as (pre & stored & post & Hc & Hpre).
    now exists o, pre, stored, post.
  - left. now exists o.
Qed.

Lemma update_has_no_host body :
  PropertyUpdate.model_dump_exclude_none body !! "host_id"%string = None.
Proof.
  apply dump_lookup_none. intros v H. cbn in H.
  repeat (destruct H as [H | H]; [discriminate H|]). exact H.
Qed.

Lemma same_host_refl (c : collection) :
  Forall2 (fun r r' : bson.ObjectId * doc =>
             fst r' = fst r /\ snd r' !! "host_id"%string = snd r !! "host_id"%string) c c.
Proof. induction c; constructor; auto. Qed.

(** X11: A property stays with its host: whatever the body, the caller and
    the outcome, after [update_property] the stored properties are as
    many as before, in the same order, each with the identifier and the
    host it had. *)
Theorem update_keeps_the_host prop_id (body : PropertyUpdate.t) caller now db :
  Forall2 (fun r r' : bson.ObjectId * doc =>
             fst r' = fst r /\ snd r' !! "host_id"%string = snd r !! "host_id"%string)
    (coll db "property")
    (coll (fst (update_property prop_id body caller now db)) "property").
Proof.
  destruct (property_cases prop_id db)
    as [Hp | [(o & Hp & Hno) | (o & pre & stored & post & Hp & Hc & Hpre)]].
  - rewrite update_property_bad_id by exact Hp. apply same_host_refl.
  - rewrite (update_property_missing _ _ _ _ _ _ Hp Hno). apply same_host_refl.
  - rewrite (update_property_run _ _ _ _ _ _ _ _ _ Hp Hc Hpre).
    destruct (negb _ && negb _); [apply same_host_refl|].
    destruct (bool_decide _); [apply same_host_refl|].
    destruct (dated body); [apply same_host_refl|].
    cbn [fst]. rewrite coll_insert_eq, Hc.
    apply Forall2_app; [apply same_host_refl|].
    constructor; [|apply same_host_refl].
    split; [reflexivity|]. cbn [snd].
    rewrite stamped_lookup, decide_False by discriminate.
    now rewrite update_has_no_host.
Qed.

Lemma update_is_active body b :
  PropertyUpdate.is_active body = Some b ->
  PropertyUpdate.model_dump_exclude_none body !! "is_active"%string = Some (VBool b).
Proof.
  intros H. apply dump_lookup_some; [apply items_NoDup|].
  cbn. rewrite H. cbn. tauto.
Qed.

Lemma record_view_not o (c : collection) :
  has_id c o = false ->
  Forall (fun d : doc => d !! "id"%string <> Some (VStr (bson.str o))) (map record_view c).
Proof.
  intros H. apply Forall_forall. intros d Hd. apply list_elem_of_In in Hd.
  apply in_map_iff in Hd as (r & <- & Hr).
  rewrite record_view_id. intros [= E]. apply oid_eq in E.
  apply has_id_not_in in H. apply H. rewrite <- E. now apply in_map.
Qed.

Lemma has_id_filter f (c : collection) o :
  has_id c o = false -> has_id (List.filter f c) o = false.
Proof.
  induction c as [|r c IH]; [trivial|]. cbn [has_id existsb List.filter].
  intros [H1 H2]%orb_false_iff. destruct (f r); cbn [has_id existsb].
  - rewrite H1. now apply IH.
  - now apply IH.
Qed.

(** X12: Taking a property off the market hides it and keeps it: when a
    caller allowed to edit sets [is_active] to false, in a body without
    availability dates, the update
    succeeds, no search that returns a list returns the property any
    more, whatever the filters and the limit, every search without
    both dates does return a list, and a fetch by its identifier still
    returns the property, as the update returned it. *)
Theorem deactivated_property_is_hidden_not_gone
    prop_id (body : PropertyUpdate.t) caller now db o pre stored post :
  bson.parse prop_id = Some o ->
  coll db "property" = pre ++ (o, stored) :: post ->
  has_id pre o = false ->
  has_id post o = false ->
  get caller "role" = VStr "admin"
  \/ py_eq (get stored "host_id") (get caller "id") = true ->
  PropertyUpdate.is_active body = Some false ->
  PropertyUpdate.available_from body = None ->
  PropertyUpdate.available_to body = None ->
  exists db' view,
    update_property prop_id body caller now db = (db', Ok view)
    /\ view !! "is_active"%string = Some (VBool false)
    /\ view !! "id"%string = Some (VStr (bson.str o))
    /\ get_property prop_id db' = (db', Ok view)
    /\ forall city type lo hi sd ed lim,
         (sd = None \/ ed = None ->
          exists docs, list_properties city type lo hi sd ed lim db' = (db', Ok docs))
         /\ forall docs,
              list_properties city type lo hi sd ed lim db' = (db', Ok docs) ->
              Forall (fun d : doc => d !! "id"%string <> Some (VStr (bson.str o))) docs.
Proof.
  intros Hp Hc Hpre Hpost Hallowed Hbody Hfrom Hto.
  pose proof (update_is_active _ _ Hbody) as Hupd.
  pose proof (update_property_run _ body caller now _ _ _ _ _ Hp Hc Hpre) as Hrun.
  replace (negb (py_eq (get caller "role") (VStr "admin"))
           && negb (py_eq (get stored "host_id") (get caller "id"))) with false in Hrun.
  2:{ symmetry. destruct Hallowed as [H | H].
      - now rewrite (is_admin _ H).
      - rewrite H. apply andb_false_r. }
  rewrite bool_decide_eq_false_2 in Hrun.
  2:{ intros E. rewrite E in Hupd. discriminate. }
  rewrite (dated_false body Hfrom Hto) in Hrun.
  set (stored' := stamped (PropertyUpdate.model_dump_exclude_none body) now stored) in *.
  set (db' := <["property"%string := pre ++ (o, stored') :: post]> db) in *.
  assert (Hc' : coll db' "property" = pre ++ (o, stored') :: post) by apply coll_insert_eq.
  assert (Hoff : stored' !! "is_active"%string = Some (VBool false)).
  { unfold stored'. rewrite stamped_lookup, decide_False by discriminate. now rewrite Hupd. }
  exists db', (record_view (o, stored')). split_and!.
  - exact Hrun.
  - now rewrite record_view_other by discriminate.
  - apply record_view_id.
  - apply (get_property_found _ _ _ _ _ _ Hp Hc' Hpre).
  - intros city type lo hi sd ed lim.
    split; [intros Hd; eexists; now apply list_properties_run|].
    intros docs Hdocs.
    pose proof (list_properties_ok _ _ _ _ _ _ _ _ _ _ Hdocs) as Hd.
    rewrite list_properties_run in Hdocs by exact Hd. injection Hdocs as <-.
    rewrite Hc'. apply record_view_not.
    assert (Hq : qualifies city type lo hi sd ed (to_dict (o, stored')) = false).
    { unfold qualifies, is_value. rewrite to_dict_other by discriminate. cbn [snd].
      now rewrite Hoff. }
    assert (Hno : has_id (List.filter (fun r => qualifies city type lo hi sd ed (to_dict r))
                            (pre ++ (o, stored') :: post)) o = false).
    { rewrite List.filter_app. cbn [List.filter]. rewrite Hq.
      rewrite has_id_app2, !has_id_filter by assumption. reflexivity. }
    unfold limit. destruct (lim =? 0); [exact Hno|].
    apply not_true_iff_false. intros Hyes.
    apply has_id_true in Hyes as (p & b & q & Heq & _).
    assert (Hin : In (o, b) (firstn (Z.to_nat (Z.abs lim))
                    (List.filter (fun r => qualifies city type lo hi sd ed (to_dict r))
                       (pre ++ (o, stored') :: post)))).
    { rewrite Heq. apply in_elt. }
    apply list_elem_of_In, (subseteq_take _ _ _) in Hin. apply list_elem_of_In in Hin.
    apply has_id_in in Hin. congruence.
Qed.

Lemma deactivated_witness :
  exists db' view docs,
    update_property "0000000000000000000000c1" samples.take_down samples.host 77
      samples.db_ankara = (db', Ok view)
    /\ view !! "is_active"%string = Some (VBool false)
    /\ get_property "0000000000000000000000c1" db' = (db', Ok view)
    /\ list_properties None None None None None None 50 db' = (db', Ok docs)
    /\ Forall (fun d : doc => d !! "id"%string <> Some (VStr (bson.str samples.p1))) docs.
Proof.
  destruct (deactivated_property_is_hidden_not_gone
              "0000000000000000000000c1" samples.take_down samples.host 77
              samples.db_ankara samples.p1 [] samples.ankara []
              ltac:(reflexivity) ltac:(reflexivity) ltac:(reflexivity) ltac:(reflexivity)
              ltac:(right; reflexivity) ltac:(reflexivity) ltac:(reflexivity)
              ltac:(reflexivity))
    as (db' & view & Hrun & Hoff & _ & Hget & Hlist).
  destruct (Hlist None None None None None None 50) as (Hsome & Hall).
  destruct (Hsome ltac:(now left)) as (docs & Hdocs).
  exists db', view, docs. split_and!; auto.
Defined.

(** ** Who is authenticated *)

Lemma cmp_gt_datetime w now :
  cmp_holds gt w (VDateTime now) = true -> exists t, w = VDateTime t /\ now < t.
Proof.
  destruct w; try discriminate. unfold cmp_holds, value_compare.
  destruct (t ?= now) eqn:E; try discriminate.
  intros _. exists t. split; [reflexivity|]. now apply Z.compare_gt_iff in E.
Qed.

Lemma find_one_in (c : collection) q d :
  mongo.find_one c q = Some d ->
  exists r, In r c /\ d = to_dict r /\ matches q (to_dict r) = true.
Proof.
  intros H. destruct (find_one_some _ _ _ H) as (pre & r & post & -> & -> & Hm & _).
  exists r. split_and!; [apply in_elt | reflexivity | exact Hm].
Qed.

Lemma matches_session tok now s :
  matches (session_query tok now) (to_dict s) = true ->
  snd s !! "token"%string = Some (VStr tok)
  /\ exists t, snd s !! "expires_at"%string = Some (VDateTime t) /\ now < t.
Proof.
  unfold session_query. cbn [matches forallb cond_holds].
  rewrite !to_dict_other by discriminate. rewrite andb_true_r.
  intros [H1 H2]%andb_true_iff. split.
  - destruct (snd s !! "token"%string) as [w|]; [|discriminate].
    apply value_eqb_str in H1. now subst.
  - destruct (snd s !! "expires_at"%string) as [w|]; [|discriminate].
    cbn [forallb fst snd] in H2. rewrite andb_true_r in H2.
    apply cmp_gt_datetime in H2 as (t & -> & Ht). eauto.
Qed.

Lemma get_current_user_inv authorization now db db' caller :
  get_current_user authorization now db = (db', Ok caller) ->
  db' = db /\ exists r, In r (coll db "user") /\ caller = public_view r.
Proof.
  unfold get_current_user.
  destruct (negb _ || negb _); [discriminate|]. run.
  destruct (py.split _ !! 1%nat) as [tok|]; [|discriminate].
  destruct (mongo.find_one (coll db "session") _) as [d|] eqn:Hs; [|discriminate].
  destruct (find_one_in _ _ _ Hs) as (s & _ & -> & _).
  rewrite bool_decide_eq_false_2 by apply to_dict_nonempty.
  destruct (item _ _) as [v|]; [|discriminate].
  destruct (session_user_id v) as [[o|]|]; [| discriminate | discriminate].
  destruct (mongo.find_one (coll db "user") (by_id o)) as [u|] eqn:Hu; [|discriminate].
  destruct (find_one_in _ _ _ Hu) as (r & Hr & -> & _).
  rewrite bool_decide_eq_false_2 by apply to_dict_nonempty.
  rewrite user_safe_to_dict. intros [= <- <-]. eauto.
Qed.

(** X13: Nobody is authenticated without a live session: when
    [get_current_user] returns a caller, the header starts with the
    scheme, its second word is the token of a stored session that
    expires after the current instant, that session refers to a stored
    user, and the caller is the public view of that user. The database
    is left as it was. *)
Theorem authenticated_means_live_session authorization now db db' caller :
  get_current_user authorization now db = (db', Ok caller) ->
  db' = db
  /\ exists a tok s r,
       authorization = Some a
       /\ py.startswith (py.lower a) "bearer " = true
       /\ py.split a !! 1%nat = Some tok
       /\ In s (coll db "session")
       /\ snd s !! "token"%string = Some (VStr tok)
       /\ (exists t, snd s !! "expires_at"%string = Some (VDateTime t) /\ now < t)
       /\ In r (coll db "user")
       /\ (snd s !! "user_id"%string = Some (VOid (fst r))
           \/ exists i, snd s !! "user_id"%string = Some (VStr i)
                        /\ bson.parse i = Some (fst r))
       /\ caller = public_view r.
Proof.
  unfold get_current_user.
  destruct authorization as [a|]; [|discriminate].
  unfold default. cbn [from_option id].
  destruct (py.truthy_str (Some a)); [|discriminate].
  destruct (py.startswith (py.lower a) "bearer ") eqn:Hscheme; [|discriminate].
  cbn [negb orb]. run.
  destruct (py.split a !! 1%nat) as [tok|] eqn:Htok; [|discriminate].
  fold (session_query tok now).
  destruct (mongo.find_one (coll db "session") (session_query tok now)) as [d|] eqn:Hs;
    [|discriminate].
  destruct (find_one_in _ _ _ Hs) as (s & Hin & -> & Hm).
  apply matches_session in Hm as (Htoken & Hexp).
  rewrite bool_decide_eq_false_2 by apply to_dict_nonempty.
  unfold item. rewrite to_dict_other by discriminate.
  destruct (snd s !! "user_id"%string) as [v|] eqn:Hv; [|discriminate].
  assert (Hcases : forall o, session_user_id v = Ok (Some o) ->
            snd s !! "user_id"%string = Some (VOid o)
            \/ exists i, snd s !! "user_id"%string = Some (VStr i) /\ bson.parse i = Some o).
  { intros o. rewrite Hv. destruct v; try discriminate.
    - cbn. destruct (bson.parse s0) eqn:E; [|discriminate].
      intros [= <-]. right. eauto.
    - intros [= <-]. now left. }
  destruct (session_user_id v) as [[o|]|]; [| discriminate | discriminate].
  specialize (Hcases o eq_refl).
  destruct (mongo.find_one (coll db "user") (by_id o)) as [u|] eqn:Hu; [|discriminate].
  destruct (find_one_in _ _ _ Hu) as (r & Hr & -> & Hm).
  rewrite matches_by_id in Hm. apply oid_eqb_eq in Hm. subst o.
  rewrite bool_decide_eq_false_2 by apply to_dict_nonempty.
  rewrite user_safe_to_dict. intros [= <- <-]. split; [reflexivity|].
  exists a, tok, s, r. now split_and!.
Qed.


Lemma authenticated_witness :
  exists s r,
    In s (coll samples.db_session "session")
    /\ snd s !! "token"%string = Some (VStr samples.tok)
    /\ In r (coll samples.db_session "user")
    /\ public_view (samples.u1, samples.ali) = public_view r.
Proof.
  destruct (authenticated_means_live_session (Some ("Bearer " +:+ samples.tok)) 5
              samples.db_session samples.db_session
              (public_view (samples.u1, samples.ali)) ltac:(reflexivity))
    as (_ & a & tok & s & r & Ha & _ & Htok & Hs & Htoken & _ & Hr & _ & Hview).
  injection Ha as <-. injection Htok as <-.
  exists s, r. now split_and!.
Defined.

(** ** What a response shows *)

Lemma user_safe_no_hash u v : user_safe u = Ok v -> v !! "password_hash"%string = None.
Proof.
  unfold user_safe, with_id. destruct (bool_decide (u = ∅)) eqn:E.
  - apply bool_decide_eq_true in E. subst u. now intros [= <-].
  - destruct (delete "password_hash"%string u !! "_id"%string) as [w|]; [|discriminate].
    destruct (py_str w); [|discriminate]. intros [= <-].
    rewrite lookup_insert_ne by discriminate.
    rewrite lookup_delete_ne by discriminate. apply lookup_delete_eq.
Qed.

Lemma mapM_Forall {A B} (f : A -> result B) (Q : B -> Prop) l l' :
  (forall a b, f a = Ok b -> Q b) -> mapM f l = Ok l' -> Forall Q l'.
Proof.
  intros Hf. revert l'. induction l as [|a l IH]; intros l'; cbn [mapM].
  - intros [= <-]. constructor.
  - destruct (f a) as [b|] eqn:E; [|discriminate].
    destruct (mapM f l) as [bs|]; [|discriminate].
    intros [= <-]. constructor; eauto.
Qed.

(** One case of a handler that has run: the next test is split and the
    branches that raise are closed. *)
Ltac unravel :=
  repeat match goal with
         | |- context [match ?x with _ => _ end] =>
             lazymatch x with
             | context [match _ with _ => _ end] => fail
             | _ => destruct x eqn:?
             end
         | |- (_, Err _) = (_, Ok _) -> _ => discriminate
         end.

(** X14: No response carries a credential: the user in the answer of
    [signup] and of [login], the caller [get_current_user] resolves
    (whom [GET /me] returns as it is) and every user [admin_users]
    lists are without [password_hash]. *)
Theorem no_response_shows_the_credential environ db db' :
  (forall body now uid sid tok r,
     signup environ body now uid sid tok db = (db', Ok r) ->
     user r !! "password_hash"%string = None)
  /\ (forall body now sid tok r,
        login environ body now sid tok db = (db', Ok r) ->
        user r !! "password_hash"%string = None)
  /\ (forall authorization now caller,
        protected authorization now me db = (db', Ok caller) ->
        caller !! "password_hash"%string = None)
  /\ (forall caller l,
        admin_users caller db = (db', Ok l) ->
        Forall (fun d : doc => d !! "password_hash"%string = None) l).
Proof.
  split_and!.
  - intros body now uid sid tok r. unfold signup. run.
    unravel; intros [= <- <-]; cbn [user]; eauto using user_safe_no_hash.
  - intros body now sid tok r. unfold login. run.
    unravel; intros [= <- <-]; cbn [user]; eauto using user_safe_no_hash.
  - intros authorization now caller. unfold protected, bind, me, ret.
    destruct (get_current_user authorization now db) as [db1 [c|e]] eqn:E; [|discriminate].
    intros [= <- <-]. destruct (get_current_user_inv _ _ _ _ _ E) as (_ & r & _ & ->).
    apply public_view_hidden.
  - intros caller l. unfold admin_users. unfold bind, raise, find_all, lift.
    destruct (negb _); [discriminate|].
    destruct (mapM _ _) as [l'|] eqn:E; [|discriminate]. intros [= <- <-].
    eapply mapM_Forall; [|exact E]. intros a b. apply user_safe_no_hash.
Qed.

Lemma no_credential_witness :
  exists r,
    login samples.environ (LoginBody.make "ali@example.com" samples.password)
      0 samples.s1 samples.tok samples.db_ali
    = (<["session"%string :=
           [(samples.s1,
             issued_session (VOid samples.u1) (bson.str samples.u1) samples.tok 0)]]>
         samples.db_ali, Ok r)
    /\ user r !! "password_hash"%string = None
    /\ samples.ali !! "password_hash"%string
       = Some (VStr "d2f0f42984269e288f8b9342d5d8983e06c7a7c6486f12b2c22ffad39263fce3").
Proof.
  pose proof (login_ok samples.environ (LoginBody.make "ali@example.com" samples.password)
                0 samples.s1 samples.tok samples.db_ali (samples.u1, samples.ali) _
                ltac:(reflexivity) hash_password_secret ltac:(reflexivity)
                ltac:(reflexivity)) as Hrun.
  eexists. split; [exact Hrun|]. split; [|reflexivity].
  exact (proj1 (proj2 (no_response_shows_the_credential samples.environ _ _))
           _ _ _ _ _ Hrun).
Defined.

(** ** Lists of bookings *)

Lemma stringify_shape r :
  booking_shape (snd r) -> stringify (to_dict r) = Ok (booking_listed r).
Proof.
  intros (_ & [po Hp] & [uo Hu]). unfold stringify, and_then.
  rewrite with_id_to_dict. fold (record_view r). unfold item.
  rewrite record_view_other by discriminate. rewrite Hp. cbn [py_str].
  rewrite lookup_insert_ne by discriminate.
  rewrite record_view_other by discriminate. rewrite Hu. cbn [py_str].
  unfold booking_listed, ref. now rewrite Hp, Hu.
Qed.

Lemma mapM_map {A B} (f : A -> result B) (g : A -> B) l :
  Forall (fun a => f a = Ok (g a)) l -> mapM f l = Ok (map g l).
Proof.
  induction 1 as [|a l Ha _ IH]; [reflexivity|].
  cbn [mapM map]. now rewrite Ha, IH.
Qed.

Lemma value_eqb_oid w o : value_eqb w (VOid o) = true <-> w = VOid o.
Proof.
  destruct w; cbn; try (split; [discriminate | congruence]).
  rewrite oid_eqb_eq. split; congruence.
Qed.

Lemma is_value_oid (d : doc) k o : is_value d k (VOid o) = true <-> d !! k = Some (VOid o).
Proof.
  unfold is_value. destruct (d !! k) as [w|]; [|split; discriminate].
  rewrite value_eqb_oid. split; congruence.
Qed.

Lemma is_value_str (d : doc) k i : is_value d k (VStr i) = true <-> d !! k = Some (VStr i).
Proof.
  unfold is_value. destruct (d !! k) as [w|]; [|split; discriminate].
  rewrite value_eqb_str. split; congruence.
Qed.

Lemma matches_is k v r :
  k <> "_id"%string -> v <> VNull ->
  matches (Field k (Is v)) (to_dict r) = is_value (snd r) k v.
Proof.
  intros Hk Hv. cbn [matches]. rewrite cond_is by exact Hv.
  unfold is_value. now rewrite to_dict_other by exact Hk.
Qed.

Lemma stringify_filter f (c : collection) :
  Forall (fun r => booking_shape (snd r)) c ->
  mapM stringify (map to_dict (List.filter f c))
  = Ok (map booking_listed (List.filter f c)).
Proof.
  intros H. induction c as [|r c IH]; [reflexivity|].
  apply Forall_cons in H as [Hr Hc]. cbn [List.filter].
  destruct (f r); [|now apply IH].
  cbn [map mapM]. now rewrite (stringify_shape _ Hr), (IH Hc).
Qed.

Lemma my_bookings_run caller db i o :
  bookings_pending db ->
  caller !! "id"%string = Some (VStr i) ->
  bson.parse i = Some o ->
  my_bookings caller db
  = (db, Ok (map booking_listed (List.filter (booked_by o) (coll db "booking")))).
Proof.
  intros Hshape Hid Hp. unfold my_bookings, bind, lift, item, find_all.
  rewrite Hid. cbn [ObjectId_of]. rewrite Hp.
  rewrite find_as_filter.
  rewrite (List.filter_ext _ (booked_by o)).
  - now rewrite stringify_filter.
  - intros r. now apply matches_is.
Qed.

Lemma booking_listed_fields r :
  booking_listed r !! "id"%string = Some (VStr (bson.str (fst r)))
  /\ booking_listed r !! "_id"%string = None
  /\ booking_listed r !! "user_id"%string = Some (VStr (ref (snd r) "user_id"))
  /\ booking_listed r !! "property_id"%string = Some (VStr (ref (snd r) "property_id"))
  /\ (forall k, k <> "id"%string -> k <> "_id"%string -> k <> "user_id"%string ->
                k <> "property_id"%string -> booking_listed r !! k = snd r !! k).
Proof.
  unfold booking_listed. split_and!.
  - rewrite !lookup_insert_ne by discriminate. apply record_view_id.
  - rewrite !lookup_insert_ne by discriminate. unfold record_view.
    rewrite lookup_insert_ne by discriminate. apply lookup_delete_eq.
  - apply lookup_insert_eq.
  - rewrite lookup_insert_ne by discriminate. apply lookup_insert_eq.
  - intros k H1 H2 H3 H4. rewrite !lookup_insert_ne by congruence.
    now apply record_view_other.
Qed.

(** X15: [my_bookings] lists the bookings of the caller, all of them and no
    other, in the order they were made: when the stored bookings are
    pending and refer to their property and their user by identifier,
    as [create_booking] builds them, the answer has one entry for each
    stored booking whose [user_id] is the identifier of the caller,
    with the identifier of the booking under [id], the two references
    as strings, and the other fields as stored. *)
Theorem my_bookings_are_the_callers caller db i o :
  bookings_pending db ->
  caller !! "id"%string = Some (VStr i) ->
  bson.parse i = Some o ->
  exists l,
    my_bookings caller db = (db, Ok l)
    /\ Forall2 (fun (r : bson.ObjectId * doc) (d : doc) =>
                  d !! "id"%string = Some (VStr (bson.str (fst r)))
                  /\ d !! "_id"%string = None
                  /\ d !! "user_id"%string = Some (VStr (bson.str o))
                  /\ (exists p, snd r !! "property_id"%string = Some (VOid p)
                                /\ d !! "property_id"%string = Some (VStr (bson.str p)))
                  /\ d !! "status"%string = Some (VStr "pending")
                  /\ forall k, k <> "id"%string -> k <> "_id"%string ->
                               k <> "user_id"%string -> k <> "property_id"%string ->
                               d !! k = snd r !! k)
         (List.filter (fun r => is_value (snd r) "user_id" (VOid o)) (coll db "booking")) l.
Proof.
  intros Hshape Hid Hp. eexists. split; [now apply (my_bookings_run _ _ i o)|].
  unfold bookings_pending in Hshape. fold (booked_by o).
  induction (coll db "booking") as [|r c IH]; [constructor|].
  apply Forall_cons in Hshape as [(Hst & [po Hpo] & [uo Huo]) Hc].
  cbn [List.filter]. destruct (booked_by o r) eqn:E; [|now apply IH].
  cbn [map]. constructor; [|now apply IH].
  apply is_value_oid in E.
  destruct (booking_listed_fields r) as (H1 & H2 & H3 & H4 & H5).
  split_and!; try assumption.
  - rewrite H3. unfold ref. now rewrite E.
  - exists po. split; [exact Hpo|]. rewrite H4. unfold ref. now rewrite Hpo.
  - rewrite H5 by discriminate. exact Hst.
Qed.

Lemma db_booked_pending : bookings_pending samples.db_booked.
Proof.
  unfold bookings_pending.
  change (coll samples.db_booked "booking")
    with [(samples.b1, samples.booked samples.u1); (samples.b2, samples.booked samples.u2)].
  repeat constructor; cbn [snd]; eexists; reflexivity.
Qed.

Lemma my_bookings_witness :
  exists d,
    my_bookings samples.host samples.db_booked = (samples.db_booked, Ok [d])
    /\ d !! "id"%string = Some (VStr (bson.str samples.b1))
    /\ d !! "user_id"%string = Some (VStr (bson.str samples.u1)).
Proof.
  destruct (my_bookings_are_the_callers samples.host samples.db_booked
              (bson.str samples.u1) samples.u1 db_booked_pending
              ltac:(reflexivity) ltac:(reflexivity))
    as (l & Hrun & Hall).
  change (List.filter _ _) with [(samples.b1, samples.booked samples.u1)] in Hall.
  inversion Hall as [|r d c l' (Hid & _ & Hu & _) Hnil]; subst.
  inversion Hnil; subst. exists d. now split_and!.
Defined.

(** ** The bookings of a host *)

Lemma project_id_item r : item (project_id (to_dict r)) "_id" = Ok (VOid (fst r)).
Proof. unfold project_id, item. rewrite to_dict_id. now rewrite lookup_singleton_eq. Qed.

Lemma matches_in k (c : collection) b :
  k <> "_id"%string ->
  matches (in_ k (map (fun p => VOid (fst p)) c)) (to_dict b)
  = existsb (fun p => is_value (snd b) k (VOid (fst p))) c.
Proof.
  intros Hk. unfold in_. cbn [matches]. rewrite map_map.
  induction c as [|p c IH]; [reflexivity|]. cbn [map existsb].
  rewrite IH. f_equal. now apply matches_is.
Qed.

Lemma host_bookings_run caller db i :
  host_or_admin (get caller "role") = true ->
  caller !! "id"%string = Some (VStr i) ->
  bookings_pending db ->
  host_bookings caller db
  = (db, Ok (map booking_listed
               (List.filter (booked_at (List.filter (hosted_by i) (coll db "property")))
                  (coll db "booking")))).
Proof.
  intros Hrole Hid Hshape. unfold host_bookings. rewrite Hrole. cbn [negb].
  unfold bind, lift, item, find_all. rewrite Hid.
  rewrite find_as_filter.
  rewrite (List.filter_ext _ (hosted_by i)) by (intros r; now apply matches_is).
  rewrite (mapM_map _ (fun d => default VNull (d !! "_id"%string))).
  2:{ apply Forall_forall. intros d Hd. apply list_elem_of_In, in_map_iff in Hd as (r & <- & _).
      rewrite to_dict_id. apply project_id_item. }
  rewrite map_map.
  rewrite (map_ext _ (fun p => VOid (fst p))) by (intros r; now rewrite to_dict_id).
  rewrite find_as_filter.
  rewrite (List.filter_ext _ (booked_at (List.filter (hosted_by i) (coll db "property"))))
    by (intros b; now apply matches_in).
  now rewrite stringify_filter.
Qed.

(** X17: [host_bookings] is for hosts and admins, and about their own
    properties: any other caller is answered with 403; a host or an
    admin is given, when the stored bookings are pending and refer to
    their property and their user by identifier, as [create_booking]
    builds them, one entry for each stored booking of a stored property
    whose [host_id] is the identifier of the caller, in the order the
    bookings were made, and so an empty list when the caller, admin or
    not, hosts nothing. *)
Theorem host_bookings_are_for_own_properties caller db :
  (get caller "role" <> VStr "host" -> get caller "role" <> VStr "admin" ->
   exists detail, host_bookings caller db = (db, Err (HTTPException 403 detail)))
  /\ (forall i,
        get caller "role" = VStr "host" \/ get caller "role" = VStr "admin" ->
        caller !! "id"%string = Some (VStr i) ->
        bookings_pending db ->
        exists l,
          host_bookings caller db = (db, Ok l)
          /\ Forall2 (fun (r : bson.ObjectId * doc) (d : doc) =>
                        d !! "id"%string = Some (VStr (bson.str (fst r)))
                        /\ exists p,
                             In p (coll db "property")
                             /\ snd p !! "host_id"%string = Some (VStr i)
                             /\ snd r !! "property_id"%string = Some (VOid (fst p))
                             /\ d !! "property_id"%string = Some (VStr (bson.str (fst p))))
               (List.filter
                  (booked_at (List.filter (hosted_by i) (coll db "property")))
                  (coll db "booking")) l
          /\ ((forall p, In p (coll db "property") ->
                         snd p !! "host_id"%string <> Some (VStr i)) -> l = [])).
Proof.
  split.
  - intros Hh Ha. unfold host_bookings.
    destruct (host_or_admin (get caller "role")) eqn:E.
    + apply host_or_admin_iff in E. tauto.
    + cbn [negb]. unfold raise. eauto.
  - intros i Hrole Hid Hshape. apply host_or_admin_iff in Hrole.
    rewrite (host_bookings_run _ _ _ Hrole Hid Hshape).
    eexists. split_and!; [reflexivity | |].
    + induction (coll db "booking") as [|r c IH]; [constructor|].
      cbn [List.filter]. destruct (booked_at _ r) eqn:E; [|exact IH].
      cbn [map]. constructor; [|exact IH].
      destruct (booking_listed_fields r) as (H1 & _ & _ & H4 & _).
      split; [exact H1|].
      apply existsb_exists in E as (p & Hp & E). apply filter_In in Hp as [Hp Hhost].
      apply is_value_str in Hhost. apply is_value_oid in E.
      exists p. split_and!; try assumption.
      rewrite H4. unfold ref. now rewrite E.
    + intros Hnone.
      assert (E : List.filter (hosted_by i) (coll db "property") = []).
      { induction (coll db "property") as [|p c IH]; [reflexivity|].
        cbn [List.filter]. destruct (hosted_by i p) eqn:E.
        - apply is_value_str in E. exfalso. apply (Hnone p); [now left | exact E].
        - apply IH. intros q Hq. apply Hnone. now right. }
      rewrite E. cbn [booked_at existsb].
      induction (coll db "booking") as [|r c IH]; [reflexivity|]. exact IH.
Qed.

Lemma host_bookings_witness :
  (exists detail,
     host_bookings samples.guest samples.db_booked
     = (samples.db_booked, Err (HTTPException 403 detail)))
  /\ (exists l,
        host_bookings samples.host samples.db_booked = (samples.db_booked, Ok l)
        /\ length l = 2%nat)
  /\ host_bookings samples.admin samples.db_booked = (samples.db_booked, Ok []).
Proof.
  pose proof db_booked_pending as Hshape. split_and!.
  - apply (proj1 (host_bookings_are_for_own_properties samples.guest samples.db_booked));
      discriminate.
  - destruct (proj2 (host_bookings_are_for_own_properties samples.host samples.db_booked)
                (bson.str samples.u1) ltac:(left; reflexivity) ltac:(reflexivity) Hshape)
      as (l & Hrun & Hall & _).
    exists l. split; [exact Hrun|].
    apply Forall2_length in Hall. rewrite <- Hall. reflexivity.
  - destruct (proj2 (host_bookings_are_for_own_properties samples.admin samples.db_booked)
                (bson.str samples.u2) ltac:(right; reflexivity) ltac:(reflexivity) Hshape)
      as (l & Hrun & _ & Hnone).
    rewrite Hrun, Hnone; [reflexivity|].
    intros p [<- | []]. discriminate.
Defined.

(** ** Counting and searching *)

Lemma count_all (c : collection) :
  mongo.count_documents c (And []) = Z.of_nat (length c).
Proof.
  unfold mongo.count_documents. now rewrite find_all_everything, length_map.
Qed.

Lemma count_is (c : collection) k v :
  k <> "_id"%string -> v <> VNull ->
  mongo.count_documents c (Field k (Is v))
  = Z.of_nat (length (List.filter (fun r => is_value (snd r) k v) c)).
Proof.
  intros Hk Hv. unfold mongo.count_documents. rewrite find_as_filter, length_map.
  now rewrite (List.filter_ext _ (fun r => is_value (snd r) k v))
    by (intros r; now apply matches_is).
Qed.

(** X18: What the admin is told: the number of stored users, whatever their
    role; among them the number whose role is exactly [host], never
    more than the users; the number of stored properties, the inactive
    ones too; and the number of stored bookings. *)
Theorem admin_stats_counts caller db :
  get caller "role" = VStr "admin" ->
  exists d hosts,
    admin_stats caller db = (db, Ok d)
    /\ d !! "users"%string = Some (VInt (Z.of_nat (length (coll db "user"))))
    /\ d !! "hosts"%string = Some (VInt hosts)
    /\ hosts = Z.of_nat (length (List.filter
                                   (fun r => is_value (snd r) "role" (VStr "host"))
                                   (coll db "user")))
    /\ 0 <= hosts <= Z.of_nat (length (coll db "user"))
    /\ d !! "properties"%string = Some (VInt (Z.of_nat (length (coll db "property"))))
    /\ d !! "bookings"%string = Some (VInt (Z.of_nat (length (coll db "booking")))).
Proof.
  intros Hrole. unfold admin_stats. rewrite (is_admin _ Hrole).
  unfold bind, main.count_documents, ret.
  rewrite !count_all, count_is by discriminate.
  eexists _, _. split_and!; try reflexivity.
  - lia.
  - apply inj_le, filter_length_le.
Qed.

Lemma admin_stats_witness :
  exists d,
    admin_stats samples.admin samples.db_hidden = (samples.db_hidden, Ok d)
    /\ d !! "users"%string = Some (VInt 0)
    /\ d !! "properties"%string = Some (VInt 1).
Proof.
  destruct (admin_stats_counts samples.admin samples.db_hidden ltac:(reflexivity))
    as (d & hosts & Hrun & Hu & _ & _ & _ & Hp & _).
  exists d. now split_and!.
Defined.

Lemma qualifies_active city type lo hi sd ed d :
  qualifies city type lo hi sd ed d = true ->
  qualifies None None None None None None d = true.
Proof.
  unfold qualifies. intros H. repeat apply andb_true_iff in H as [H _].
  now rewrite H.
Qed.

Lemma price_within_range (d : doc) lo hi :
  price_within d (Some lo) (Some hi) = true -> QArith_base.Qle lo hi.
Proof.
  unfold price_within. destruct (d !! "price_per_month"%string) as [v|]; [|discriminate].
  destruct (num v) as [p|]; [|discriminate].
  intros [H1 H2]%andb_true_iff.
  apply QArith_base.Qle_bool_iff in H1, H2. eapply QArith_base.Qle_trans; eauto.
Qed.

Lemma firstn_In {A} n (l : list A) x : In x (firstn n l) -> In x l.
Proof.
  intros H. apply list_elem_of_In. apply list_elem_of_In in H.
  now apply (subseteq_take n l).
Qed.

(** X19: Searching only narrows. A search without both dates returns a
    list: whatever the other filters and the limit, every property it
    returns is among those the search without filter and without limit
    returns; a limit other than zero bounds the number of results by
    its absolute value and keeps the first ones; and a least price
    above the greatest price finds nothing. A search with both dates
    returns no list: its filter holds the two calendar dates, which the
    driver cannot encode, and the request ends in an uncaught
    [InvalidDocument] (a 500) whatever is stored. *)
Theorem search_only_narrows city type lo hi sd ed lim db :
  (sd = None \/ ed = None ->
   exists docs everything unlimited,
     list_properties city type lo hi sd ed lim db = (db, Ok docs)
     /\ list_properties None None None None None None 0 db = (db, Ok everything)
     /\ list_properties city type lo hi sd ed 0 db = (db, Ok unlimited)
     /\ (forall d, In d docs -> In d everything)
     /\ (lim <> 0 -> docs = firstn (Z.to_nat (Z.abs lim)) unlimited
                     /\ Z.of_nat (length docs) <= Z.abs lim)
     /\ (forall m n, lo = Some m -> hi = Some n -> QArith_base.Qlt n m -> docs = []))
  /\ (forall s e,
        sd = Some s -> ed = Some e ->
        list_properties city type lo hi sd ed lim db
        = (db, Err (Unhandled InvalidDocument))
        /\ status (Unhandled InvalidDocument) = 500).
Proof.
  split; [|intros s e -> ->; split; [apply list_properties_dates | reflexivity]].
  intros Hd.
  rewrite !(list_properties_run city type lo hi sd ed) by exact Hd.
  rewrite list_properties_run by now left.
  eexists _, _, _. split_and!; try reflexivity.
  - intros d Hin. apply in_map_iff in Hin as (r & <- & Hr). apply in_map.
    unfold limit in *. cbn [Z.eqb].
    assert (Hin : In r (List.filter (fun r => qualifies city type lo hi sd ed (to_dict r))
                          (coll db "property")))
      by (destruct (lim =? 0); [exact Hr | now apply firstn_In in Hr]).
    apply filter_In in Hin as [Hin Hq]. apply filter_In. split; [exact Hin|].
    now apply qualifies_active in Hq.
  - intros Hlim. unfold limit. cbn [Z.eqb].
    rewrite (proj2 (Z.eqb_neq lim 0) Hlim). split.
    + now rewrite firstn_map.
    + rewrite length_map, length_firstn. lia.
  - intros m n -> -> Hlt.
    assert (E : List.filter (fun r => qualifies city type (Some m) (Some n) sd ed (to_dict r))
                  (coll db "property") = []).
    { induction (coll db "property") as [|r c IH]; [reflexivity|].
      cbn [List.filter]. destruct (qualifies _ _ _ _ _ _ _) eqn:E; [|exact IH].
      exfalso. unfold qualifies in E.
      apply andb_true_iff in E as [E _]. apply andb_true_iff in E as [_ E].
      apply price_within_range in E. exact (QArith_base.Qlt_not_le _ _ Hlt E). }
    rewrite E. unfold limit. destruct (lim =? 0); [reflexivity|].
    now rewrite firstn_nil.
Qed.

Lemma search_witness :
  list_properties None None (Some (QArith_base.inject_Z 2000))
    (Some (QArith_base.inject_Z 1000)) None None 50 samples.db_three
  = (samples.db_three, Ok [])
  /\ (exists docs,
        list_properties None None None None None None 1 samples.db_three
        = (samples.db_three, Ok docs)
        /\ Z.of_nat (length docs) <= 1)
  /\ list_properties None None None None (Some 739320) (Some 739330) 50 samples.db_three
     = (samples.db_three, Err (Unhandled InvalidDocument)).
Proof.
  split_and!.
  - destruct (proj1 (search_only_narrows None None (Some (QArith_base.inject_Z 2000))
                       (Some (QArith_base.inject_Z 1000)) None None 50 samples.db_three)
                ltac:(now left))
      as (docs & everything & unlimited & Hrun & _ & _ & _ & _ & Hempty).
    rewrite Hrun. now rewrite (Hempty _ _ eq_refl eq_refl ltac:(reflexivity)).
  - destruct (proj1 (search_only_narrows None None None None None None 1 samples.db_three)
                ltac:(now left))
      as (docs & everything & unlimited & Hrun & _ & _ & _ & Hlim & _).
    exists docs. split; [exact Hrun|]. apply (Hlim ltac:(discriminate)).
  - apply (proj2 (search_only_narrows None None None None (Some 739320) (Some 739330) 50
                    samples.db_three) 739320 739330 eq_refl eq_refl).
Defined.

(** ** The connectivity check *)

(** X20: The report of [test_database]: the backend is always running; with
    no database handle nothing is connected and no collection is
    named; with a handle that lists its collections at most the first
    ten names are reported; and when listing fails, the report shows
    the warning sign, a space and at most the first 80 code points of
    the message, names no collection, and still says [Connected] under
    [connection_status]. A variable of the environment that is set to
    the empty string counts as not set. *)
Theorem test_database_report environ (db : option health.handle) :
  let r := health.test_database environ db in
  health.backend r = health.check_mark ++ py.ustr_of_string " Running"
  /\ (db = None ->
      health.connection_status r = py.ustr_of_string "Not Connected"
      /\ health.database r = health.cross_mark ++ py.ustr_of_string " Not Available"
      /\ health.collections r = [])
  /\ (forall names,
        db = Some (health.Lists names) ->
        health.connection_status r = py.ustr_of_string "Connected"
        /\ health.database r = health.check_mark ++ py.ustr_of_string " Connected"
        /\ health.collections r = firstn 10 names
        /\ (length (health.collections r) <= 10)%nat
        /\ ((length names <= 10)%nat -> health.collections r = names))
  /\ (forall message,
        db = Some (health.Fails message) ->
        health.connection_status r = py.ustr_of_string "Connected"
        /\ health.collections r = []
        /\ health.database r
           = health.warning_sign ++ py.ustr_of_string " " ++ firstn 80 message
        /\ (length (health.database r) <= 83)%nat)
  /\ (environ !! "DATABASE_URL"%string = Some [] \/ environ !! "DATABASE_URL"%string = None ->
      health.database_url r = health.cross_mark ++ py.ustr_of_string " Not Set")
  /\ (forall c s, environ !! "DATABASE_NAME"%string = Some (c :: s) ->
                  health.database_name r = health.check_mark ++ py.ustr_of_string " Set").
Proof.
  cbv zeta. split_and!.
  - now destruct db as [[]|].
  - now intros ->.
  - intros names ->. cbn. split_and!; try reflexivity.
    + rewrite length_firstn. lia.
    + intros H. now apply firstn_all2.
  - intros message ->. cbn. split_and!; try reflexivity.
    rewrite length_firstn. lia.
  - intros H.
    assert (E : health.env_set environ "DATABASE_URL" = false)
      by (unfold health.env_set, py.ustr in *; destruct H as [H | H]; rewrite H; reflexivity).
    destruct db as [[]|]; cbn; unfold health.set_or_not; now rewrite E.
  - intros c s H.
    assert (E : health.env_set environ "DATABASE_NAME" = true)
      by (unfold health.env_set; now rewrite H).
    destruct db as [[]|]; cbn; unfold health.set_or_not; now rewrite E.
Qed.

Lemma test_database_witness :
  health.collections
    (health.test_database samples.environ (Some (health.Lists samples.twelve)))
  = ["a"; "b"; "c"; "d"; "e"; "f"; "g"; "h"; "i"; "j"]%string
  /\ health.connection_status
       (health.test_database samples.environ (Some (health.Fails samples.long_message)))
     = py.ustr_of_string "Connected"
  /\ length (health.database
               (health.test_database samples.environ
                  (Some (health.Fails samples.long_message))))
     = 83%nat
  /\ health.database_url (health.test_database samples.environ None)
     = health.cross_mark ++ py.ustr_of_string " Not Set".
Proof.
  pose proof (fun db => test_database_report samples.environ db) as H.
  split_and!.
  - destruct (proj1 (proj2 (proj2 (H (Some (health.Lists samples.twelve))))) _ eq_refl)
      as (_ & _ & Hc & _).
    rewrite Hc. reflexivity.
  - apply (proj1 (proj2 (proj2 (proj2 (H (Some (health.Fails samples.long_message))))))
             _ eq_refl).
  - destruct (proj1 (proj2 (proj2 (proj2 (H (Some (health.Fails samples.long_message))))))
                _ eq_refl) as (_ & _ & Hd & _).
    rewrite Hd. reflexivity.
  - apply (proj1 (proj2 (proj2 (proj2 (proj2 (H None)))))).
    right. reflexivity.
Defined.

(** ** Logging in *)

(** X21: A failed login does not tell why it failed: an e-mail no stored
    user has and a wrong password for a stored user are answered with
    the same 401, and neither writes. *)
Theorem login_failures_look_alike environ now sid tok db
    (unknown wrong : LoginBody.t) r h :
  mongo.find_one (coll db "user") (email_query (LoginBody.email unknown)) = None ->
  mongo.find_one (coll db "user") (email_query (LoginBody.email wrong))
  = Some (to_dict r) ->
  hash_password environ (LoginBody.password wrong) = Ok h ->
  get (to_dict r) "password_hash" <> VStr h ->
  login environ unknown now sid tok db = login environ wrong now sid tok db
  /\ exists detail,
       login environ wrong now sid tok db = (db, Err (HTTPException 401 detail)).
Proof.
  intros Hu Hw Hh Hne.
  rewrite (login_unknown _ _ _ _ _ _ Hu), (login_mismatch _ _ _ _ _ _ _ _ Hw Hh Hne).
  eauto.
Qed.

Lemma login_failures_witness :
  login samples.environ (LoginBody.make "eve@example.com" samples.password) 0
    samples.s1 samples.tok samples.db_ali
  = login samples.environ (LoginBody.make "ali@example.com" (py.ustr_of_string "guess")) 0
      samples.s1 samples.tok samples.db_ali.
Proof.
  apply (login_failures_look_alike samples.environ 0 samples.s1 samples.tok samples.db_ali
           (LoginBody.make "eve@example.com" samples.password)
           (LoginBody.make "ali@example.com" (py.ustr_of_string "guess"))
           (samples.u1, samples.ali)
           (hashlib.sha256_hexdigest
              (map Z.of_nat [103; 117; 101; 115; 115; 115; 97; 107; 110; 108; 105; 95;
                             115; 97; 108; 116]%nat))
           ltac:(reflexivity) ltac:(reflexivity) ltac:(reflexivity)).
  vm_compute. discriminate.
Defined.

Lemma find_one_app_none (c : collection) r q :
  mongo.find_one c q = None ->
  matches q (to_dict r) = true ->
  mongo.find_one (c ++ [r]) q = Some (to_dict r).
Proof.
  intros Hnone Hm. apply find_one_split; [exact Hm|]. now apply find_one_none.
Qed.

(** X22: Who has signed up can log in: after a successful [signup], [login]
    with the same e-mail and password succeeds, whatever the instant,
    and answers with the user [signup] answered with, under the new
    token. *)
Theorem signup_then_login environ (body : SignupBody.t) now uid sid tok db :
  py.is_text (getenv environ "PW_SALT" (py.ustr_of_string "saknli_salt")) = true ->
  py.is_text (SignupBody.password body) = true ->
  mongo.find_one (coll db "user") (email_query (SignupBody.email body)) = None ->
  has_id (coll db "user") uid = false ->
  has_id (coll db "session") sid = false ->
  exists db1 r,
    signup environ body now uid sid tok db = (db1, Ok r)
    /\ forall now' sid' tok',
         has_id (coll db1 "session") sid' = false ->
         exists db2,
           login environ
             (LoginBody.make (SignupBody.email body) (SignupBody.password body))
             now' sid' tok' db1
           = (db2, Ok {| token := tok'; user := user r |}).
Proof.
  intros Hsalt Hpw Hnew Hu Hs.
  destruct (hash_password_text environ _ Hsalt Hpw) as (bp & bs & _ & _ & Hh).
  rewrite (signup_ok _ _ _ _ _ _ _ _ Hnew Hh Hu Hs).
  eexists _, _. split; [reflexivity|]. cbn [user].
  intros now' sid' tok' Hs'. eexists.
  apply (login_ok environ (LoginBody.make _ _) now' sid' tok' _
           (uid, signup_user_doc body (hashlib.sha256_hexdigest (bp ++ bs)))
           (hashlib.sha256_hexdigest (bp ++ bs))).
  - cbn [LoginBody.email]. rewrite coll_insert_ne by discriminate.
    rewrite coll_insert_eq. apply find_one_app_none; [exact Hnew|].
    apply matches_email. cbn [snd]. apply signup_user_doc_fields.
  - exact Hh.
  - rewrite get_to_dict by discriminate. apply get_some. cbn [snd].
    apply signup_user_doc_fields.
  - exact Hs'.
Qed.

Lemma signup_then_login_witness :
  exists db1 db2 r,
    signup samples.environ (SignupBody.validate samples.plain_fields) 0
      samples.u1 samples.s1 samples.tok ∅ = (db1, Ok r)
    /\ login samples.environ (LoginBody.make "ali@example.com" samples.password) 9
         samples.s2 "dG9rZW4tMg" db1
       = (db2, Ok {| token := "dG9rZW4tMg"; user := user r |}).
Proof.
  destruct (signup_then_login samples.environ (SignupBody.validate samples.plain_fields) 0
              samples.u1 samples.s1 samples.tok ∅
              ltac:(reflexivity) ltac:(reflexivity) ltac:(reflexivity)
              ltac:(reflexivity) ltac:(reflexivity))
    as (db1 & r & Hrun & Hlogin).
  assert (Hfresh : has_id (coll db1 "session") samples.s2 = false).
  { assert (Hnew : mongo.find_one (coll ∅ "user")
                     (Field "email"
                        (Is (VStr (SignupBody.email
                                     (SignupBody.validate samples.plain_fields)))))
                   = None) by reflexivity.
    rewrite (signup_ok samples.environ _ 0 samples.u1 samples.s1 samples.tok ∅ _
               Hnew hash_password_secret eq_refl eq_refl) in Hrun.
    injection Hrun as <- _. rewrite coll_insert_eq. reflexivity. }
  destruct (Hlogin 9 samples.s2 "dG9rZW4tMg"%string Hfresh) as (db2 & Hrun2).
  exists db1, db2, r. split; [exact Hrun | exact Hrun2].
Defined.

(** ** Sessions last *)

Lemma find_one_grows (c c' : collection) q d :
  grows c c' -> mongo.find_one c q = Some d -> mongo.find_one c' q = Some d.
Proof.
  intros [l ->]. unfold mongo.find_one. rewrite find_app.
  now destruct (mongo.find c q).
Qed.

Lemma get_current_user_grows authorization now db db' caller :
  grows (coll db "session") (coll db' "session") ->
  grows (coll db "user") (coll db' "user") ->
  get_current_user authorization now db = (db, Ok caller) ->
  get_current_user authorization now db' = (db', Ok caller).
Proof.
  intros Hs Hu. unfold get_current_user.
  destruct (negb _ || negb _); [discriminate|]. run.
  destruct (py.split _ !! 1%nat) as [tok|]; [|discriminate].
  destruct (mongo.find_one (coll db "session") _) as [s|] eqn:Es; [|discriminate].
  rewrite (find_one_grows _ _ _ _ Hs Es).
  destruct (bool_decide (s = ∅)); [discriminate|].
  destruct (item s "user_id") as [v|]; [|discriminate].
  destruct (session_user_id v) as [[o|]|]; [|discriminate|discriminate].
  destruct (mongo.find_one (coll db "user") _) as [u|] eqn:Eu; [|discriminate].
  rewrite (find_one_grows _ _ _ _ Hu Eu).
  destruct (bool_decide (u = ∅)); [discriminate|].
  destruct (user_safe u); [|discriminate]. now intros [= <-].
Qed.

Lemma still_authenticated authorization now db db' caller :
  append_only db db' ->
  get_current_user authorization now db = (db, Ok caller) ->
  get_current_user authorization now db' = (db', Ok caller).
Proof.
  intros H. apply get_current_user_grows; apply H; discriminate.
Qed.

(** X23: No request ends a session or changes whom it stands for: a header
    that resolves to a caller resolves to the same caller, at the same
    instant, after any run of a writing handler, whatever its input and
    its outcome. There is no logout. *)
Theorem sessions_survive environ authorization now db caller :
  get_current_user authorization now db = (db, Ok caller) ->
  let still db' := get_current_user authorization now db' = (db', Ok caller) in
  (forall body now' uid sid tok,
     still (fst (signup environ body now' uid sid tok db)))
  /\ (forall body now' sid tok, still (fst (login environ body now' sid tok db)))
  /\ (forall body other pid, still (fst (create_property body other pid db)))
  /\ (forall prop_id body other now',
        still (fst (update_property prop_id body other now' db)))
  /\ (forall prop_id other, still (fst (delete_property prop_id other db)))
  /\ (forall prop_id other, still (fst (admin_delete_property prop_id other db)))
  /\ (forall body other bid, still (fst (create_booking body other bid db))).
Proof.
  intros H still. subst still. cbv beta.
  split_and!; intros; (apply (still_authenticated _ _ db); [|exact H]).
  - apply signup_appends.
  - apply login_appends.
  - apply create_property_appends.
  - apply update_property_appends.
  - apply delete_property_appends.
  - apply admin_delete_property_appends.
  - apply create_booking_appends.
Qed.

Lemma sessions_survive_witness :
  let db' := fst (login samples.environ
                    (LoginBody.make "ali@example.com" samples.password) 9
                    samples.s2 samples.tok samples.db_session) in
  get_current_user (Some ("Bearer " +:+ samples.tok)) 5 db'
  = (db', Ok (public_view (samples.u1, samples.ali))).
Proof.
  exact (proj1 (proj2 (sessions_survive samples.environ (Some ("Bearer " +:+ samples.tok)) 5
                         samples.db_session (public_view (samples.u1, samples.ali))
                         ltac:(reflexivity)))
           (LoginBody.make "ali@example.com" samples.password) 9 samples.s2 samples.tok).
Defined.

(** ** Every request as a sequence of writes *)

Ltac cases :=
  repeat match goal with
         | |- context [match ?x with _ => _ end] =>
             lazymatch x with
             | context [match _ with _ => _ end] => fail
             | _ => destruct x eqn:?
             end
         end.

Lemma signup_changes environ body now uid sid tok db :
  rtc change db (fst (signup environ body now uid sid tok db)).
Proof.
  unfold signup. run.
  destruct (mongo.find_one (coll db "user") _) as [d|] eqn:E.
  { destruct (find_one_in _ _ _ E) as (r & _ & -> & _).
    rewrite bool_decide_eq_false_2 by apply to_dict_nonempty. apply rtc_refl. }
  fold (email_query (SignupBody.email body)) in E.
  destruct (hash_password environ _) as [h|]; [|apply rtc_refl].
  rewrite encode_user.
  destruct (has_id (coll db "user") uid) eqn:Hu; [apply rtc_refl|].
  fold (signup_user_doc body h).
  assert (H1 : change db (<["user"%string :=
                              coll db "user" ++ [(uid, signup_user_doc body h)]]> db)).
  { apply new_user; [exact Hu|]. intros r Hr.
    destruct (signup_user_doc_fields body h) as (_ & _ & -> & _).
    intros Hmail. apply find_one_none in E. rewrite List.Forall_forall in E.
    specialize (E r Hr). apply not_true_iff_false in E. apply E.
    now apply matches_email. }
  set (db1 := <["user"%string := _]> db) in *.
  rewrite encode_session by reflexivity.
  destruct (has_id (coll db1 "session") sid) eqn:Hs; [now apply rtc_once|].
  assert (H2 : change db1 (<["session"%string :=
                 coll db1 "session"
                 ++ [(sid, <["user_id"%string := VOid uid]>
                             (Session.model_dump
                                (Session.make (bson.str uid) tok
                                   (millis (now + timedelta_days 7)))))]]>
                 db1)).
  { apply (new_session db1 sid _ (uid, signup_user_doc body h)); [exact Hs | |].
    - unfold db1. rewrite coll_insert_eq. apply in_elt.
    - apply lookup_insert_eq. }
  cases; cbn [fst]; eapply rtc_l; eauto using rtc_once.
Qed.

Lemma login_changes environ body now sid tok db :
  rtc change db (fst (login environ body now sid tok db)).
Proof.
  unfold login. run.
  destruct (mongo.find_one (coll db "user") _) as [d|] eqn:E; [|apply rtc_refl].
  destruct (find_one_in _ _ _ E) as (r & Hr & -> & _).
  rewrite bool_decide_eq_false_2 by apply to_dict_nonempty.
  destruct (hash_password environ _) as [h|]; [|apply rtc_refl].
  destruct (negb _); [apply rtc_refl|].
  unfold item. rewrite to_dict_id. cbn [py_str].
  rewrite encode_session by reflexivity.
  destruct (has_id (coll db "session") sid) eqn:Hs; [apply rtc_refl|].
  cases; cbn [fst]; apply rtc_once;
    (apply (new_session db sid _ r); [exact Hs | exact Hr | apply lookup_insert_eq]).
Qed.

Lemma protected_changes {A} authorization now (handler : doc -> M A) db :
  (forall r, In r (coll db "user") ->
             rtc change db (fst (handler (public_view r) db))) ->
  rtc change db (fst (protected authorization now handler db)).
Proof.
  intros H. unfold protected, bind.
  destruct (get_current_user authorization now db) as [db1 [caller|e]] eqn:E.
  - destruct (get_current_user_inv _ _ _ _ _ E) as (-> & r & Hr & ->). now apply H.
  - pose proof (get_current_user_reads authorization now db) as Hdb.
    rewrite E in Hdb. cbn [fst] in *. rewrite Hdb. apply rtc_refl.
Qed.

Lemma reads_change {A} (m : M A) db : preserves untouched m -> rtc change db (fst (m db)).
Proof. intros H. rewrite (H db). apply rtc_refl. Qed.

Lemma create_property_changes body r pid db :
  In r (coll db "user") ->
  rtc change db (fst (create_property body (public_view r) pid db)).
Proof.
  intros Hr. unfold create_property.
  destruct (negb _); [apply rtc_refl|]. run.
  unfold item. rewrite public_view_id.
  unfold Property.validate. destruct (QArith_base.Qle_bool _ _); [|apply rtc_refl].
  destruct (encode _) as [stored|] eqn:Ee; [|apply rtc_refl].
  destruct (has_id (coll db "property") pid) eqn:Hp; [apply rtc_refl|].
  assert (Hhost : stored !! "host_id"%string = Some (VStr (bson.str (fst r))))
    by now rewrite (encode_lookup _ _ "host_id" Ee).
  cases; cbn [fst]; apply rtc_once;
    (apply (new_property db pid _ r); [exact Hp | exact Hr | exact Hhost]).
Qed.

Lemma update_property_changes prop_id body caller now db :
  rtc change db (fst (update_property prop_id body caller now db)).
Proof.
  destruct (property_cases prop_id db)
    as [Hp | [(o & Hp & Hno) | (o & pre & stored & post & Hp & Hc & Hpre)]].
  - rewrite update_property_bad_id by exact Hp. apply rtc_refl.
  - rewrite (update_property_missing _ _ _ _ _ _ Hp Hno). apply rtc_refl.
  - rewrite (update_property_run _ _ _ _ _ _ _ _ _ Hp Hc Hpre).
    destruct (negb _ && negb _); [apply rtc_refl|].
    destruct (bool_decide _); [apply rtc_refl|].
    destruct (dated body); [apply rtc_refl|].
    cbn [fst]. apply rtc_once. apply (changed_property db pre o stored _ post Hc).
    rewrite stamped_lookup, decide_False by discriminate.
    now rewrite update_has_no_host.
Qed.

Lemma delete_property_changes prop_id caller db :
  rtc change db (fst (delete_property prop_id caller db)).
Proof.
  destruct (property_cases prop_id db)
    as [Hp | [(o & Hp & Hno) | (o & pre & stored & post & Hp & Hc & Hpre)]].
  - unfold delete_property, bind, lift, to_object_id. rewrite Hp. apply rtc_refl.
  - apply find_by_id_none in Hno. unfold delete_property. run. unfold to_object_id.
    rewrite Hp, Hno. apply rtc_refl.
  - rewrite (delete_property_run _ _ _ _ _ _ _ Hp Hc Hpre).
    destruct (negb _ && negb _); [apply rtc_refl|].
    cbn [fst]. apply rtc_once. now apply (removed_property db pre (o, stored) post).
Qed.

Lemma admin_delete_property_changes prop_id caller db :
  rtc change db (fst (admin_delete_property prop_id caller db)).
Proof.
  unfold admin_delete_property. destruct (negb _); [apply rtc_refl|].
  unfold bind, lift, to_object_id, delete_one, ret.
  destruct (bson.parse prop_id) as [o|]; [|apply rtc_refl].
  destruct (mongo.find_one (coll db "property") (by_id o)) as [d|] eqn:E; [|apply rtc_refl].
  destruct (find_one_some _ _ _ E) as (pre & r & post & Hc & _ & Hm & Hpre).
  cbn [fst]. rewrite Hc at 1. rewrite (delete_first_split _ _ _ _ Hm Hpre).
  apply rtc_once. now apply (removed_property db pre r post).
Qed.

Lemma create_booking_changes body caller bid db :
  rtc change db (fst (create_booking body caller bid db)).
Proof. rewrite (proj1 (create_booking_never_stores body caller bid db)). apply rtc_refl. Qed.

Lemma serves_changes environ db db' : serves environ db db' -> rtc change db db'.
Proof.
  destruct 1.
  - apply signup_changes.
  - apply login_changes.
  - apply protected_changes. intros r _. apply rtc_refl.
  - apply reads_change, list_properties_reads.
  - apply reads_change, get_property_reads.
  - apply protected_changes. intros r Hr. now apply create_property_changes.
  - apply protected_changes. intros r _. apply update_property_changes.
  - apply protected_changes. intros r _. apply delete_property_changes.
  - apply protected_changes. intros r _. apply create_booking_changes.
  - apply protected_changes. intros r _. apply reads_change, my_bookings_reads.
  - apply protected_changes. intros r _. apply reads_change, host_bookings_reads.
  - apply protected_changes. intros r _. apply reads_change, admin_stats_reads.
  - apply protected_changes. intros r _. apply reads_change, admin_users_reads.
  - apply protected_changes. intros r _. apply admin_delete_property_changes.
Qed.

Lemma reachable_invariant environ (I : database -> Prop) :
  I ∅ ->
  (forall db db', I db -> change db db' -> I db') ->
  forall db, reachable environ db -> I db.
Proof.
  intros H0 Hstep db Hdb. induction Hdb as [|db db' _ IH Hs]; [exact H0|].
  apply serves_changes in Hs. induction Hs as [|a b c Hab _ IHs]; [exact IH|].
  apply IHs. now apply (Hstep a b).
Qed.

(** ** What holds of every database the application reaches *)

Lemma step_invariant environ (I : database -> Prop) :
  (forall db db', I db -> change db db' -> I db') ->
  forall db db', I db -> serves environ db db' -> I db'.
Proof.
  intros Hstep db db' H Hs. apply serves_changes in Hs.
  induction Hs as [|a b c Hab _ IH]; [exact H|]. apply IH. now apply (Hstep a b).
Qed.

Lemma unique_ids_empty : unique_ids ∅.
Proof. intros name. constructor. Qed.

Lemma unique_ids_set (db : database) name c :
  map fst c = map fst (coll db name) \/ NoDup (map fst c) ->
  unique_ids db -> unique_ids (<[name := c]> db).
Proof.
  intros H U name'. destruct (decide (name = name')) as [<- | Hne].
  - rewrite coll_insert_eq. destruct H as [-> | H]; [apply U | exact H].
  - rewrite coll_insert_ne by exact Hne. apply U.
Qed.

Lemma unique_ids_change db db' : unique_ids db -> change db db' -> unique_ids db'.
Proof.
  intros U []; try (now apply unique_ids_insert).
  - apply unique_ids_set; [|exact U]. left.
    rewrite H. now rewrite !map_app.
  - apply unique_ids_set; [|exact U]. right.
    pose proof (U "property"%string) as Hu. rewrite H, map_app in Hu. rewrite map_app.
    cbn [map] in Hu. apply NoDup_app in Hu as (H1 & H2 & [_ H3]%NoDup_cons).
    apply NoDup_app. split_and!; [exact H1 | | exact H3].
    intros x Hx Hin. apply (H2 x Hx). now right.
Qed.

(** X24: Identifiers stay unique: a request served on a database in which no
    two documents of a collection have the same identifier leaves such
    a database, and so every database the application reaches from the
    empty one is such a database. *)
Theorem identifiers_stay_unique environ :
  (forall db db', unique_ids db -> serves environ db db' -> unique_ids db')
  /\ (forall db, reachable environ db -> unique_ids db).
Proof.
  split.
  - apply step_invariant. exact unique_ids_change.
  - apply reachable_invariant; [exact unique_ids_empty | exact unique_ids_change].
Qed.

Lemma unique_emails_change db db' :
  unique_emails db -> change db db' -> unique_emails db'.
Proof.
  unfold unique_emails. intros U []; try (now rewrite coll_insert_ne by discriminate).
  rewrite coll_insert_eq, map_app. apply NoDup_app. split_and!.
  - exact U.
  - intros x Hx Hin. apply list_elem_of_In in Hx, Hin.
    destruct Hin as [<- | []]. apply in_map_iff in Hx as (r & Heq & Hr).
    now apply (H0 r Hr).
  - cbn. apply NoDup_singleton.
Qed.

(** X25: E-mails stay unique: when requests are served one after another, no
    two stored users ever have the same e-mail. *)
Theorem emails_stay_unique environ :
  (forall db db', unique_emails db -> serves environ db db' -> unique_emails db')
  /\ (forall db, reachable environ db -> unique_emails db).
Proof.
  split.
  - apply step_invariant. exact unique_emails_change.
  - apply reachable_invariant; [constructor | exact unique_emails_change].
Qed.

Lemma bookings_change db db' : change db db' -> coll db' "booking" = coll db "booking".
Proof. intros []; now rewrite coll_insert_ne by discriminate. Qed.

Lemma bookings_pending_change db db' :
  bookings_pending db -> change db db' -> bookings_pending db'.
Proof. unfold bookings_pending. intros U H. now rewrite (bookings_change _ _ H). Qed.

(** X26: Bookings stay pending: every stored booking has the status
    [pending] and refers to its property and its user by identifier;
    no request confirms, rejects or cancels a booking. *)
Theorem bookings_stay_pending environ :
  (forall db db', bookings_pending db -> serves environ db db' -> bookings_pending db')
  /\ (forall db, reachable environ db -> bookings_pending db).
Proof.
  split.
  - apply step_invariant. exact bookings_pending_change.
  - apply reachable_invariant; [constructor | exact bookings_pending_change].
Qed.

Lemma of_a_user_mono db db' v :
  (forall r, In r (coll db "user") -> In r (coll db' "user")) ->
  of_a_user db v -> of_a_user db' v.
Proof. intros H (r & Hr & Hv). exists r. auto. Qed.

Lemma hosted_by_a_user_mono db db' v :
  (forall r, In r (coll db "user") -> In r (coll db' "user")) ->
  hosted_by_a_user db v -> hosted_by_a_user db' v.
Proof. intros H (r & Hr & Hv). exists r. auto. Qed.

Lemma references_hold_mono db db' :
  (forall r, In r (coll db "user") -> In r (coll db' "user")) ->
  coll db' "session" = coll db "session" ->
  coll db' "booking" = coll db "booking" ->
  coll db' "property" = coll db "property" ->
  references_hold db -> references_hold db'.
Proof.
  intros Hu Hs Hb Hp (H1 & H2 & H3). unfold references_hold. rewrite Hs, Hb, Hp.
  split_and!; (eapply Forall_impl; [eassumption|]); cbn beta; intros x;
    eauto using of_a_user_mono, hosted_by_a_user_mono.
Qed.

Lemma references_hold_change db db' :
  references_hold db -> change db db' -> references_hold db'.
Proof.
  intros (H1 & H2 & H3) [].
  - apply (references_hold_mono db); try (now rewrite coll_insert_ne by discriminate);
      [|now split_and!].
    intros r Hr. rewrite coll_insert_eq. apply in_or_app. now left.
  - unfold references_hold, of_a_user, hosted_by_a_user.
    rewrite coll_insert_eq, !coll_insert_ne by discriminate.
    split_and!; [|exact H2 | exact H3].
    apply Forall_app. split; [exact H1|]. apply Forall_cons. split; [|constructor]. cbn [snd]. eauto.
  - unfold references_hold, of_a_user, hosted_by_a_user.
    rewrite coll_insert_eq, !coll_insert_ne by discriminate.
    split_and!; [exact H1 | exact H2 |].
    apply Forall_app. split; [exact H3|]. apply Forall_cons. split; [|constructor]. cbn [snd]. eauto.
  - unfold references_hold, of_a_user, hosted_by_a_user.
    rewrite coll_insert_eq, !coll_insert_ne by discriminate.
    split_and!; [exact H1 | exact H2 |].
    rewrite H in H3. apply Forall_app in H3 as [Hpre [Hp Hpost]%Forall_cons].
    apply Forall_app. split; [exact Hpre|]. apply Forall_cons. split; [|exact Hpost].
    cbn [snd] in *. unfold hosted_by_a_user in Hp. now rewrite H0.
  - unfold references_hold, of_a_user, hosted_by_a_user.
    rewrite coll_insert_eq, !coll_insert_ne by discriminate.
    split_and!; [exact H1 | exact H2 |].
    rewrite H in H3. apply Forall_app in H3 as [Hpre [_ Hpost]%Forall_cons].
    apply Forall_app. now split.
Qed.

(** X27: References to users hold: every stored session and every stored
    booking carries the identifier of a stored user, and every stored
    property is hosted by a stored user; no request removes a user. *)
Theorem references_to_users_hold environ :
  (forall db db', references_hold db -> serves environ db db' -> references_hold db')
  /\ (forall db, reachable environ db -> references_hold db).
Proof.
  split.
  - apply step_invariant. exact references_hold_change.
  - apply reachable_invariant; [|exact references_hold_change].
    unfold references_hold. now split_and!.
Qed.

(** ** The invariants on a sample run *)

Lemma after_booking_reachable : reachable samples.environ samples.after_booking.
Proof.
  apply (reachable_step _ samples.listed); [|apply post_bookings].
  apply (reachable_step _ samples.signed_up); [|apply post_properties].
  apply (reachable_step _ ∅); [apply reachable_empty | apply post_auth_signup].
Qed.

Example after_booking_sizes :
  length (coll samples.after_booking "user") = 1%nat
  /\ length (coll samples.after_booking "session") = 1%nat
  /\ length (coll samples.after_booking "property") = 1%nat
  /\ length (coll samples.after_booking "booking") = 0%nat.
Proof. vm_compute. auto. Qed.

Lemma identifiers_witness : unique_ids samples.after_booking.
Proof.
  exact (proj2 (identifiers_stay_unique samples.environ) _ after_booking_reachable).
Defined.

Lemma emails_witness : unique_emails samples.after_booking.
Proof.
  exact (proj2 (emails_stay_unique samples.environ) _ after_booking_reachable).
Defined.

Lemma bookings_pending_witness : bookings_pending samples.after_booking.
Proof.
  exact (proj2 (bookings_stay_pending samples.environ) _ after_booking_reachable).
Defined.

Lemma references_witness : references_hold samples.after_booking.
Proof.
  exact (proj2 (references_to_users_hold samples.environ) _ after_booking_reachable).
Defined.

(** ** No request stores a booking *)




(** ** Bookings of a deleted property *)

Lemma my_bookings_frame caller db db' :
  coll db' "booking" = coll db "booking" ->
  my_bookings caller db' = (db', snd (my_bookings caller db)).
Proof.
  intros H. unfold my_bookings, bind, lift, find_all, ret.
  destruct (item caller "id") as [v|]; [|reflexivity].
  destruct (ObjectId_of v) as [[o|]|]; try reflexivity.
  rewrite H. now destruct (mapM _ _).
Qed.

Lemma has_id_not_in_fst (c : collection) o p : has_id c o = false -> In p c -> fst p <> o.
Proof.
  intros H Hp E. apply has_id_not_in in H. apply H. rewrite <- E. now apply in_map.
Qed.

(** X28: Deleting a property leaves its bookings behind: after
    [delete_property] succeeds the bookings are stored as before and
    [my_bookings] returns to every caller what it returned before,
    the bookings of the deleted property too; a new booking of that
    property is answered with 404; and [host_bookings] no longer shows
    any booking of it. *)
Theorem bookings_outlive_their_property prop_id caller db o pre stored post :
  bson.parse prop_id = Some o ->
  coll db "property" = pre ++ (o, stored) :: post ->
  has_id pre o = false ->
  has_id post o = false ->
  get caller "role" = VStr "admin"
  \/ py_eq (get stored "host_id") (get caller "id") = true ->
  exists db',
    delete_property prop_id caller db = (db', Ok {[ "deleted"%string := VBool true ]})
    /\ coll db' "booking" = coll db "booking"
    /\ (forall guest, my_bookings guest db' = (db', snd (my_bookings guest db)))
    /\ (forall body guest bid,
          BookingCreate.start_date body <= BookingCreate.end_date body ->
          bson.parse (BookingCreate.property_id body) = Some o ->
          exists detail,
            create_booking body guest bid db' = (db', Err (HTTPException 404 detail)))
    /\ (forall host i,
          get host "role" = VStr "host" \/ get host "role" = VStr "admin" ->
          host !! "id"%string = Some (VStr i) ->
          bookings_pending db ->
          exists l,
            host_bookings host db' = (db', Ok l)
            /\ Forall (fun d : doc =>
                         d !! "property_id"%string <> Some (VStr (bson.str o))) l).
Proof.
  intros Hp Hc Hpre Hpost Hallowed.
  pose proof (delete_property_run _ caller _ _ _ _ _ Hp Hc Hpre) as Hrun.
  replace (negb (py_eq (get caller "role") (VStr "admin"))
           && negb (py_eq (get stored "host_id") (get caller "id"))) with false in Hrun.
  2:{ symmetry. destruct Hallowed as [H | H].
      - now rewrite (is_admin _ H).
      - rewrite H. apply andb_false_r. }
  set (db' := <["property"%string := pre ++ post]> db) in *.
  assert (Hb : coll db' "booking" = coll db "booking") by now apply coll_insert_ne.
  assert (Hgone : has_id (coll db' "property") o = false).
  { unfold db'. now rewrite coll_insert_eq, has_id_app2, Hpre, Hpost. }
  exists db'. split_and!.
  - exact Hrun.
  - exact Hb.
  - intros guest. now apply my_bookings_frame.
  - intros body guest bid Hd Hparse. eexists.
    now apply (create_booking_missing _ _ _ _ o).
  - intros host i Hrole Hid Hshape. apply host_or_admin_iff in Hrole.
    assert (Hshape' : bookings_pending db') by (unfold bookings_pending; now rewrite Hb).
    rewrite (host_bookings_run _ _ _ Hrole Hid Hshape').
    eexists. split; [reflexivity|].
    apply Forall_forall. intros d Hd. apply list_elem_of_In in Hd.
    apply in_map_iff in Hd as (r & <- & Hr). apply filter_In in Hr as [_ Hr].
    apply existsb_exists in Hr as (p & Hin & Hr). apply filter_In in Hin as [Hin _].
    apply is_value_oid in Hr.
    destruct (booking_listed_fields r) as (_ & _ & _ & -> & _).
    unfold ref. rewrite Hr. intros [= E]. apply oid_eq in E.
    now apply (has_id_not_in_fst _ _ _ Hgone Hin).
Qed.

Lemma bookings_outlive_witness :
  exists db' l,
    delete_property "0000000000000000000000c1" samples.host samples.db_booked
    = (db', Ok {[ "deleted"%string := VBool true ]})
    /\ my_bookings samples.host db' = (db', snd (my_bookings samples.host samples.db_booked))
    /\ host_bookings samples.host db' = (db', Ok l)
    /\ Forall (fun d : doc =>
                 d !! "property_id"%string <> Some (VStr (bson.str samples.p1))) l.
Proof.
  destruct (bookings_outlive_their_property "0000000000000000000000c1" samples.host
              samples.db_booked samples.p1 [] samples.ankara []
              ltac:(reflexivity) ltac:(reflexivity) ltac:(reflexivity) ltac:(reflexivity)
              ltac:(right; reflexivity))
    as (db' & Hrun & _ & Hmine & _ & Hhost).
  destruct (Hhost samples.host (bson.str samples.u1) ltac:(left; reflexivity)
              ltac:(reflexivity) db_booked_pending) as (l & Hl & Hnone).
  exists db', l. split_and!; [exact Hrun | apply Hmine | exact Hl | exact Hnone].
Defined.
